(** * Velocity Installer: release tracking, asset download and self-update

    A shallow embedding of [github_downloader.go] (both variants found in
    the repository: the multi-asset one and the single [desktop.asar] one)
    and of [self_updater.go], together with the properties of the
    version-synchronisation and self-replacement engine.

    Go strings are modelled as [string] (sequences of bytes), package-level
    variables as fields of explicit state records, the file system as a
    finite map from paths to files, and everything the program obtains from
    the outside (HTTP responses, failures of system calls) as an explicit
    environment record, so that "for every execution" reads "for every
    environment and every initial state". *)

From Stdlib Require Import ZArith Ascii Bool Lia List.
From Stdlib Require DecimalString DecimalZ.
From stdpp Require Import gmap strings.
Import ListNotations.

Local Open Scope Z_scope.

(* ===================================================================== *)
(** ** Go's [strings] package (the functions the installer calls) *)
(* ===================================================================== *)

Module gostrings.

(** The test [strings.ToLower] starts with: no byte is [utf8.RuneSelf]
    (0x80) or above. *)
Fixpoint isASCII (s : string) : bool :=
  match s with
  | EmptyString => true
  | String c s' => (N_of_ascii c <? 128)%N && isASCII s'
  end.

(** [strings.ToLower] on a string that passes [isASCII], which is the
    branch the library takes for it: the letters 'A'..'Z' are mapped to
    'a'..'z' byte by byte, every other byte is left as it is.  For a
    string with a byte above 0x7F the library maps rune by rune with
    [unicode.ToLower]; that branch is not modelled, so a statement that
    depends on how such a name is lowered carries [isASCII] as a
    hypothesis. *)
Definition lower_byte (c : ascii) : ascii :=
  let n := N_of_ascii c in
  if ((65 <=? n) && (n <=? 90))%N then ascii_of_N (n + 32) else c.

Fixpoint ToLower (s : string) : string :=
  match s with
  | EmptyString => EmptyString
  | String c s' => String (lower_byte c) (ToLower s')
  end.

(** [strings.HasPrefix(s, prefix)] *)
Fixpoint HasPrefix (s prefix : string) {struct prefix} : bool :=
  match prefix, s with
  | EmptyString, _ => true
  | String _ _, EmptyString => false
  | String p prefix', String c s' => Ascii.eqb p c && HasPrefix s' prefix'
  end.

(** [strings.Index(s, substr)]: byte offset of the first occurrence, or -1. *)
Fixpoint Index (s substr : string) : Z :=
  if HasPrefix s substr then 0
  else match s with
       | EmptyString => -1
       | String _ s' =>
           let r := Index s' substr in
           if r <? 0 then -1 else r + 1
       end.

(** [strings.Contains(s, substr)] is [Index(s, substr) >= 0]. *)
Definition Contains (s substr : string) : bool := 0 <=? Index s substr.

(** [s[i:]] for an index already known to be in range. *)
Definition slice_from (s : string) (i : Z) : string :=
  String.substring (Z.to_nat i) (String.length s - Z.to_nat i)%nat s.

(** [strings.HasSuffix(s, suffix)]:
    [len(s) >= len(suffix) && s[len(s)-len(suffix):] == suffix]. *)
Definition HasSuffix (s suffix : string) : bool :=
  (String.length suffix <=? String.length s)%nat
  && String.eqb
       (slice_from s (Z.of_nat (String.length s - String.length suffix)))
       suffix.

(** [strings.LastIndex(s, substr)]: byte offset of the last occurrence,
    or -1 ([len(s)] for the empty [substr]). *)
Fixpoint LastIndex (s substr : string) : Z :=
  match s with
  | EmptyString => if HasPrefix s substr then 0 else -1
  | String _ s' =>
      let r := LastIndex s' substr in
      if 0 <=? r then r + 1
      else if HasPrefix s substr then 0 else -1
  end.

(** Occurrence of a byte, used to reason about the functions above. *)
Fixpoint has_byte (c : ascii) (s : string) : bool :=
  match s with
  | EmptyString => false
  | String d s' => Ascii.eqb c d || has_byte c s'
  end.

End gostrings.

(* ===================================================================== *)
(** ** Go values: errors, results, the generic [Ternary] helper *)
(* ===================================================================== *)

(** Go [error] values.  [errors_New] and [fmt_Errorf] are the two ways the
    installer builds errors itself ([fmt_Errorf msg cause] stands for
    [fmt.Errorf(msg + ": %w", cause)]); the remaining constructors are
    errors handed back by the operating system or by a library. *)
Inductive error : Type :=
| errors_New (msg : string)
| fmt_Errorf (msg : string) (cause : error)
| os_ErrNotExist
| os_ErrPermission
| ext_error (msg : string).

(** [io.EOF] and [io.ErrUnexpectedEOF], the two errors with which the
    standard readers report the end of a stream. *)
Definition io_EOF : error := ext_error "EOF".
Definition io_ErrUnexpectedEOF : error := ext_error "unexpected EOF".

(** [errors.Is(err, os.ErrNotExist)]: follows the [%w] chain. *)
Fixpoint errors_Is_ErrNotExist (err : error) : bool :=
  match err with
  | os_ErrNotExist => true
  | fmt_Errorf _ cause => errors_Is_ErrNotExist cause
  | _ => false
  end.

(** [err == nil] for a Go [error] held as an option. *)
Definition isNil (err : option error) : bool :=
  match err with None => true | Some _ => false end.

(** A Go pair [(value, err)] of which exactly one side is meaningful. *)
Inductive Result (A : Type) : Type :=
| Ok (a : A)
| Err (e : error).
Arguments Ok {A} a.
Arguments Err {A} e.

(** [Ternary(cond, a, b)]: the package's generic conditional helper; it is
    declared in another file of the package, its call sites fix what it
    computes. *)
Definition Ternary {A : Type} (cond : bool) (a b : A) : A :=
  if cond then a else b.

(* ===================================================================== *)
(** ** Release descriptors (the JSON schema of [GithubRelease]) *)
(* ===================================================================== *)

Module Asset.
Record t : Type := Build { Name : string; DownloadURL : string }.
End Asset.

Module GithubRelease.
Record t : Type :=
  Build { Name : string; TagName : string; Assets : list Asset.t }.
(** The zero value of the struct. *)
Definition zero : t := Build "" "" [].
End GithubRelease.

(* ===================================================================== *)
(** ** The outside world: files, events, HTTP responses, the environment *)
(* ===================================================================== *)

Record File : Type := mkFile { data : string; perm : N }.

(** Effects the program performs, in the order it performs them. *)
Inductive Event : Type :=
| EvHttpGet (url : string)
| EvMkdirAll (path : string)
| EvOpenFile (path : string)
| EvWrite (path : string) (n : Z)
| EvCreateTemp (path : string)
| EvChmod (path : string)
| EvRemove (path : string)
| EvRename (oldpath newpath : string)
| EvSleep.

Record World : Type := mkWorld {
  fs : gmap string File;      (* regular files by path *)
  trace : list Event;         (* effects performed so far, oldest first *)
  clock : nat                 (* seconds slept so far *)
}.

Definition set_fs (f : gmap string File -> gmap string File) (w : World) : World :=
  mkWorld (f (fs w)) (trace w) (clock w).
Definition log (ev : Event) (w : World) : World :=
  mkWorld (fs w) (trace w ++ [ev]) (clock w).
Definition tick (w : World) : World :=
  mkWorld (fs w) (trace w) (S (clock w)).

(** An HTTP response as the installer looks at it: status, the
    [Content-Length] header as [Header.Get] returns it, and the body as a
    stream that yields [Body] and then ends, cleanly or with a read error. *)
Record Response : Type := mkResponse {
  StatusCode : Z;
  Status : string;
  ContentLength : string;
  Body : string;
  BodyErr : option error
}.

(** What [json.NewDecoder(r).Decode(&data)] makes of the bytes a stream
    has yielded, before it looks at how the stream ends: the bytes hold a
    complete JSON value that fits the struct ([Value]); they hold a
    syntax error or a value that does not fit ([Invalid]); or no value is
    complete yet ([Incomplete]) and the decoder reads on.  [Incomplete]
    carries the error [Decode] returns when the stream ends cleanly at
    that point ([io.EOF] on blank input, [io.ErrUnexpectedEOF] inside a
    value). *)
Inductive Decoded : Type :=
| Value (data : GithubRelease.t)
| Invalid (err : error)
| Incomplete (at_eof : error).

(** Constants of the build and of the platform, fixed for one process. *)
Record Config : Type := mkConfig {
  GOOS : string;                       (* runtime.GOOS *)
  InstallerTag : string;               (* buildinfo.InstallerTag *)
  VersionUnknown : string;             (* buildinfo.VersionUnknown *)
  UiType : string;                     (* buildinfo.UiType *)
  UiTypeCli : string;                  (* buildinfo.UiTypeCli *)
  VelocityDirectory : string;          (* set by the platform code *)
  path_Dir : string -> string;         (* path.Dir / filepath.Dir *)
  path_Join : string -> string -> string  (* filepath.Join *)
}.

(** What the outside answers: network, decoding, and the system calls
    that fail ([None] means the call goes through).  [fault_NewRequest]
    is the error of [http.NewRequest("GET", url, nil)] on a URL that does
    not parse. *)
Record Env : Type := mkEnv {
  fault_NewRequest : string -> option error;
  http_Get : string -> Result Response;
  json_Decode : string -> Decoded;
  os_Getenv : string -> string;
  os_Executable : Result string;
  is_dir : string -> bool;
  temp_suffix : string;
  fault_MkdirAll : string -> option error;
  fault_OpenFile : string -> option error;
  fault_ReadFile : string -> option error;
  fault_CreateTemp : string -> option error;
  fault_Chmod : string -> option error;
  fault_Close : string -> option error;
  fault_Remove : nat -> string -> option error;   (* by time and path *)
  fault_Rename : string -> string -> option error
}.

Definition ReleaseUrl : string :=
  "https://api.github.com/repos/Velocitcs/Velocity/releases/latest".
Definition InstallerReleaseUrl : string :=
  "https://api.github.com/repos/Velocitcy/Installer/releases/latest".

(* ===================================================================== *)
(** ** A state monad over [World] for the effectful calls *)
(* ===================================================================== *)

Definition IO (A : Type) : Type := World -> A * World.

Definition ret {A : Type} (a : A) : IO A := fun w => (a, w).
Definition bind {A B : Type} (m : IO A) (k : A -> IO B) : IO B :=
  fun w => let (a, w') := m w in k a w'.
(** [defer_ d body]: run [body], then the deferred call [d], and return
    what [body] returned. *)
Definition defer_ {A B : Type} (d : IO B) (body : IO A) : IO A :=
  fun w => let (a, w') := body w in let (_, w'') := d w' in (a, w'').

Declare Scope io_scope.
Delimit Scope io_scope with io.
Notation "x <- m ;; k" := (bind m (fun x => k))
  (at level 100, m at next level, right associativity) : io_scope.
Local Open Scope io_scope.

(** *** The primitives *)

Definition http_get (env : Env) (url : string) : IO (Result Response) :=
  fun w => (http_Get env url, log (EvHttpGet url) w).

Definition os_MkdirAll (env : Env) (path : string) : IO (option error) :=
  fun w => (fault_MkdirAll env path, log (EvMkdirAll path) w).

(** [os.OpenFile(path, O_WRONLY|O_CREATE|O_TRUNC, perm)] *)
Definition os_OpenFile (env : Env) (path : string) (mode : N) : IO (option error) :=
  fun w =>
    match fault_OpenFile env path with
    | Some e => (Some e, log (EvOpenFile path) w)
    | None =>
        let p := match fs w !! path with Some f => perm f | None => mode end in
        (None, log (EvOpenFile path) (set_fs (insert path (mkFile "" p)) w))
    end.

(** [io.Copy(out, res.Body)] onto the open file at [path]: the bytes the
    stream yields are appended; the result is the byte count and the
    stream's error, if any. *)
Definition io_Copy (path : string) (res : Response) : IO (Z * option error) :=
  fun w =>
    let n := Z.of_nat (String.length (Body res)) in
    let write (m : gmap string File) :=
      match m !! path with
      | Some f => <[path := mkFile (data f +:+ Body res) (perm f)]> m
      | None => m
      end in
    ((n, BodyErr res), log (EvWrite path n) (set_fs write w)).

(** [os.CreateTemp(dir, pattern)]: a new, empty file with mode 0600 whose
    name is [pattern] followed by a suffix chosen by the system. *)
Definition os_CreateTemp (cfg : Config) (env : Env) (dir pattern : string)
  : IO (Result string) :=
  fun w =>
    let name := path_Join cfg dir (pattern +:+ temp_suffix env) in
    match fault_CreateTemp env dir with
    | Some e => (Err e, w)
    | None =>
        match fs w !! name with
        | Some _ => (Err (ext_error "file exists"), w)
        | None => (Ok name, log (EvCreateTemp name)
                              (set_fs (insert name (mkFile "" 384)) w))
        end
    end.

Definition file_Chmod (env : Env) (path : string) (mode : N) : IO (option error) :=
  fun w =>
    match fault_Chmod env path with
    | Some e => (Some e, log (EvChmod path) w)
    | None =>
        let chmod (m : gmap string File) :=
          match m !! path with
          | Some f => <[path := mkFile (data f) mode]> m
          | None => m
          end in
        (None, log (EvChmod path) (set_fs chmod w))
    end.

Definition file_Close (env : Env) (path : string) : IO (option error) :=
  fun w => (fault_Close env path, w).

(** [os.Remove(path)]: fails when the system refuses (for instance while
    the file is a running, locked executable) or when nothing is there. *)
Definition os_Remove (env : Env) (path : string) : IO (option error) :=
  fun w =>
    match fault_Remove env (clock w) path with
    | Some e => (Some e, log (EvRemove path) w)
    | None =>
        match fs w !! path with
        | None => (Some os_ErrNotExist, log (EvRemove path) w)
        | Some _ => (None, log (EvRemove path) (set_fs (delete path) w))
        end
    end.

(** [os.Rename(oldpath, newpath)]: moves the file, replacing [newpath]. *)
Definition os_Rename (env : Env) (oldpath newpath : string) : IO (option error) :=
  fun w =>
    match fault_Rename env oldpath newpath with
    | Some e => (Some e, log (EvRename oldpath newpath) w)
    | None =>
        match fs w !! oldpath with
        | None => (Some os_ErrNotExist, log (EvRename oldpath newpath) w)
        | Some f =>
            (None, log (EvRename oldpath newpath)
                     (set_fs (fun m => <[newpath := f]> (delete oldpath m)) w))
        end
    end.

Definition os_ReadFile (env : Env) (path : string) : IO (Result string) :=
  fun w =>
    match fault_ReadFile env path with
    | Some e => (Err e, w)
    | None =>
        match fs w !! path with
        | None => (Err os_ErrNotExist, w)
        | Some f => (Ok (data f), w)
        end
    end.

(** [time.Sleep(1 * time.Second)] *)
Definition time_Sleep : IO unit := fun w => (tt, log EvSleep (tick w)).

(** [os.Stat(path)] followed by [stat.IsDir()]: the answer is whether the
    path is a directory; nothing at the path is an error. *)
Definition os_Stat (env : Env) (path : string) : IO (Result bool) :=
  fun w =>
    if is_dir env path then (Ok true, w)
    else match fs w !! path with
         | Some _ => (Ok false, w)
         | None => (Err os_ErrNotExist, w)
         end.

(** [strconv.FormatInt(n, 10)] *)
Definition strconv_FormatInt (n : Z) : string :=
  DecimalString.NilEmpty.string_of_int (Z.to_int n).

(* ===================================================================== *)
(** ** github_downloader.go *)
(* ===================================================================== *)

(** The package-level variables of the file.  [GithubDoneChan] holds the
    values sent on the channel and not yet received, oldest first. *)
Record State : Type := mkState {
  ReleaseData : GithubRelease.t;
  GithubError : option error;
  GithubDoneChan : list bool;
  InstalledHash : string;
  LatestHash : string;
  IsDevInstall : bool
}.

(** The values the variables are declared with. *)
Definition initial_State : State :=
  mkState GithubRelease.zero None [] "None" "Unknown" false.

Definition set_ReleaseData (v : GithubRelease.t) (st : State) : State :=
  mkState v (GithubError st) (GithubDoneChan st) (InstalledHash st)
          (LatestHash st) (IsDevInstall st).
Definition set_GithubError (v : option error) (st : State) : State :=
  mkState (ReleaseData st) v (GithubDoneChan st) (InstalledHash st)
          (LatestHash st) (IsDevInstall st).
Definition set_GithubDoneChan (v : list bool) (st : State) : State :=
  mkState (ReleaseData st) (GithubError st) v (InstalledHash st)
          (LatestHash st) (IsDevInstall st).
Definition set_InstalledHash (v : string) (st : State) : State :=
  mkState (ReleaseData st) (GithubError st) (GithubDoneChan st) v
          (LatestHash st) (IsDevInstall st).
Definition set_LatestHash (v : string) (st : State) : State :=
  mkState (ReleaseData st) (GithubError st) (GithubDoneChan st)
          (InstalledHash st) v (IsDevInstall st).
Definition set_IsDevInstall (v : bool) (st : State) : State :=
  mkState (ReleaseData st) (GithubError st) (GithubDoneChan st)
          (InstalledHash st) (LatestHash st) v.

(** [GithubDoneChan <- b] *)
Definition send_GithubDoneChan (b : bool) (st : State) : State :=
  set_GithubDoneChan (GithubDoneChan st ++ [b]) st.

(** [json.NewDecoder(res.Body).Decode(&data)]: the decoder stops at the
    end of the first value, so the way the stream ends matters only when
    the bytes it yielded hold no complete value; a read error then is the
    error returned. *)
Definition decode_body (env : Env) (res : Response) : Result GithubRelease.t :=
  match json_Decode env (Body res) with
  | Value data => Ok data
  | Invalid err => Err err
  | Incomplete at_eof =>
      Err (match BodyErr res with Some err => err | None => at_eof end)
  end.

(** [GetGithubRelease(url)]: building the request, sending it, status
    check, JSON decoding. *)
Definition GetGithubRelease (env : Env) (url : string)
  : IO (Result GithubRelease.t) :=
  match fault_NewRequest env url with
  | Some err => ret (Err err)
  | None =>
      r <- http_get env url ;;
      match r with
      | Err err => ret (Err err)
      | Ok res =>
          if 300 <=? StatusCode res then ret (Err (errors_New (Status res)))
          else ret (decode_body env res)
      end
  end.

(** Lines 96-97: [i := strings.LastIndex(data.Name, " ") + 1] and
    [LatestHash = data.Name[i:]]. *)
Definition latest_of_name (name : string) : string :=
  let i := gostrings.LastIndex name " " + 1 in
  gostrings.slice_from name i.

(** The body of the goroutine started by [InitGithubDownloader]
    (lines 83-101), the deferred send included. *)
Definition fetch_task (env : Env) (st : State) : IO State :=
  let deferred (st' : State) : State :=
    send_GithubDoneChan (isNil (GithubError st')) st' in
  r <- GetGithubRelease env ReleaseUrl ;;
  match r with
  | Err err => ret (deferred (set_GithubError (Some err) st))
  | Ok data =>
      let st1 := set_ReleaseData data st in
      let st2 := set_LatestHash (latest_of_name (GithubRelease.Name data)) st1 in
      ret (deferred st2)
  end.

(** The marker [regexp.MustCompile(`// Velocity (\w+)`)] and its
    [FindSubmatch]: the leftmost occurrence of the literal prefix that is
    followed by at least one word byte; the group is the longest run. *)
Definition is_word_byte (c : ascii) : bool :=
  let n := N_of_ascii c in
  (((48 <=? n) && (n <=? 57)) || ((65 <=? n) && (n <=? 90))
   || (n =? 95) || ((97 <=? n) && (n <=? 122)))%N.

Fixpoint word_run (s : string) : string :=
  match s with
  | EmptyString => EmptyString
  | String c s' => if is_word_byte c then String c (word_run s') else EmptyString
  end.

Fixpoint FindSubmatch_marker (b : string) : option string :=
  let here :=
    if gostrings.HasPrefix b "// Velocity " then
      match word_run (gostrings.slice_from b 12) with
      | EmptyString => None
      | m => Some m
      end
    else None in
  match here, b with
  | Some m, _ => Some m
  | None, EmptyString => None
  | None, String _ b' => FindSubmatch_marker b'
  end.

(** The part of [InitGithubDownloader] that follows the [go] statement
    (lines 103-128): detection of the installed build. *)
Definition detect_installed (cfg : Config) (env : Env) (st : State) : IO State :=
  let VelocityFile := VelocityDirectory cfg in
  stat <- os_Stat env VelocityFile ;;
  match stat with
  | Err _ => ret st
  | Ok isDir =>
      let VelocityFile :=
        if isDir then path_Join cfg VelocityFile "main.js" else VelocityFile in
      b <- os_ReadFile env VelocityFile ;;
      match b with
      | Err _ => ret st
      | Ok b =>
          match FindSubmatch_marker b with
          | Some m => ret (set_InstalledHash m st)
          | None => ret st
          end
      end
  end.

(** [InitGithubDownloader()] up to its return; the boolean tells whether
    the goroutine [fetch_task] was started. *)
Definition InitGithubDownloader (cfg : Config) (env : Env) (st : State)
  : IO (State * bool) :=
  let st := set_GithubDoneChan [] st in
  let st := set_IsDevInstall
              (String.eqb (os_Getenv env "VELOCITY_DEV_INSTALL") "1") st in
  if IsDevInstall st then ret (send_GithubDoneChan true st, false)
  else
    st' <- detect_installed cfg env st ;;
    ret (st', true).

(** One complete run: the synchronous part, then the goroutine if it was
    started.  The two write different variables, so the order in which
    they are interleaved does not show in the resulting [State]. *)
Definition InitGithubDownloader_run (cfg : Config) (env : Env) (st : State)
  : IO State :=
  r <- InitGithubDownloader cfg env st ;;
  let '(st', started) := r in
  if started then fetch_task env st' else ret st'.

(** [FixOwnership(path)]: the external hook; its result is discarded and
    it changes neither contents nor names of files. *)
Definition FixOwnership (path : string) : IO unit := ret tt.

(** *** [installLatestBuilds], as in [github_downloader.go] *)
Module MultiAsset.

(** The condition of the [if] at lines 157-161, on the lowercased name. *)
Definition wanted (lowerName : string) : bool :=
  gostrings.Contains lowerName "preload"
  || gostrings.Contains lowerName "patcher"
  || gostrings.Contains lowerName "velocitydesktopMain"
  || gostrings.Contains lowerName "velocitydesktoprenderer"
  || (gostrings.Contains lowerName "renderer"
      && negb (gostrings.Contains lowerName "velocitydesktop")).

(** The body of that [if] (lines 163-191); [Some err] is an early
    return of the whole function with [retErr = err]. *)
Definition download (cfg : Config) (env : Env) (distDir : string)
           (ass : Asset.t) : IO (option error) :=
  r <- http_get env (Asset.DownloadURL ass) ;;
  match r with
  | Err err => ret (Some err)
  | Ok res =>
      if 300 <=? StatusCode res then ret (Some (errors_New (Status res)))
      else
        let filePath := path_Join cfg distDir (Asset.Name ass) in
        err <- os_OpenFile env filePath 420 ;;
        match err with
        | Some err => ret (Some err)
        | None =>
            c <- io_Copy filePath res ;;
            match snd c with
            | Some err => _ <- file_Close env filePath ;; ret (Some err)
            | None =>
                _ <- file_Close env filePath ;;
                _ <- FixOwnership filePath ;;
                ret None
            end
        end
  end.

(** The [for ... range ReleaseData.Assets] loop (lines 148-193). *)
Fixpoint download_all (cfg : Config) (env : Env) (distDir : string)
         (assets : list Asset.t) : IO (option error) :=
  match assets with
  | [] => ret None
  | ass :: rest =>
      let lowerName := gostrings.ToLower (Asset.Name ass) in
      if gostrings.HasSuffix lowerName ".legal.txt" then
        download_all cfg env distDir rest
      else if wanted lowerName then
        err <- download cfg env distDir ass ;;
        match err with
        | Some err => ret (Some err)
        | None => download_all cfg env distDir rest
        end
      else download_all cfg env distDir rest
  end.

Definition installLatestBuilds (cfg : Config) (env : Env) (st : State)
  : IO (option error * State) :=
  if IsDevInstall st then ret (None, st)
  else
    err <- os_MkdirAll env (path_Dir cfg (VelocityDirectory cfg)) ;;
    match err with
    | Some err => ret (Some err, st)
    | None =>
        let distDir := path_Dir cfg (VelocityDirectory cfg) in
        err <- download_all cfg env distDir
                 (GithubRelease.Assets (ReleaseData st)) ;;
        match err with
        | Some err => ret (Some err, st)
        | None => ret (None, set_InstalledHash (LatestHash st) st)
        end
    end.

End MultiAsset.

(** *** [installLatestBuilds], as in the single-archive variant *)
Module DesktopAsar.

(** The first loop: the URL of the first asset named [desktop.asar]. *)
Fixpoint find_downloadUrl (assets : list Asset.t) : string :=
  match assets with
  | [] => ""
  | ass :: rest =>
      if String.eqb (Asset.Name ass) "desktop.asar" then Asset.DownloadURL ass
      else find_downloadUrl rest
  end.

(** The error built when the byte count and the header disagree. *)
Definition length_mismatch (contentLength expected : string) : error :=
  errors_New ("Unexpected end of input. Content-Length was " +:+ contentLength
              +:+ ", but only read " +:+ expected).

Definition installLatestBuilds (cfg : Config) (env : Env) (st : State)
  : IO (option error * State) :=
  if IsDevInstall st then ret (None, st)
  else
    let downloadUrl := find_downloadUrl (GithubRelease.Assets (ReleaseData st)) in
    if String.eqb downloadUrl "" then
      ret (Some (errors_New "did not find desktop.asar download link"), st)
    else
      r <- http_get env downloadUrl ;;
      match r with
      | Err err => ret (Some err, st)
      | Ok res =>
          if 300 <=? StatusCode res then ret (Some (errors_New (Status res)), st)
          else
            err <- os_OpenFile env (VelocityDirectory cfg) 420 ;;
            match err with
            | Some err => ret (Some err, st)
            | None =>
                c <- io_Copy (VelocityDirectory cfg) res ;;
                let '(read, err) := c in
                match err with
                | Some err => ret (Some err, st)
                | None =>
                    let contentLength := ContentLength res in
                    let expected := strconv_FormatInt read in
                    if negb (String.eqb expected contentLength) then
                      ret (Some (length_mismatch contentLength expected), st)
                    else
                      _ <- FixOwnership (VelocityDirectory cfg) ;;
                      ret (None, set_InstalledHash (LatestHash st) st)
                end
            end
      end.

End DesktopAsar.

(* ===================================================================== *)
(** ** self_updater.go *)
(* ===================================================================== *)

(** The package-level variables of the file; the channel as above. *)
Record SelfState : Type := mkSelfState {
  IsSelfOutdated : bool;
  SelfUpdateCheckDoneChan : list bool
}.

Definition initial_SelfState : SelfState := mkSelfState false [].

Definition send_SelfUpdateCheckDoneChan (b : bool) (s : SelfState) : SelfState :=
  mkSelfState (IsSelfOutdated s) (SelfUpdateCheckDoneChan s ++ [b]).
Definition set_IsSelfOutdated (b : bool) (s : SelfState) : SelfState :=
  mkSelfState b (SelfUpdateCheckDoneChan s).

(** The goroutines [init] can start. *)
Inductive Goroutine : Type :=
| GoDeleteOldExecutable
| GoSelfUpdateCheck.

(** [init()]: which goroutines it starts, in the order of the [go]
    statements; with an unknown tag it returns before starting any. *)
Definition init (cfg : Config) : list Goroutine :=
  if String.eqb (InstallerTag cfg) (VersionUnknown cfg) then []
  else [GoDeleteOldExecutable; GoSelfUpdateCheck].

(** The body of the anonymous goroutine of [init] (lines 32-45). *)
Definition self_update_check (cfg : Config) (env : Env) (s : SelfState)
  : IO SelfState :=
  r <- GetGithubRelease env InstallerReleaseUrl ;;
  match r with
  | Err _ => ret (send_SelfUpdateCheckDoneChan false s)
  | Ok res =>
      let s1 := set_IsSelfOutdated
                  (negb (String.eqb (GithubRelease.TagName res) (InstallerTag cfg))) s in
      ret (send_SelfUpdateCheckDoneChan true s1)
  end.

Definition GetInstallerDownloadLink (cfg : Config) : string :=
  let BaseUrl := "https://github.com/Velocitcy/Installer/releases/latest/download/" in
  if String.eqb (GOOS cfg) "windows" then
    let filename := Ternary (String.eqb (UiType cfg) (UiTypeCli cfg))
                            "VelocityInstallerCli.exe" "VelocityInstaller.exe" in
    BaseUrl +:+ filename
  else if String.eqb (GOOS cfg) "darwin" then BaseUrl +:+ "VelocityInstaller.MacOS.zip"
  else if String.eqb (GOOS cfg) "linux" then BaseUrl +:+ "VelocityInstallerCli-linux"
  else "".

Definition CanUpdateSelf (cfg : Config) (s : SelfState) : bool :=
  IsSelfOutdated s && negb (String.eqb (GOOS cfg) "darwin").

(** The steps of [UpdateSelf] that follow the [defer] (lines 101-123). *)
Definition replace_self (env : Env) (ownExePath tmp : string) (res : Response)
  : IO (option error) :=
  err <- file_Chmod env tmp 493 ;;
  match err with
  | Some err => ret (Some (fmt_Errorf ("failed to chmod 755 " +:+ tmp) err))
  | None =>
      c <- io_Copy tmp res ;;
      match snd c with
      | Some err => ret (Some err)
      | None =>
          err <- file_Close env tmp ;;
          match err with
          | Some err => ret (Some err)
          | None =>
              err <- os_Remove env ownExePath ;;
              err <- match err with
                     | None => ret None
                     | Some _ => os_Rename env ownExePath (ownExePath +:+ ".old")
                     end ;;
              match err with
              | Some err =>
                  ret (Some (fmt_Errorf "failed to remove or rename own executable" err))
              | None =>
                  err <- os_Rename env tmp ownExePath ;;
                  match err with
                  | Some err =>
                      ret (Some (fmt_Errorf
                        "failed to replace self with updated executable. Please manually redownload the installer"
                        err))
                  | None => ret None
                  end
              end
          end
      end
  end.

(** The deferred function of [UpdateSelf] (lines 96-99); both results are
    discarded. *)
Definition cleanup_tmp (env : Env) (tmp : string) : IO unit :=
  _ <- file_Close env tmp ;;
  _ <- os_Remove env tmp ;;
  ret tt.

Definition UpdateSelf (cfg : Config) (env : Env) (s : SelfState)
  : IO (option error) :=
  if negb (CanUpdateSelf cfg s) then
    ret (Some (errors_New "cannot update self. Either no update available or macos"))
  else
    let url := GetInstallerDownloadLink cfg in
    if String.eqb url "" then
      ret (Some (errors_New "failed to get installer download link"))
    else
      match os_Executable env with
      | Err err => ret (Some err)
      | Ok ownExePath =>
          let ownExeDir := path_Dir cfg ownExePath in
          r <- http_get env url ;;
          match r with
          | Err err => ret (Some err)
          | Ok res =>
              t <- os_CreateTemp cfg env ownExeDir "VelocityInstallerUpdate" ;;
              match t with
              | Err err => ret (Some (fmt_Errorf "failed to create tempfile" err))
              | Ok tmp =>
                  defer_ (cleanup_tmp env tmp)
                         (replace_self env ownExePath tmp res)
              end
          end
      end.

(** The loop of [DeleteOldExecutable] (lines 132-141); [fuel] is the
    number of iterations left, [10 - attempts]. *)
Fixpoint remove_old_loop (env : Env) (old : string) (fuel : nat) : IO unit :=
  match fuel with
  | O => ret tt
  | S fuel' =>
      err <- os_Remove env old ;;
      if isNil err
         || match err with Some e => errors_Is_ErrNotExist e | None => false end
      then ret tt
      else _ <- time_Sleep ;; remove_old_loop env old fuel'
  end.

Definition DeleteOldExecutable (env : Env) : IO unit :=
  match os_Executable env with
  | Err _ => ret tt
  | Ok ownExePath => remove_old_loop env (ownExePath +:+ ".old") 10
  end.

(** Running one goroutine to completion. *)
Definition run_goroutine (cfg : Config) (env : Env) (g : Goroutine)
           (s : SelfState) : IO SelfState :=
  match g with
  | GoDeleteOldExecutable => _ <- DeleteOldExecutable env ;; ret s
  | GoSelfUpdateCheck => self_update_check cfg env s
  end.

Fixpoint run_goroutines (cfg : Config) (env : Env) (gs : list Goroutine)
         (s : SelfState) : IO SelfState :=
  match gs with
  | [] => ret s
  | g :: gs' => s' <- run_goroutine cfg env g s ;; run_goroutines cfg env gs' s'
  end.

(** Process start as far as this file is concerned: [init] and then the
    goroutines it started, each run to completion. *)
Definition startup (cfg : Config) (env : Env) : IO SelfState :=
  run_goroutines cfg env (init cfg) initial_SelfState.

(* ===================================================================== *)
(** ** The up-to-date predicate of the version tracker *)
(* ===================================================================== *)

(** Modelled from the spec: [isOutdated()] itself belongs to the
    presentation layer, which is not among the files at hand.  It "returns
    true unless isDevInstall is set or installedIdentifier ==
    latestIdentifier", by exact string equality; the comparison is the one
    [InitGithubDownloader] logs at line 100. *)
Definition isOutdated (st : State) : bool :=
  negb (IsDevInstall st || String.eqb (InstalledHash st) (LatestHash st)).

(** Line 100: the label logged after a fetch. *)
Definition up_to_date_label (st : State) : string :=
  Ternary (String.eqb (LatestHash st) (InstalledHash st)) "up to date!" "outdated!".

(* ===================================================================== *)
(** ** Observations on traces and selections *)
(* ===================================================================== *)

(** The URLs fetched, in order. *)
Fixpoint http_gets (t : list Event) : list string :=
  match t with
  | [] => []
  | EvHttpGet url :: t' => url :: http_gets t'
  | _ :: t' => http_gets t'
  end.

(** The number of [os.Remove] calls on [path]. *)
Fixpoint count_removes (path : string) (t : list Event) : nat :=
  match t with
  | [] => O
  | EvRemove p :: t' =>
      ((if String.eqb p path then 1 else 0) + count_removes path t')%nat
  | _ :: t' => count_removes path t'
  end.

(** The assets the loop of [MultiAsset.installLatestBuilds] acts on:
    the two tests of the loop body on the lowercased name.  As
    [gostrings.ToLower], it is the program's selection for the names that
    pass [gostrings.isASCII]. *)
Definition selected (ass : Asset.t) : bool :=
  let lowerName := gostrings.ToLower (Asset.Name ass) in
  negb (gostrings.HasSuffix lowerName ".legal.txt") && MultiAsset.wanted lowerName.

(** One failed attempt of [DeleteOldExecutable] followed by its pause. *)
Fixpoint failed_attempts (old : string) (k : nat) : list Event :=
  match k with
  | O => []
  | S k' => EvRemove old :: EvSleep :: failed_attempts old k'
  end.

(** Whether [os.Remove] at time [t] ends the loop of
    [DeleteOldExecutable]: it does unless the system refuses with an
    error other than "does not exist". *)
Definition ends_loop (env : Env) (old : string) (t : nat) : bool :=
  match fault_Remove env t old with
  | None => true
  | Some e => errors_Is_ErrNotExist e
  end.

(* ===================================================================== *)
(** ** Concrete configurations, environments and worlds *)
(* ===================================================================== *)

Module Sample.

Definition Join (dir name : string) : string := dir +:+ "/" +:+ name.
Definition Dir (p : string) : string :=
  String.substring 0 (Z.to_nat (gostrings.LastIndex p "/")) p.

Definition cfg (goos tag : string) : Config :=
  mkConfig goos tag "unknown" "cli" "cli"
           "/home/u/.config/Velocity/dist" Dir Join.

Definition exe : string := "/opt/velocity/VelocityInstallerCli-linux".

Definition no_fault : string -> option error := fun _ => None.

(** No network, no injected failures. *)
Definition offline : Env :=
  mkEnv no_fault
        (fun _ => Err (ext_error "dial tcp: no route to host"))
        (fun _ => Incomplete io_EOF)
        (fun _ => "") (Ok exe) (fun _ => false) "271828"
        no_fault no_fault no_fault no_fault no_fault no_fault
        (fun _ _ => None) (fun _ _ => None).

Definition with_http (get : string -> Result Response)
           (dec : string -> Decoded) (e : Env) : Env :=
  mkEnv (fault_NewRequest e) get dec (os_Getenv e) (os_Executable e) (is_dir e) (temp_suffix e)
        (fault_MkdirAll e) (fault_OpenFile e) (fault_ReadFile e)
        (fault_CreateTemp e) (fault_Chmod e) (fault_Close e)
        (fault_Remove e) (fault_Rename e).

Definition with_fault_Remove (f : nat -> string -> option error) (e : Env) : Env :=
  mkEnv (fault_NewRequest e) (http_Get e) (json_Decode e) (os_Getenv e)
        (os_Executable e) (is_dir e) (temp_suffix e)
        (fault_MkdirAll e) (fault_OpenFile e) (fault_ReadFile e)
        (fault_CreateTemp e) (fault_Chmod e) (fault_Close e)
        f (fault_Rename e).

Definition with_fault_Rename (f : string -> string -> option error) (e : Env) : Env :=
  mkEnv (fault_NewRequest e) (http_Get e) (json_Decode e) (os_Getenv e)
        (os_Executable e) (is_dir e) (temp_suffix e)
        (fault_MkdirAll e) (fault_OpenFile e) (fault_ReadFile e)
        (fault_CreateTemp e) (fault_Chmod e) (fault_Close e)
        (fault_Remove e) f.

Definition ok_response (len body : string) : Response :=
  mkResponse 200 "200 OK" len body None.

(** Every URL answers 200 with [body]; the release feed decodes to [rel]. *)
Definition online (rel : GithubRelease.t) (len body : string) : Env :=
  with_http (fun _ => Ok (ok_response len body)) (fun _ => Value rel) offline.

Definition release (name tag : string) (assets : list Asset.t) : GithubRelease.t :=
  GithubRelease.Build name tag assets.

Definition empty_world : World := mkWorld ∅ [] 0.

(** The state after a successful fetch of a release with the given
    assets, nothing being installed yet. *)
Definition fetched (assets : list Asset.t) : State :=
  mkState (release "Velocity abc123" "v9" assets) None [true]
          "None" "abc123" false.

Definition patcher : Asset.t :=
  Asset.Build "patcher.js" "https://dl.example/patcher.js".
Definition desktop_asar : Asset.t :=
  Asset.Build "desktop.asar" "https://dl.example/desktop.asar".

(** A server that delivers the four bytes it declares. *)
Definition serving : Env :=
  online (release "Velocity abc123" "v9" [patcher]) "4" "abcd".

(** A server that declares ten bytes and closes the connection after
    four: the read that finds the end fails with [io.ErrUnexpectedEOF]. *)
Definition cut_short : Env :=
  with_http
    (fun _ => Ok (mkResponse 200 "200 OK" "10" "abcd" (Some io_ErrUnexpectedEOF)))
    (fun _ => Value (release "Velocity abc123" "v9" [patcher])) offline.

(** A machine on which the installer binary is installed. *)
Definition installer_v1 : File := mkFile "installer v1" 493.
Definition world_with_exe : World :=
  mkWorld {[ exe := installer_v1 ]} [] 0.

(** The installer's own feed announces [v2]; every download answers
    with the new binary. *)
Definition update_server : Env :=
  online (release "Installer v2" "v2" []) "12" "installer v2".

(** The same, on a system where every rename is refused. *)
Definition no_rename : Env :=
  with_fault_Rename (fun _ _ => Some os_ErrPermission) update_server.

(** The same, on a system that refuses to delete the running binary. *)
Definition locked_exe : Env :=
  with_fault_Remove
    (fun _ p => if String.eqb p exe then Some os_ErrPermission else None)
    update_server.

(** ... and that also refuses the final rename. *)
Definition locked_exe_no_replace : Env :=
  with_fault_Rename
    (fun p _ => if String.eqb p exe then None else Some os_ErrPermission)
    locked_exe.

Definition tmp : string := "/opt/velocity/VelocityInstallerUpdate271828".

End Sample.

(* ===================================================================== *)
(** ** [RelaunchSelf] and the process table *)
(* ===================================================================== *)

(** What [RelaunchSelf] gets from the outside: the command line of the
    running process and the failures of the two process calls. *)
Record ProcEnv : Type := mkProcEnv {
  os_Args : list string;
  fault_StartProcess : string -> list string -> option error;
  fault_Release : option error
}.

Inductive ProcEvent : Type :=
| EvStartProcess (name : string) (argv : list string)
| EvRelease
| EvExit (code : Z).

(** How a call ends: it returns to its caller, the process exits, or the
    run-time panics (an index out of range). *)
Inductive Outcome : Type :=
| Returned (err : option error)
| Exited (code : Z)
| Panicked.

Definition RelaunchSelf (penv : ProcEnv) : Outcome * list ProcEvent :=
  let argv :=
    if (1 <? Z.of_nat (length (os_Args penv))) then List.skipn 1 (os_Args penv)
    else [] in
  match os_Args penv with
  | [] => (Panicked, [])                              (* os.Args[0] *)
  | arg0 :: _ =>
      match fault_StartProcess penv arg0 argv with
      | Some err =>
          (Returned (Some (fmt_Errorf "failed to start new process" err)), [])
      | None =>
          match fault_Release penv with
          | Some err =>
              (Returned (Some (fmt_Errorf "failed to release new process" err)),
               [EvStartProcess arg0 argv])
          | None =>
              (Exited 0, [EvStartProcess arg0 argv; EvRelease; EvExit 0])
          end
      end
  end.

(* ===================================================================== *)
(** ** Further observations *)
(* ===================================================================== *)

(** Every byte is a word byte of the marker's [\\w]. *)
Fixpoint all_word (s : string) : bool :=
  match s with
  | EmptyString => true
  | String c s' => is_word_byte c && all_word s'
  end.

Definition starts_with_word (s : string) : bool :=
  match s with
  | EmptyString => false
  | String c _ => is_word_byte c
  end.

(** The same environment, except that every response carries the given
    status line and [Content-Length]; bodies and errors are as before. *)
Definition restatus (code : Z) (status len : string) (env : Env) : Env :=
  mkEnv (fault_NewRequest env)
        (fun url =>
           match http_Get env url with
           | Ok res => Ok (mkResponse code status len (Body res) (BodyErr res))
           | Err e => Err e
           end)
        (json_Decode env) (os_Getenv env) (os_Executable env) (is_dir env)
        (temp_suffix env)
        (fault_MkdirAll env) (fault_OpenFile env) (fault_ReadFile env)
        (fault_CreateTemp env) (fault_Chmod env) (fault_Close env)
        (fault_Remove env) (fault_Rename env).

(** The paths the loop of [MultiAsset.installLatestBuilds] may write. *)
Definition destinations (cfg : Config) (distDir : string)
           (assets : list Asset.t) : list string :=
  List.map (fun ass => path_Join cfg distDir (Asset.Name ass))
           (List.filter selected assets).

(** [res] declares a body of [N] bytes: its [Content-Length] header is the
    decimal rendering of [N]. *)
Definition declares (res : Response) (N : Z) : Prop :=
  0 <= N /\ ContentLength res = strconv_FormatInt N.

(** What [net/http] hands over for a response with a declared length: its
    body reader stops after the declared number of bytes, and when the
    stream ends before that number the read that finds the end returns an
    error ([io.ErrUnexpectedEOF] when the peer closed the connection). *)
Definition net_http_body (res : Response) : Prop :=
  forall N : Z, declares res N ->
    Z.of_nat (String.length (Body res)) <= N
    /\ (Z.of_nat (String.length (Body res)) < N -> BodyErr res <> None).

(** The errors built by the comparison of the byte count with the
    header, which only the single-archive variant makes. *)
Definition is_length_mismatch (err : error) : Prop :=
  exists contentLength read : string,
    err = DesktopAsar.length_mismatch contentLength read.

(** Every asset of the list has a name made of ASCII bytes, as the file
    names of a release are; on such a list [gostrings.ToLower], and with
    it [selected] and the loop, is the program's. *)
Definition ascii_names (assets : list Asset.t) : bool :=
  List.forallb (fun ass => gostrings.isASCII (Asset.Name ass)) assets.

(** The three download links [UpdateSelf] can end up using. *)
Definition self_update_links : list string :=
  ["https://github.com/Velocitcy/Installer/releases/latest/download/VelocityInstallerCli.exe";
   "https://github.com/Velocitcy/Installer/releases/latest/download/VelocityInstaller.exe";
   "https://github.com/Velocitcy/Installer/releases/latest/download/VelocityInstallerCli-linux"].

(** [sub] occurs in [s]; [s] ends with [suffix]. *)
Definition occurs_in (sub s : string) : Prop :=
  exists pre post : string, s = pre +:+ sub +:+ post.
Definition ends_with (suffix s : string) : Prop :=
  exists pre : string, s = pre +:+ suffix.

(** The file [InitGithubDownloader] reads the marker from. *)
Definition entry_file (cfg : Config) (env : Env) : string :=
  if is_dir env (VelocityDirectory cfg)
  then path_Join cfg (VelocityDirectory cfg) "main.js"
  else VelocityDirectory cfg.

(* ===================================================================== *)
(** * Properties *)
(* ===================================================================== *)

(** ** The string functions on concrete inputs *)

Example ToLower_ex :
  gostrings.ToLower "velocityDesktopMain.JS" = "velocitydesktopmain.js".
Proof. reflexivity. Qed.

Example HasSuffix_ex :
  gostrings.HasSuffix "patcher.js.legal.txt" ".legal.txt" = true
  /\ gostrings.HasSuffix "txt" ".legal.txt" = false.
Proof. split; reflexivity. Qed.

Example LastIndex_ex :
  gostrings.LastIndex "Velocity Build abc123" " " = 14
  /\ gostrings.LastIndex "abc123" " " = -1
  /\ gostrings.LastIndex "ab" "" = 2.
Proof. repeat split; reflexivity. Qed.

Example Contains_ex :
  gostrings.Contains "velocitydesktoprenderer.js" "renderer" = true
  /\ gostrings.Contains "main.js" "renderer" = false.
Proof. split; reflexivity. Qed.

Example FindSubmatch_marker_ex :
  FindSubmatch_marker "x = 1; // Velocity abc123 (stable)" = Some "abc123"
  /\ FindSubmatch_marker "// Velocity  " = None.
Proof. split; reflexivity. Qed.

Example FormatInt_ex : strconv_FormatInt 1024 = "1024".
Proof. reflexivity. Qed.

(** ** Facts about slicing and searching *)

Section StringFacts.

Implicit Types (s t : string) (c : ascii).

Lemma substring_all s : String.substring 0 (String.length s) s = s.
Proof. induction s as [|a s IH]; simpl; [reflexivity | now rewrite IH]. Qed.

Lemma slice_from_0 s : gostrings.slice_from s 0 = s.
Proof.
  unfold gostrings.slice_from. simpl Z.to_nat.
  rewrite Nat.sub_0_r. apply substring_all.
Qed.

Lemma slice_from_succ a s (i : Z) :
  0 <= i -> gostrings.slice_from (String a s) (i + 1) = gostrings.slice_from s i.
Proof.
  intros Hi. unfold gostrings.slice_from.
  replace (Z.to_nat (i + 1)) with (S (Z.to_nat i)) by lia.
  reflexivity.
Qed.

Lemma HasPrefix_byte a s c :
  gostrings.HasPrefix (String a s) (String c EmptyString) = Ascii.eqb c a.
Proof. simpl. apply andb_true_r. Qed.

(** Searching for a one-byte string is searching for the byte. *)
Lemma Contains_byte s c :
  gostrings.Contains s (String c EmptyString) = gostrings.has_byte c s.
Proof.
  unfold gostrings.Contains.
  induction s as [|a s IH].
  - reflexivity.
  - cbn [gostrings.Index gostrings.has_byte]. rewrite HasPrefix_byte.
    destruct (Ascii.eqb c a); [reflexivity|].
    cbn [orb]. rewrite <- IH.
    destruct (gostrings.Index s (String c EmptyString) <? 0) eqn:E.
    + apply Z.ltb_lt in E. symmetry. apply Z.leb_gt. assumption.
    + apply Z.ltb_ge in E.
      transitivity true; [apply Z.leb_le; lia | symmetry; apply Z.leb_le; lia].
Qed.

Lemma LastIndex_byte_absent s c :
  gostrings.has_byte c s = false ->
  gostrings.LastIndex s (String c EmptyString) = -1.
Proof.
  induction s as [|a s IH]; intros H.
  - reflexivity.
  - cbn [gostrings.has_byte] in H. apply orb_false_iff in H as [Ha Hs].
    cbn [gostrings.LastIndex]. rewrite (IH Hs), HasPrefix_byte, Ha.
    reflexivity.
Qed.

(** The slice after the last occurrence of a byte: what precedes it ends
    with that byte, and the slice itself is free of it. *)
Lemma LastIndex_byte_split s c :
  gostrings.has_byte c s = true ->
  let r := gostrings.LastIndex s (String c EmptyString) in
  0 <= r
  /\ (exists pre, s = pre +:+ String c (gostrings.slice_from s (r + 1))
                  /\ Z.of_nat (String.length pre) = r)
  /\ gostrings.has_byte c (gostrings.slice_from s (r + 1)) = false.
Proof.
  induction s as [|a s IH]; intros H; [discriminate|].
  cbn [gostrings.LastIndex]. cbv zeta.
  destruct (gostrings.has_byte c s) eqn:Hs.
  - destruct (IH eq_refl) as (Hr & (pre & Hpre & Hlen) & Hfree).
    set (r := gostrings.LastIndex s (String c EmptyString)) in *.
    replace (0 <=? r) with true by (symmetry; apply Z.leb_le; assumption).
    rewrite slice_from_succ by lia.
    split; [lia|]. split; [|assumption].
    exists (String a pre). split.
    + rewrite Hpre at 1. reflexivity.
    + cbn [String.length]. lia.
  - rewrite (LastIndex_byte_absent _ _ Hs). cbn [Z.leb Z.compare].
    cbn [gostrings.has_byte] in H. rewrite Hs, orb_false_r in H.
    rewrite HasPrefix_byte, H.
    apply Ascii.eqb_eq in H. subst a.
    rewrite slice_from_succ by lia.
    rewrite slice_from_0.
    split; [lia|]. split; [|assumption].
    exists EmptyString. split; reflexivity.
Qed.

End StringFacts.

(** ** Facts about the fetch *)

Section FetchFacts.

Variable env : Env.

(** What a fetch returns depends on the environment only; its single
    effect is the request, which is not sent when it cannot be built. *)
Lemma GetGithubRelease_world url w :
  snd (GetGithubRelease env url w)
  = match fault_NewRequest env url with
    | Some _ => w
    | None => log (EvHttpGet url) w
    end.
Proof.
  unfold GetGithubRelease, bind, http_get, ret.
  destruct (fault_NewRequest env url); [reflexivity|].
  destruct (http_Get env url) as [res|e]; [|reflexivity].
  destruct (300 <=? StatusCode res); reflexivity.
Qed.

Lemma GetGithubRelease_files url w :
  fs (snd (GetGithubRelease env url w)) = fs w
  /\ clock (snd (GetGithubRelease env url w)) = clock w.
Proof.
  rewrite GetGithubRelease_world.
  destruct (fault_NewRequest env url); split; reflexivity.
Qed.

Lemma GetGithubRelease_answer url w w0 :
  fst (GetGithubRelease env url w) = fst (GetGithubRelease env url w0).
Proof.
  unfold GetGithubRelease, bind, http_get, ret.
  destruct (fault_NewRequest env url); [reflexivity|].
  destruct (http_Get env url) as [res|e]; [|reflexivity].
  destruct (300 <=? StatusCode res); reflexivity.
Qed.

(** The fetch task, by the outcome of its fetch. *)
Lemma fetch_task_Err st w err w1 :
  GetGithubRelease env ReleaseUrl w = (Err err, w1) ->
  fetch_task env st w
  = (send_GithubDoneChan false (set_GithubError (Some err) st), w1).
Proof. intros H. unfold fetch_task, bind. rewrite H. reflexivity. Qed.

Lemma fetch_task_Ok st w data w1 :
  GetGithubRelease env ReleaseUrl w = (Ok data, w1) ->
  fetch_task env st w
  = (send_GithubDoneChan (isNil (GithubError st))
       (set_LatestHash (latest_of_name (GithubRelease.Name data))
          (set_ReleaseData data st)), w1).
Proof. intros H. unfold fetch_task, bind. rewrite H. reflexivity. Qed.

End FetchFacts.

(** C5. For every fetched release whose display name contains at least one
    space, the [LatestHash] the fetch task derives is the part of the name
    strictly after its last space: the name is some prefix, a space, and
    [LatestHash], and [LatestHash] itself contains no space. *)
Theorem LatestHash_is_text_after_last_space
        (env : Env) (st : State) (w : World)
        (data : GithubRelease.t) (w1 : World) :
  GetGithubRelease env ReleaseUrl w = (Ok data, w1) ->
  gostrings.Contains (GithubRelease.Name data) " " = true ->
  exists pre : string,
    GithubRelease.Name data
    = pre +:+ " " +:+ LatestHash (fst (fetch_task env st w))
    /\ gostrings.Contains (LatestHash (fst (fetch_task env st w))) " " = false.
Proof.
  intros Hfetch Hspace.
  rewrite (fetch_task_Ok env st w data w1 Hfetch). cbn [fst].
  change (LatestHash _) with (latest_of_name (GithubRelease.Name data)).
  rewrite Contains_byte in Hspace.
  destruct (LastIndex_byte_split _ _ Hspace) as (_ & (pre & Hpre & _) & Hfree).
  exists pre. split.
  - exact Hpre.
  - rewrite Contains_byte. exact Hfree.
Qed.

Lemma LatestHash_is_text_after_last_space_witness :
  exists pre : string,
    "Velocity Build abc123"
    = pre +:+ " " +:+
      LatestHash (fst (fetch_task
        (Sample.online (Sample.release "Velocity Build abc123" "v9" []) "2" "{}")
        initial_State Sample.empty_world))
    /\ gostrings.Contains
         (LatestHash (fst (fetch_task
            (Sample.online (Sample.release "Velocity Build abc123" "v9" []) "2" "{}")
            initial_State Sample.empty_world))) " " = false.
Proof.
  apply (LatestHash_is_text_after_last_space
           (Sample.online (Sample.release "Velocity Build abc123" "v9" []) "2" "{}")
           initial_State Sample.empty_world
           (Sample.release "Velocity Build abc123" "v9" [])
           (log (EvHttpGet ReleaseUrl) Sample.empty_world)).
  - reflexivity.
  - reflexivity.
Defined.

Example LatestHash_abc123 :
  LatestHash (fst (fetch_task
    (Sample.online (Sample.release "Velocity Build abc123" "v9" []) "2" "{}")
    initial_State Sample.empty_world)) = "abc123".
Proof. reflexivity. Qed.

(** ** The asset selection of [MultiAsset.installLatestBuilds] *)

Section Selection.

Implicit Types (s p : string) (c : ascii).

(** Lowercasing leaves no capital letter behind, in particular no 'M'. *)
Lemma lower_byte_not_M c : Ascii.eqb "M" (gostrings.lower_byte c) = false.
Proof. destruct c as [[] [] [] [] [] [] [] []]; reflexivity. Qed.

Lemma ToLower_no_M s : gostrings.has_byte "M" (gostrings.ToLower s) = false.
Proof.
  induction s as [|a s IH]; [reflexivity|].
  cbn [gostrings.ToLower gostrings.has_byte].
  rewrite lower_byte_not_M, IH. reflexivity.
Qed.

(** A string holds every byte of its prefixes and of its substrings. *)
Lemma HasPrefix_has_byte p : forall s c,
  gostrings.HasPrefix s p = true ->
  gostrings.has_byte c p = true -> gostrings.has_byte c s = true.
Proof.
  induction p as [|b p IH]; intros s c Hp Hc; [discriminate|].
  destruct s as [|a s]; [discriminate|].
  cbn [gostrings.HasPrefix] in Hp. apply andb_true_iff in Hp as [Hba Hp].
  apply Ascii.eqb_eq in Hba. subst b.
  cbn [gostrings.has_byte] in *.
  destruct (Ascii.eqb c a); [reflexivity|].
  cbn [orb] in *. eapply IH; eassumption.
Qed.

Lemma Contains_has_byte s : forall p c,
  gostrings.Contains s p = true ->
  gostrings.has_byte c p = true -> gostrings.has_byte c s = true.
Proof.
  unfold gostrings.Contains.
  induction s as [|a s IH]; intros p c Hin Hc.
  - cbn [gostrings.Index] in Hin.
    destruct (gostrings.HasPrefix EmptyString p) eqn:Hp.
    + eapply HasPrefix_has_byte; eassumption.
    + discriminate.
  - cbn [gostrings.Index] in Hin.
    destruct (gostrings.HasPrefix (String a s) p) eqn:Hp.
    + eapply HasPrefix_has_byte; eassumption.
    + destruct (gostrings.Index s p <? 0) eqn:E; [discriminate|].
      apply Z.ltb_ge in E.
      cbn [gostrings.has_byte]. rewrite (IH p c); [apply orb_true_r | | assumption].
      apply Z.leb_le. assumption.
Qed.

(** The third alternative of the condition at lines 157-161 compares a
    lowercased name with a literal that has a capital letter: it never
    holds. *)
Lemma main_bundle_rule_dead (name : string) :
  gostrings.Contains (gostrings.ToLower name) "velocitydesktopMain" = false.
Proof.
  destruct (gostrings.Contains (gostrings.ToLower name) "velocitydesktopMain")
    eqn:E; [|reflexivity].
  pose proof (Contains_has_byte _ _ "M"%char E eq_refl) as H.
  rewrite ToLower_no_M in H. discriminate.
Qed.

Lemma wanted_ToLower (name : string) :
  let l := gostrings.ToLower name in
  MultiAsset.wanted l
  = (gostrings.Contains l "preload"
     || gostrings.Contains l "patcher"
     || gostrings.Contains l "velocitydesktoprenderer"
     || (gostrings.Contains l "renderer"
         && negb (gostrings.Contains l "velocitydesktop"))).
Proof.
  cbv zeta. unfold MultiAsset.wanted.
  rewrite main_bundle_rule_dead, orb_false_r. reflexivity.
Qed.

Lemma http_gets_app (t1 t2 : list Event) :
  http_gets (t1 ++ t2) = http_gets t1 ++ http_gets t2.
Proof.
  induction t1 as [|ev t1 IH]; [reflexivity|].
  destruct ev; cbn [app http_gets]; rewrite IH; reflexivity.
Qed.

Variables (cfg : Config) (env : Env) (distDir : string).

(** Acting on one asset issues exactly one request, for its URL. *)
Lemma download_gets (ass : Asset.t) (w : World) :
  http_gets (trace (snd (MultiAsset.download cfg env distDir ass w)))
  = http_gets (trace w) ++ [Asset.DownloadURL ass].
Proof.
  unfold MultiAsset.download, bind, http_get, ret.
  destruct (http_Get env (Asset.DownloadURL ass)) as [res|e].
  - destruct (300 <=? StatusCode res).
    + cbn. apply http_gets_app.
    + unfold os_OpenFile.
      destruct (fault_OpenFile env _); cbn; [|destruct (BodyErr res)];
        cbn; rewrite !http_gets_app; cbn; rewrite ?app_nil_r; reflexivity.
  - cbn. apply http_gets_app.
Qed.

(** When the loop runs to its end, the requests it issued are those for
    the selected assets, in the order of the release's asset list. *)
Lemma download_all_gets (assets : list Asset.t) : forall (w w' : World),
  MultiAsset.download_all cfg env distDir assets w = (None, w') ->
  http_gets (trace w')
  = http_gets (trace w)
    ++ List.map Asset.DownloadURL (List.filter selected assets).
Proof.
  induction assets as [|ass rest IH]; intros w w' H.
  - cbn in H. injection H as <-. cbn. now rewrite app_nil_r.
  - cbn [MultiAsset.download_all] in H.
    cbn [List.filter]. unfold selected at 1. cbv zeta.
    destruct (gostrings.HasSuffix _ ".legal.txt").
    + cbn [negb andb]. now apply IH.
    + cbn [negb andb].
      destruct (MultiAsset.wanted _).
      * unfold bind in H.
        pose proof (download_gets ass w) as Hg.
        destruct (MultiAsset.download cfg env distDir ass w) as [[err|] w1];
          [discriminate|].
        cbn [snd] in Hg. rewrite (IH _ _ H), Hg.
        cbn [List.map]. rewrite <- app_assoc. reflexivity.
      * now apply IH.
Qed.

End Selection.

(** An asset with the legal-notice suffix is never selected, whatever
    else its name contains; and an empty asset list is not an error. *)
Lemma legal_notice_never_selected (ass : Asset.t) :
  gostrings.HasSuffix (gostrings.ToLower (Asset.Name ass)) ".legal.txt" = true ->
  selected ass = false.
Proof. intros H. unfold selected. cbv zeta. now rewrite H. Qed.

Lemma download_all_nil (cfg : Config) (env : Env) (distDir : string) (w : World) :
  MultiAsset.download_all cfg env distDir [] w = (None, w).
Proof. reflexivity. Qed.

(** C3. The asset [velocityDesktopMain.js] matches only the main-bundle
    rule of the selector; the code skips it: it is not wanted, the loop
    issues no request and touches nothing for it, and indeed no name at
    all can satisfy that rule. *)
Theorem main_bundle_asset_is_skipped
        (cfg : Config) (env : Env) (distDir url : string) (w : World) :
  MultiAsset.wanted (gostrings.ToLower "velocityDesktopMain.js") = false
  /\ selected (Asset.Build "velocityDesktopMain.js" url) = false
  /\ MultiAsset.download_all cfg env distDir
       [Asset.Build "velocityDesktopMain.js" url] w = (None, w)
  /\ (forall name : string,
        gostrings.Contains (gostrings.ToLower name) "velocitydesktopMain" = false).
Proof.
  split; [reflexivity|]. split; [reflexivity|]. split; [reflexivity|].
  exact main_bundle_rule_dead.
Qed.

(** The legal-notice suffix wins over any inclusion rule. *)
Example legal_notice_excluded :
  selected (Asset.Build "patcher.js.LEGAL.txt" "u") = false
  /\ selected (Asset.Build "patcher.js" "u") = true
  /\ selected (Asset.Build "velocityDesktopRenderer.js" "u") = true
  /\ selected (Asset.Build "renderer.css" "u") = true
  /\ selected (Asset.Build "README.md" "u") = false.
Proof. repeat split; reflexivity. Qed.

(** ** [installLatestBuilds] *)

Section Install.

Variables (cfg : Config) (env : Env).

(** Decimal rendering does not identify two numbers. *)
Lemma strconv_FormatInt_inj (n m : Z) :
  strconv_FormatInt n = strconv_FormatInt m -> n = m.
Proof.
  unfold strconv_FormatInt. intros H.
  apply DecimalZ.to_int_inj.
  assert (Some (Z.to_int n) = Some (Z.to_int m)) as E.
  { rewrite <- !DecimalString.NilEmpty.isi. now rewrite H. }
  now injection E.
Qed.

(** The single-archive variant reports success only when the number of
    bytes copied, rendered in decimal, is the [Content-Length] header;
    the destination then holds exactly the bytes of the body. *)
Lemma DesktopAsar_success_checks_length (st st' : State) (w w' : World) :
  IsDevInstall st = false ->
  DesktopAsar.installLatestBuilds cfg env st w = (None, st', w') ->
  exists res : Response,
    http_Get env (DesktopAsar.find_downloadUrl (GithubRelease.Assets (ReleaseData st)))
    = Ok res
    /\ ContentLength res = strconv_FormatInt (Z.of_nat (String.length (Body res)))
    /\ BodyErr res = None
    /\ exists f, fs w' !! VelocityDirectory cfg = Some f /\ data f = Body res.
Proof.
  intros Hdev H. unfold DesktopAsar.installLatestBuilds in H.
  rewrite Hdev in H.
  destruct (String.eqb _ "") ; [discriminate|].
  unfold bind, http_get, ret in H.
  destruct (http_Get env _) as [res|e]; [|discriminate].
  destruct (300 <=? StatusCode res); [discriminate|].
  unfold os_OpenFile in H.
  destruct (fault_OpenFile env _); [discriminate|].
  unfold io_Copy in H. cbn in H.
  destruct (BodyErr res) eqn:Hbe; [discriminate|].
  destruct (String.eqb _ (ContentLength res)) eqn:Hlen; [|discriminate].
  cbn in H. injection H as <- <-.
  apply String.eqb_eq in Hlen.
  exists res. split; [reflexivity|]. split; [now symmetry|].
  split; [exact Hbe|].
  cbn. rewrite lookup_insert_eq.
  eexists. rewrite lookup_insert_eq. split; reflexivity.
Qed.

(** The comparison is reached only after a copy without error; it then
    fails on every header that is not the decimal rendering of the byte
    count (an absent header included). *)
Lemma DesktopAsar_length_check (st : State) (w : World) (res : Response) :
  IsDevInstall st = false ->
  DesktopAsar.find_downloadUrl (GithubRelease.Assets (ReleaseData st)) <> "" ->
  http_Get env (DesktopAsar.find_downloadUrl (GithubRelease.Assets (ReleaseData st)))
  = Ok res ->
  StatusCode res < 300 ->
  fault_OpenFile env (VelocityDirectory cfg) = None ->
  fst (DesktopAsar.installLatestBuilds cfg env st w)
  = (match BodyErr res with
     | Some err => Some err
     | None =>
         let read := strconv_FormatInt (Z.of_nat (String.length (Body res))) in
         if String.eqb read (ContentLength res) then None
         else Some (DesktopAsar.length_mismatch (ContentLength res) read)
     end,
     match BodyErr res with
     | Some _ => st
     | None =>
         if String.eqb (strconv_FormatInt (Z.of_nat (String.length (Body res))))
                       (ContentLength res)
         then set_InstalledHash (LatestHash st) st else st
     end).
Proof.
  intros Hdev Hurl Hget Hstatus Hopen.
  unfold DesktopAsar.installLatestBuilds. rewrite Hdev.
  apply String.eqb_neq in Hurl. rewrite Hurl.
  unfold bind, http_get, ret. rewrite Hget.
  replace (300 <=? StatusCode res) with false by (symmetry; apply Z.leb_gt; lia).
  unfold os_OpenFile. rewrite Hopen. unfold io_Copy. cbn.
  destruct (BodyErr res); [reflexivity|].
  destruct (String.eqb _ (ContentLength res)); reflexivity.
Qed.

End Install.

(** C10. With dev-install mode off, whenever [installLatestBuilds] (either
    variant) returns without error it has set [InstalledHash] to
    [LatestHash], so the comparison that follows reports the install as
    current; on every error return the variables are as before. *)
Theorem installLatestBuilds_sets_InstalledHash
        (cfg : Config) (env : Env) (st : State) (w : World) :
  IsDevInstall st = false ->
  (forall err st' w',
      MultiAsset.installLatestBuilds cfg env st w = (err, st', w') ->
      match err with
      | None => st' = set_InstalledHash (LatestHash st) st
                /\ InstalledHash st' = LatestHash st'
                /\ isOutdated st' = false
                /\ up_to_date_label st' = "up to date!"
      | Some _ => st' = st
      end)
  /\ (forall err st' w',
      DesktopAsar.installLatestBuilds cfg env st w = (err, st', w') ->
      match err with
      | None => st' = set_InstalledHash (LatestHash st) st
                /\ InstalledHash st' = LatestHash st'
                /\ isOutdated st' = false
                /\ up_to_date_label st' = "up to date!"
      | Some _ => st' = st
      end).
Proof.
  intros Hdev.
  assert (Hcur : let st' := set_InstalledHash (LatestHash st) st in
                 st' = set_InstalledHash (LatestHash st) st
                 /\ InstalledHash st' = LatestHash st'
                 /\ isOutdated st' = false
                 /\ up_to_date_label st' = "up to date!").
  { cbv zeta. unfold isOutdated, up_to_date_label. cbn.
    rewrite String.eqb_refl, orb_true_r. repeat split. }
  split; intros err st' w' H.
  - unfold MultiAsset.installLatestBuilds in H. rewrite Hdev in H.
    unfold bind, os_MkdirAll, ret in H.
    destruct (fault_MkdirAll env _).
    + injection H as <- <- <-. reflexivity.
    + destruct (MultiAsset.download_all _ _ _ _ _) as [[e|] w1];
        injection H as <- <- <-; [reflexivity | exact Hcur].
  - unfold DesktopAsar.installLatestBuilds in H. rewrite Hdev in H.
    destruct (String.eqb _ ""); [injection H as <- <- <-; reflexivity|].
    unfold bind, http_get, ret in H.
    destruct (http_Get env _) as [res|e];
      [|injection H as <- <- <-; reflexivity].
    destruct (300 <=? StatusCode res); [injection H as <- <- <-; reflexivity|].
    unfold os_OpenFile in H.
    destruct (fault_OpenFile env _); [injection H as <- <- <-; reflexivity|].
    unfold io_Copy in H. cbn in H.
    destruct (BodyErr res); [injection H as <- <- <-; reflexivity|].
    destruct (String.eqb _ (ContentLength res)); cbn in H;
      injection H as <- <- <-; [exact Hcur | reflexivity].
Qed.

Lemma installLatestBuilds_sets_InstalledHash_witness :
  (forall err st' w',
      MultiAsset.installLatestBuilds (Sample.cfg "linux" "v1") Sample.cut_short
        (Sample.fetched [Sample.patcher]) Sample.empty_world = (err, st', w') ->
      match err with
      | None => st' = set_InstalledHash "abc123" (Sample.fetched [Sample.patcher])
                /\ InstalledHash st' = LatestHash st'
                /\ isOutdated st' = false
                /\ up_to_date_label st' = "up to date!"
      | Some _ => st' = Sample.fetched [Sample.patcher]
      end)
  /\ (forall err st' w',
      DesktopAsar.installLatestBuilds (Sample.cfg "linux" "v1") Sample.cut_short
        (Sample.fetched [Sample.patcher]) Sample.empty_world = (err, st', w') ->
      match err with
      | None => st' = set_InstalledHash "abc123" (Sample.fetched [Sample.patcher])
                /\ InstalledHash st' = LatestHash st'
                /\ isOutdated st' = false
                /\ up_to_date_label st' = "up to date!"
      | Some _ => st' = Sample.fetched [Sample.patcher]
      end).
Proof.
  apply (installLatestBuilds_sets_InstalledHash
           (Sample.cfg "linux" "v1") Sample.cut_short
           (Sample.fetched [Sample.patcher]) Sample.empty_world).
  reflexivity.
Defined.

(** ** The version tracker *)

(** C4, as the code has it.  With dev-install mode off, [isOutdated] is
    false exactly when [InstalledHash] and [LatestHash] are the same
    string.  The two variables are declared with different sentinels,
    ["None"] and ["Unknown"], so before any artifact or fetch has set them
    the install is reported as outdated. *)
Theorem isOutdated_iff_hashes_differ (st : State) :
  IsDevInstall st = false ->
  (isOutdated st = false <-> InstalledHash st = LatestHash st)
  /\ InstalledHash initial_State = "None"
  /\ LatestHash initial_State = "Unknown"
  /\ isOutdated initial_State = true.
Proof.
  intros Hdev. split; [|repeat split].
  unfold isOutdated. rewrite Hdev. cbn [orb].
  rewrite negb_false_iff. apply String.eqb_eq.
Qed.

Lemma isOutdated_iff_hashes_differ_witness :
  (isOutdated (Sample.fetched []) = false
   <-> InstalledHash (Sample.fetched []) = LatestHash (Sample.fetched []))
  /\ InstalledHash initial_State = "None"
  /\ LatestHash initial_State = "Unknown"
  /\ isOutdated initial_State = true.
Proof.
  apply (isOutdated_iff_hashes_differ (Sample.fetched [])).
  reflexivity.
Defined.

(** C4 as stated fails in the initial state: the sentinels are not equal
    and the install is not reported as current. *)
Lemma initial_sentinels_are_not_equal :
  IsDevInstall initial_State = false
  /\ InstalledHash initial_State = "None"
  /\ LatestHash initial_State = "Unknown"
  /\ InstalledHash initial_State <> LatestHash initial_State
  /\ isOutdated initial_State = true
  /\ up_to_date_label initial_State = "outdated!".
Proof. repeat split. discriminate. Qed.

(** A fresh machine: no artifact, the flag unset, the fetch not yet done. *)
Example fresh_machine_before_fetch :
  fst (InitGithubDownloader (Sample.cfg "linux" "v1") Sample.offline
         initial_State Sample.empty_world)
  = (initial_State, true).
Proof. reflexivity. Qed.

(** The end-to-end scenario of a fresh machine and a successful fetch. *)
Example fresh_machine_after_fetch :
  let st := fst (InitGithubDownloader_run (Sample.cfg "linux" "v1")
                   (Sample.online (Sample.release "Velocity abc123" "v9" []) "2" "{}")
                   initial_State Sample.empty_world) in
  InstalledHash st = "None" /\ LatestHash st = "abc123"
  /\ isOutdated st = true /\ GithubDoneChan st = [true].
Proof. repeat split. Qed.

(** ** The background fetch task *)

(** [LatestHash] is written nowhere but in the fetch task. *)
Lemma LatestHash_untouched_elsewhere
      (cfg : Config) (env : Env) (st : State) (w : World) :
  LatestHash (fst (fst (InitGithubDownloader cfg env st w))) = LatestHash st
  /\ LatestHash (snd (fst (MultiAsset.installLatestBuilds cfg env st w)))
     = LatestHash st
  /\ LatestHash (snd (fst (DesktopAsar.installLatestBuilds cfg env st w)))
     = LatestHash st.
Proof.
  split; [|split].
  - unfold InitGithubDownloader. cbn.
    destruct (String.eqb (os_Getenv env _) "1"); [reflexivity|].
    unfold detect_installed, bind, os_Stat, os_ReadFile, ret. cbn.
    destruct (is_dir env _).
    + destruct (fault_ReadFile env _); [reflexivity|].
      destruct (fs w !! _); [|reflexivity].
      destruct (FindSubmatch_marker _); reflexivity.
    + destruct (fs w !! VelocityDirectory cfg) eqn:E; [|reflexivity].
      destruct (fault_ReadFile env _); [reflexivity|].
      rewrite E. destruct (FindSubmatch_marker _); reflexivity.
  - unfold MultiAsset.installLatestBuilds, bind, os_MkdirAll, ret.
    destruct (IsDevInstall st); [reflexivity|].
    destruct (fault_MkdirAll env _); [reflexivity|].
    destruct (MultiAsset.download_all _ _ _ _ _) as [[e|] w1]; reflexivity.
  - unfold DesktopAsar.installLatestBuilds, bind, http_get, os_OpenFile,
      io_Copy, ret.
    destruct (IsDevInstall st); [reflexivity|].
    destruct (String.eqb _ ""); [reflexivity|].
    destruct (http_Get env _) as [res|e]; [|reflexivity].
    destruct (300 <=? StatusCode res); [reflexivity|].
    destruct (fault_OpenFile env _); [reflexivity|]. cbn.
    destruct (BodyErr res); [reflexivity|].
    destruct (String.eqb _ (ContentLength res)); reflexivity.
Qed.

(** The detection of the installed build reads the files and nothing
    else: it either stores a marker it found or leaves the state alone. *)
Lemma detect_installed_spec (cfg : Config) (env : Env) (w : World) :
  exists found : option string,
    forall (st : State) (w0 : World),
      fs w0 = fs w ->
      detect_installed cfg env st w0
      = (match found with
         | Some m => set_InstalledHash m st
         | None => st
         end, w0).
Proof.
  unfold detect_installed, bind, os_Stat, os_ReadFile, ret. cbv zeta.
  destruct (is_dir env (VelocityDirectory cfg)).
  - destruct (fault_ReadFile env (path_Join cfg (VelocityDirectory cfg) "main.js")).
    + exists None. reflexivity.
    + destruct (fs w !! path_Join cfg (VelocityDirectory cfg) "main.js")
        as [f|] eqn:E.
      * exists (FindSubmatch_marker (data f)). intros st w0 Hfs.
        rewrite Hfs, E. destruct (FindSubmatch_marker (data f)); reflexivity.
      * exists None. intros st w0 Hfs. rewrite Hfs, E. reflexivity.
  - destruct (fs w !! VelocityDirectory cfg) as [f|] eqn:E.
    + exists (match fault_ReadFile env (VelocityDirectory cfg) with
              | Some _ => None
              | None => FindSubmatch_marker (data f)
              end).
      intros st w0 Hfs. rewrite Hfs, E.
      destruct (fault_ReadFile env (VelocityDirectory cfg)); [reflexivity|].
      rewrite Hfs, E. destruct (FindSubmatch_marker (data f)); reflexivity.
    + exists None. intros st w0 Hfs. rewrite Hfs, E. reflexivity.
Qed.

Lemma fetch_task_world (env : Env) (st : State) (w : World) :
  snd (fetch_task env st w) = snd (GetGithubRelease env ReleaseUrl w).
Proof.
  unfold fetch_task, bind.
  destruct (GetGithubRelease env ReleaseUrl w) as [[rel|e] w1]; reflexivity.
Qed.

(** The goroutine and the rest of [InitGithubDownloader] write different
    variables: whichever of the two finishes first, the variables end up
    the same. *)
Lemma fetch_task_commutes_with_detection
      (cfg : Config) (env : Env) (st : State) (w : World) :
  fst (fetch_task env (fst (detect_installed cfg env st w))
         (snd (detect_installed cfg env st w)))
  = fst (detect_installed cfg env (fst (fetch_task env st w))
           (snd (fetch_task env st w))).
Proof.
  destruct (detect_installed_spec cfg env w) as [found Hd].
  rewrite (Hd st w eq_refl).
  rewrite (Hd (fst (fetch_task env st w)) (snd (fetch_task env st w)))
    by (rewrite fetch_task_world; apply GetGithubRelease_files).
  cbn [fst snd]. unfold fetch_task, bind.
  destruct (GetGithubRelease env ReleaseUrl w) as [[rel|e] w1];
    destruct found; reflexivity.
Qed.

(** On the first run of a process the boolean tells whether the fetch
    succeeded. *)
Lemma first_run_signal (cfg : Config) (env : Env) (w : World) :
  os_Getenv env "VELOCITY_DEV_INSTALL" <> "1" ->
  GithubDoneChan (fst (InitGithubDownloader_run cfg env initial_State w))
  = [match fst (GetGithubRelease env ReleaseUrl w) with
     | Ok _ => true
     | Err _ => false
     end].
Proof.
  intros Hdev. apply String.eqb_neq in Hdev.
  destruct (detect_installed_spec cfg env w) as [found Hd].
  unfold InitGithubDownloader_run, InitGithubDownloader, bind, ret.
  cbn -[detect_installed GetGithubRelease fetch_task].
  rewrite Hdev. rewrite (Hd _ w eq_refl).
  unfold fetch_task, bind, ret.
  destruct (GetGithubRelease env ReleaseUrl w) as [[rel|e] w1];
    destruct found; reflexivity.
Qed.

(** [GithubError] is written nowhere but in the fetch task either: it is
    nil when [InitGithubDownloader] starts the task in a new process. *)
Lemma GithubError_untouched_elsewhere
      (cfg : Config) (env : Env) (st : State) (w : World) :
  GithubError (fst (fst (InitGithubDownloader cfg env st w))) = GithubError st
  /\ GithubError (snd (fst (MultiAsset.installLatestBuilds cfg env st w)))
     = GithubError st
  /\ GithubError (snd (fst (DesktopAsar.installLatestBuilds cfg env st w)))
     = GithubError st.
Proof.
  split; [|split].
  - unfold InitGithubDownloader. cbn.
    destruct (String.eqb (os_Getenv env _) "1"); [reflexivity|].
    destruct (detect_installed_spec cfg env w) as [found Hd].
    unfold bind, ret. rewrite (Hd _ w eq_refl). destruct found; reflexivity.
  - unfold MultiAsset.installLatestBuilds, bind, os_MkdirAll, ret.
    destruct (IsDevInstall st); [reflexivity|].
    destruct (fault_MkdirAll env _); [reflexivity|].
    destruct (MultiAsset.download_all _ _ _ _ _) as [[e|] w1]; reflexivity.
  - unfold DesktopAsar.installLatestBuilds, bind, http_get, os_OpenFile,
      io_Copy, ret.
    destruct (IsDevInstall st); [reflexivity|].
    destruct (String.eqb _ ""); [reflexivity|].
    destruct (http_Get env _) as [res|e]; [|reflexivity].
    destruct (300 <=? StatusCode res); [reflexivity|].
    destruct (fault_OpenFile env _); [reflexivity|]. cbn.
    destruct (BodyErr res); [reflexivity|].
    destruct (String.eqb _ (ContentLength res)); reflexivity.
Qed.

(** C6.  The fetch task is started by [InitGithubDownloader], once per
    process, and no error has been recorded when it starts.  From such a
    state one run sends exactly one boolean on the done channel.  When the
    fetch (request, status check or decoding) fails, [LatestHash] and
    [ReleaseData] keep the values they had, the error is stored in
    [GithubError] and the boolean is [false].  When it succeeds,
    [LatestHash] is assigned from the name of the fetched release, no
    error is recorded and the boolean is [true].  In particular the run of
    a new process leaves [LatestHash] at its sentinel on failure, and its
    channel holds the one boolean; and neither [InitGithubDownloader]
    itself nor [installLatestBuilds] assigns [LatestHash]. *)
Theorem fetch_task_signals_the_outcome
        (cfg : Config) (env : Env) (st : State) (w : World) :
  GithubError st = None ->
  match fst (GetGithubRelease env ReleaseUrl w) with
  | Err err =>
      LatestHash (fst (fetch_task env st w)) = LatestHash st
      /\ ReleaseData (fst (fetch_task env st w)) = ReleaseData st
      /\ GithubError (fst (fetch_task env st w)) = Some err
      /\ GithubDoneChan (fst (fetch_task env st w)) = GithubDoneChan st ++ [false]
  | Ok data =>
      LatestHash (fst (fetch_task env st w))
      = latest_of_name (GithubRelease.Name data)
      /\ ReleaseData (fst (fetch_task env st w)) = data
      /\ GithubError (fst (fetch_task env st w)) = None
      /\ GithubDoneChan (fst (fetch_task env st w)) = GithubDoneChan st ++ [true]
  end
  /\ (os_Getenv env "VELOCITY_DEV_INSTALL" <> "1" ->
      let run := fst (InitGithubDownloader_run cfg env initial_State w) in
      match fst (GetGithubRelease env ReleaseUrl w) with
      | Err err =>
          LatestHash run = "Unknown"
          /\ GithubError run = Some err
          /\ GithubDoneChan run = [false]
      | Ok data =>
          LatestHash run = latest_of_name (GithubRelease.Name data)
          /\ ReleaseData run = data
          /\ GithubError run = None
          /\ GithubDoneChan run = [true]
      end)
  /\ LatestHash (fst (fst (InitGithubDownloader cfg env st w))) = LatestHash st
  /\ LatestHash (snd (fst (MultiAsset.installLatestBuilds cfg env st w)))
     = LatestHash st
  /\ LatestHash (snd (fst (DesktopAsar.installLatestBuilds cfg env st w)))
     = LatestHash st.
Proof.
  intros Hnil. split; [|split; [|apply LatestHash_untouched_elsewhere]].
  - destruct (GetGithubRelease env ReleaseUrl w) as [[data|err] w1] eqn:Hfetch.
    + rewrite (fetch_task_Ok env st w data w1 Hfetch). cbn.
      rewrite Hnil. repeat split.
    + rewrite (fetch_task_Err env st w err w1 Hfetch). cbn. repeat split.
  - intros Hdev. cbv zeta. apply String.eqb_neq in Hdev.
    destruct (detect_installed_spec cfg env w) as [found Hd].
    unfold InitGithubDownloader_run, InitGithubDownloader, bind, ret.
    cbn -[detect_installed GetGithubRelease fetch_task].
    rewrite Hdev. rewrite (Hd _ w eq_refl).
    unfold fetch_task, bind, ret.
    destruct (GetGithubRelease env ReleaseUrl w) as [[rel|e] w1];
      destruct found; repeat split.
Qed.

Lemma fetch_task_signals_the_outcome_witness :
  LatestHash (fst (fetch_task Sample.offline initial_State Sample.empty_world))
  = "Unknown"
  /\ ReleaseData (fst (fetch_task Sample.offline initial_State Sample.empty_world))
     = GithubRelease.zero
  /\ GithubError (fst (fetch_task Sample.offline initial_State Sample.empty_world))
     = Some (ext_error "dial tcp: no route to host")
  /\ GithubDoneChan (fst (fetch_task Sample.offline initial_State Sample.empty_world))
     = [false].
Proof.
  exact (proj1 (fetch_task_signals_the_outcome
                  (Sample.cfg "linux" "v1") Sample.offline initial_State
                  Sample.empty_world eq_refl)).
Defined.

(** The same run against a server that answers. *)
Example fetch_task_success :
  let rel := Sample.release "Velocity abc123" "v9" [] in
  let st := fst (fetch_task (Sample.online rel "2" "{}") initial_State
                   Sample.empty_world) in
  LatestHash st = "abc123" /\ ReleaseData st = rel
  /\ GithubError st = None /\ GithubDoneChan st = [true].
Proof. repeat split. Qed.

(** ** The self-update check *)

Section SelfCheck.

Variables (cfg : Config) (env : Env).

(** The check from any state: a failed fetch sends [false] and leaves
    [IsSelfOutdated] alone; a successful one stores the comparison of
    the tags and sends [true]. *)
Lemma self_update_check_outcome (s : SelfState) (w : World) :
  fst (self_update_check cfg env s w)
  = match fst (GetGithubRelease env InstallerReleaseUrl w) with
    | Err _ => send_SelfUpdateCheckDoneChan false s
    | Ok res =>
        send_SelfUpdateCheckDoneChan true
          (set_IsSelfOutdated
             (negb (String.eqb (GithubRelease.TagName res) (InstallerTag cfg))) s)
    end.
Proof.
  unfold self_update_check, bind.
  destruct (GetGithubRelease env InstallerReleaseUrl w) as [[res|e] w1];
    reflexivity.
Qed.

(** [DeleteOldExecutable] has no access to the variables of the check. *)
Lemma startup_unfold (w : World) :
  InstallerTag cfg <> VersionUnknown cfg ->
  startup cfg env w
  = self_update_check cfg env initial_SelfState (snd (DeleteOldExecutable env w)).
Proof.
  intros Htag. unfold startup, init.
  apply String.eqb_neq in Htag. rewrite Htag.
  cbn [run_goroutines run_goroutine]. unfold bind, ret.
  destruct (DeleteOldExecutable env w) as [u w1]. cbn [snd].
  destruct (self_update_check cfg env initial_SelfState w1); reflexivity.
Qed.

End SelfCheck.

(** C7. With the unknown tag [init] starts nothing: no check runs and
    [IsSelfOutdated] stays false.  Otherwise the check runs; when the
    fetch fails, [IsSelfOutdated] is still false and [false] is sent; when
    it succeeds, [IsSelfOutdated] is true exactly when the release's tag
    is not the embedded tag, and [true] is sent. *)
Theorem self_update_check_runs_only_for_release_builds
        (cfg : Config) (env : Env) (w : World) :
  if String.eqb (InstallerTag cfg) (VersionUnknown cfg)
  then init cfg = []
       /\ startup cfg env w = (initial_SelfState, w)
       /\ IsSelfOutdated (fst (startup cfg env w)) = false
  else In GoSelfUpdateCheck (init cfg)
       /\ match fst (GetGithubRelease env InstallerReleaseUrl w) with
          | Err _ =>
              IsSelfOutdated (fst (startup cfg env w)) = false
              /\ SelfUpdateCheckDoneChan (fst (startup cfg env w)) = [false]
          | Ok res =>
              (IsSelfOutdated (fst (startup cfg env w)) = true
               <-> GithubRelease.TagName res <> InstallerTag cfg)
              /\ SelfUpdateCheckDoneChan (fst (startup cfg env w)) = [true]
          end.
Proof.
  destruct (String.eqb (InstallerTag cfg) (VersionUnknown cfg)) eqn:Htag.
  - unfold startup, init. rewrite Htag. repeat split.
  - split.
    + unfold init. rewrite Htag. right. left. reflexivity.
    + apply String.eqb_neq in Htag.
      rewrite (startup_unfold cfg env w Htag), self_update_check_outcome.
      rewrite (GetGithubRelease_answer env InstallerReleaseUrl
                 (snd (DeleteOldExecutable env w)) w).
      destruct (fst (GetGithubRelease env InstallerReleaseUrl w)) as [res|e].
      * cbn. split; [|reflexivity].
        rewrite negb_true_iff. apply String.eqb_neq.
      * cbn. split; reflexivity.
Qed.

Example dev_build_starts_no_check :
  init (Sample.cfg "linux" "unknown") = []
  /\ startup (Sample.cfg "linux" "unknown")
       (Sample.online (Sample.release "Installer" "v2" []) "2" "{}")
       Sample.world_with_exe
     = (initial_SelfState, Sample.world_with_exe).
Proof. split; reflexivity. Qed.

Example release_build_checks :
  fst (startup (Sample.cfg "linux" "v1")
         (Sample.online (Sample.release "Installer" "v2" []) "2" "{}")
         Sample.world_with_exe)
  = mkSelfState true [true]
  /\ fst (startup (Sample.cfg "linux" "v2")
            (Sample.online (Sample.release "Installer" "v2" []) "2" "{}")
            Sample.world_with_exe)
     = mkSelfState false [true]
  /\ fst (startup (Sample.cfg "linux" "v1") Sample.offline Sample.world_with_exe)
     = mkSelfState false [false].
Proof. repeat split. Qed.

(** ** [CanUpdateSelf] and the guard of [UpdateSelf] *)

(** C8. [CanUpdateSelf] holds exactly when an update is available and the
    platform is not darwin, so it is false on darwin whatever
    [IsSelfOutdated] is; and when it is false [UpdateSelf] returns its
    state error at once: the world (files, requests, clock) is as it
    was. *)
Theorem CanUpdateSelf_guards_UpdateSelf
        (cfg : Config) (env : Env) (s : SelfState) (w : World) :
  (CanUpdateSelf cfg s = true
   <-> IsSelfOutdated s = true /\ GOOS cfg <> "darwin")
  /\ (GOOS cfg = "darwin" -> CanUpdateSelf cfg s = false)
  /\ (CanUpdateSelf cfg s = false ->
      UpdateSelf cfg env s w
      = (Some (errors_New "cannot update self. Either no update available or macos"),
         w)).
Proof.
  split; [|split].
  - unfold CanUpdateSelf. rewrite andb_true_iff, negb_true_iff.
    split; intros [H1 H2]; (split; [exact H1|]); now apply String.eqb_neq.
  - intros Hos. unfold CanUpdateSelf. rewrite Hos. cbn.
    apply andb_false_r.
  - intros Hcan. unfold UpdateSelf. rewrite Hcan. reflexivity.
Qed.

Lemma CanUpdateSelf_guards_UpdateSelf_witness :
  UpdateSelf (Sample.cfg "darwin" "v1")
    (Sample.online (Sample.release "Installer" "v2" []) "2" "{}")
    (mkSelfState true []) Sample.world_with_exe
  = (Some (errors_New "cannot update self. Either no update available or macos"),
     Sample.world_with_exe).
Proof.
  apply (CanUpdateSelf_guards_UpdateSelf (Sample.cfg "darwin" "v1")
           (Sample.online (Sample.release "Installer" "v2" []) "2" "{}")
           (mkSelfState true []) Sample.world_with_exe).
  reflexivity.
Defined.

(** ** [DeleteOldExecutable] *)

Section Cleanup.

Variables (env : Env) (old : string).

Lemma count_removes_app (t1 t2 : list Event) :
  count_removes old (t1 ++ t2)
  = (count_removes old t1 + count_removes old t2)%nat.
Proof.
  induction t1 as [|ev t1 IH]; [reflexivity|].
  destruct ev; cbn [app count_removes]; rewrite IH; lia.
Qed.

Lemma count_removes_self : count_removes old [EvRemove old] = 1%nat.
Proof. cbn. now rewrite String.eqb_refl. Qed.

(** One attempt: the loop's exit condition is [ends_loop] at the time
    of the call; the attempt is logged, takes no time, and changes the
    files only by removing [old]. *)
Lemma os_Remove_attempt (w : World) :
  let err := fst (os_Remove env old w) in
  let w1 := snd (os_Remove env old w) in
  (isNil err
   || match err with Some e => errors_Is_ErrNotExist e | None => false end)
  = ends_loop env old (clock w)
  /\ trace w1 = trace w ++ [EvRemove old]
  /\ clock w1 = clock w
  /\ fs w1 = match fault_Remove env (clock w) old with
             | None => delete old (fs w)
             | Some _ => fs w
             end.
Proof.
  unfold os_Remove, ends_loop.
  destruct (fault_Remove env (clock w) old) as [e|]; cbn.
  - repeat split.
  - destruct (fs w !! old) eqn:E; cbn; repeat split.
    symmetry. now apply delete_id.
Qed.

(** The loop never makes more attempts than it has iterations. *)
Lemma remove_old_loop_bound (fuel : nat) : forall w : World,
  (count_removes old (trace (snd (remove_old_loop env old fuel w)))
   <= count_removes old (trace w) + fuel)%nat.
Proof.
  induction fuel as [|fuel IH]; intros w; cbn [remove_old_loop].
  - cbn. lia.
  - unfold bind.
    destruct (os_Remove_attempt w) as (_ & Htr & _ & _).
    destruct (os_Remove env old w) as [err w1]. cbn [fst snd] in *.
    destruct (isNil err || _).
    + cbn. rewrite Htr, count_removes_app, count_removes_self. lia.
    + unfold time_Sleep at 1. cbv beta iota.
      specialize (IH (log EvSleep (tick w1))).
      cbn [trace log tick] in IH.
      rewrite Htr, !count_removes_app, count_removes_self in IH.
      cbn [count_removes] in IH. lia.
Qed.

(** It stops at the first attempt that succeeds or finds nothing. *)
Lemma remove_old_loop_stops (k : nat) : forall (fuel : nat) (w : World),
  (k < fuel)%nat ->
  (forall j, (j < k)%nat -> ends_loop env old (clock w + j) = false) ->
  ends_loop env old (clock w + k) = true ->
  let w' := snd (remove_old_loop env old fuel w) in
  trace w' = trace w ++ failed_attempts old k ++ [EvRemove old]
  /\ clock w' = (clock w + k)%nat
  /\ fs w' = match fault_Remove env (clock w + k) old with
             | None => delete old (fs w)
             | Some _ => fs w
             end.
Proof.
  induction k as [|k IH]; intros fuel w Hk Hfail Hend;
    (destruct fuel as [|fuel]; [lia|]); cbn [remove_old_loop]; unfold bind;
    destruct (os_Remove_attempt w) as (Hc & Htr & Hcl & Hfs);
    destruct (os_Remove env old w) as [err w1]; cbn [fst snd] in *.
  - rewrite Nat.add_0_r in *. rewrite Hc, Hend. cbn.
    repeat split; [exact Htr | exact Hcl | exact Hfs].
  - assert (ends_loop env old (clock w) = false) as H0.
    { rewrite <- (Nat.add_0_r (clock w)). apply Hfail. lia. }
    rewrite Hc, H0. unfold time_Sleep at 1. cbv beta iota.
    assert (fs w1 = fs w) as Hsame.
    { rewrite Hfs. unfold ends_loop in H0.
      destruct (fault_Remove env (clock w) old); [reflexivity|discriminate]. }
    specialize (IH fuel (log EvSleep (tick w1))).
    cbn [clock trace fs log tick] in IH. rewrite Hcl, Htr, Hsame in IH.
    destruct IH as (IHtr & IHcl & IHfs).
    + lia.
    + intros j Hj. replace (S (clock w) + j)%nat with (clock w + S j)%nat by lia.
      apply Hfail. lia.
    + replace (S (clock w) + k)%nat with (clock w + S k)%nat by lia. exact Hend.
    + replace (S (clock w) + k)%nat with (clock w + S k)%nat in * by lia.
      repeat split; [|exact IHcl|exact IHfs].
      rewrite IHtr. cbn [failed_attempts]. rewrite <- !app_assoc. reflexivity.
Qed.

(** When every attempt is refused it gives up after the last one,
    leaving the files as they were. *)
Lemma remove_old_loop_gives_up (fuel : nat) : forall w : World,
  (forall j, (j < fuel)%nat -> ends_loop env old (clock w + j) = false) ->
  let w' := snd (remove_old_loop env old fuel w) in
  trace w' = trace w ++ failed_attempts old fuel /\ fs w' = fs w.
Proof.
  induction fuel as [|fuel IH]; intros w Hfail; cbn [remove_old_loop].
  - cbn. now rewrite app_nil_r.
  - unfold bind.
    destruct (os_Remove_attempt w) as (Hc & Htr & Hcl & Hfs).
    destruct (os_Remove env old w) as [err w1]. cbn [fst snd] in *.
    assert (ends_loop env old (clock w) = false) as H0.
    { rewrite <- (Nat.add_0_r (clock w)). apply Hfail. lia. }
    rewrite Hc, H0. unfold time_Sleep at 1. cbv beta iota.
    assert (fs w1 = fs w) as Hsame.
    { rewrite Hfs. unfold ends_loop in H0.
      destruct (fault_Remove env (clock w) old); [reflexivity|discriminate]. }
    specialize (IH (log EvSleep (tick w1))).
    cbn [clock trace fs log tick] in IH. rewrite Hcl, Htr, Hsame in IH.
    destruct IH as (IHtr & IHfs).
    + intros j Hj. replace (S (clock w) + j)%nat with (clock w + S j)%nat by lia.
      apply Hfail. lia.
    + split; [|exact IHfs].
      rewrite IHtr. cbn [failed_attempts]. rewrite <- !app_assoc. reflexivity.
Qed.

End Cleanup.

(** Without a path of its own executable it does nothing at all. *)
Lemma DeleteOldExecutable_no_path (env : Env) (w : World) (e : error) :
  os_Executable env = Err e -> DeleteOldExecutable env w = (tt, w).
Proof. intros H. unfold DeleteOldExecutable. now rewrite H. Qed.

(** C9. [DeleteOldExecutable] calls [os.Remove] on the [.old] path at most
    ten times.  It stops at the first attempt that succeeds or fails with
    "does not exist": after [k] refused attempts (each followed by a
    pause) that attempt is the last event, and a missing file ends the
    loop at the first attempt with nothing changed.  When all ten
    attempts are refused it returns all the same, the files untouched; the
    function has no error result to hand back. *)
Theorem DeleteOldExecutable_bounded_retries
        (env : Env) (exe : string) (w : World) :
  os_Executable env = Ok exe ->
  let old := exe +:+ ".old" in
  let w' := snd (DeleteOldExecutable env w) in
  (count_removes old (trace w') <= count_removes old (trace w) + 10)%nat
  /\ (forall k : nat,
        (k < 10)%nat ->
        (forall j, (j < k)%nat -> ends_loop env old (clock w + j) = false) ->
        ends_loop env old (clock w + k) = true ->
        trace w' = trace w ++ failed_attempts old k ++ [EvRemove old]
        /\ fs w' = match fault_Remove env (clock w + k) old with
                   | None => delete old (fs w)
                   | Some _ => fs w
                   end)
  /\ (fs w !! old = None ->
      ends_loop env old (clock w) = true ->
      trace w' = trace w ++ [EvRemove old] /\ fs w' = fs w)
  /\ ((forall j, (j < 10)%nat -> ends_loop env old (clock w + j) = false) ->
      trace w' = trace w ++ failed_attempts old 10 /\ fs w' = fs w)
  /\ fst (DeleteOldExecutable env w) = tt.
Proof.
  intros Hexe. cbv zeta. unfold DeleteOldExecutable. rewrite Hexe.
  split; [apply remove_old_loop_bound|].
  split.
  { intros k Hk Hfail Hend.
    destruct (remove_old_loop_stops env _ k 10 w Hk Hfail Hend) as (Ht & _ & Hf).
    split; assumption. }
  split.
  { intros Hnone Hend.
    destruct (remove_old_loop_stops env (exe +:+ ".old") 0 10 w) as (Ht & _ & Hf).
    - lia.
    - intros j Hj. lia.
    - now rewrite Nat.add_0_r.
    - rewrite Nat.add_0_r in Hf. split; [exact Ht|].
      rewrite Hf. destruct (fault_Remove env (clock w) _); [reflexivity|].
      now apply delete_id. }
  split.
  { apply remove_old_loop_gives_up. }
  destruct (remove_old_loop env _ 10 w) as [[] ?]. reflexivity.
Qed.

Lemma DeleteOldExecutable_bounded_retries_witness :
  (count_removes (Sample.exe +:+ ".old")
     (trace (snd (DeleteOldExecutable Sample.offline Sample.world_with_exe)))
   <= count_removes (Sample.exe +:+ ".old") (trace Sample.world_with_exe) + 10)%nat.
Proof.
  exact (proj1 (DeleteOldExecutable_bounded_retries
                  Sample.offline Sample.exe Sample.world_with_exe eq_refl)).
Defined.

(** The file is held for three seconds, then released. *)
Example old_executable_released_after_three_seconds :
  let env := Sample.with_fault_Remove
               (fun t _ => if (t <? 3)%nat then Some os_ErrPermission else None)
               Sample.offline in
  let w := mkWorld {[ Sample.exe +:+ ".old" := Sample.installer_v1 ]} [] 0 in
  let old := Sample.exe +:+ ".old" in
  trace (snd (DeleteOldExecutable env w))
  = [EvRemove old; EvSleep; EvRemove old; EvSleep; EvRemove old; EvSleep;
     EvRemove old]
  /\ fs (snd (DeleteOldExecutable env w)) !! old = None.
Proof. split; vm_compute; reflexivity. Qed.

(** The file is never released: ten attempts, then the function returns. *)
Example old_executable_never_released :
  let env := Sample.with_fault_Remove (fun _ _ => Some os_ErrPermission)
               Sample.offline in
  let w := mkWorld {[ Sample.exe +:+ ".old" := Sample.installer_v1 ]} [] 0 in
  let old := Sample.exe +:+ ".old" in
  count_removes old (trace (snd (DeleteOldExecutable env w))) = 10%nat
  /\ clock (snd (DeleteOldExecutable env w)) = 10%nat
  /\ fs (snd (DeleteOldExecutable env w)) !! old = Some Sample.installer_v1.
Proof. repeat split; vm_compute; reflexivity. Qed.

(** Nothing to clean up: one attempt, which finds nothing. *)
Example no_old_executable :
  DeleteOldExecutable Sample.offline Sample.world_with_exe
  = (tt, log (EvRemove (Sample.exe +:+ ".old")) Sample.world_with_exe).
Proof. reflexivity. Qed.

(** ** [UpdateSelf] *)

Section Replace.

Lemma append_neq (s : string) (c : ascii) (t : string) : s <> s +:+ String c t.
Proof.
  induction s as [|a s IH]; cbn; [discriminate|].
  intros H. injection H as H. exact (IH H).
Qed.

Lemma defer_eq {A B : Type} (d : IO B) (body : IO A) (w : World) :
  defer_ d body w = (fst (body w), snd (d (snd (body w)))).
Proof.
  unfold defer_. destruct (body w) as [a w1]. cbn.
  destruct (d w1). reflexivity.
Qed.

Variables (cfg : Config) (env : Env).
Variables (exe : string) (res : Response) (orig : File).

(** Up to the [defer]: with an update available, a download link, the
    path of the executable, a response and a fresh temporary file,
    [UpdateSelf] is the replacement sequence, followed by the deferred
    clean-up, run on the world in which the temporary file has been
    created. *)
Lemma UpdateSelf_staged (s : SelfState) (w : World) :
  let tmp := path_Join cfg (path_Dir cfg exe)
               ("VelocityInstallerUpdate" +:+ temp_suffix env) in
  CanUpdateSelf cfg s = true ->
  GetInstallerDownloadLink cfg <> "" ->
  os_Executable env = Ok exe ->
  http_Get env (GetInstallerDownloadLink cfg) = Ok res ->
  fault_CreateTemp env (path_Dir cfg exe) = None ->
  fs w !! tmp = None ->
  UpdateSelf cfg env s w
  = defer_ (cleanup_tmp env tmp) (replace_self env exe tmp res)
      (log (EvCreateTemp tmp)
         (set_fs (insert tmp (mkFile "" 384))
            (log (EvHttpGet (GetInstallerDownloadLink cfg)) w))).
Proof.
  intros tmp Hcan Hurl Hexe Hget Htmp Hfresh.
  unfold UpdateSelf. rewrite Hcan. cbn [negb].
  apply String.eqb_neq in Hurl. rewrite Hurl, Hexe.
  unfold bind at 1. unfold http_get at 1. rewrite Hget.
  unfold bind at 1. unfold os_CreateTemp at 1. rewrite Htmp.
  cbn [fs log]. fold tmp. rewrite Hfresh. reflexivity.
Qed.

Variable tmp : string.

(** The deferred clean-up touches no file but the temporary one. *)
Lemma cleanup_tmp_frame (w : World) (p : string) :
  p <> tmp -> fs (snd (cleanup_tmp env tmp w)) !! p = fs w !! p.
Proof.
  intros Hp. unfold cleanup_tmp, bind, file_Close, os_Remove, ret.
  destruct (fault_Remove env (clock w) tmp); [reflexivity|].
  destruct (fs w !! tmp); [|reflexivity].
  cbn. now apply lookup_delete_ne.
Qed.

Ltac next_case H :=
  match type of H with
  | context [match fault_Chmod ?e ?p with _ => _ end] =>
      destruct (fault_Chmod e p) eqn:?
  | context [match BodyErr ?r with _ => _ end] => destruct (BodyErr r) eqn:?
  | context [match fault_Close ?e ?p with _ => _ end] =>
      destruct (fault_Close e p) eqn:?
  | context [match fault_Remove ?e ?t ?p with _ => _ end] =>
      destruct (fault_Remove e t p) eqn:?
  | context [match fault_Rename ?e ?p ?q with _ => _ end] =>
      destruct (fault_Rename e p q) eqn:?
  end;
  cbn [fs trace clock fst snd] in H;
  rewrite ?lookup_insert_eq in H; cbn [fs trace clock fst snd data perm] in H.

(** The replacement sequence, outcome by cause.  Each step that can be
    refused is looked at in the order of the code; a refusal of an
    earlier step hides the later ones. *)
Lemma replace_self_cases (w1 : World) (f : File) :
  fs w1 !! exe = Some orig ->
  fs w1 !! tmp = Some f ->
  tmp <> exe -> tmp <> exe +:+ ".old" ->
  let r := replace_self env exe tmp res w1 in
  let old := exe +:+ ".old" in
  match fault_Chmod env tmp with
  | Some e =>
      fst r = Some (fmt_Errorf ("failed to chmod 755 " +:+ tmp) e)
      /\ fs (snd r) !! exe = Some orig /\ fs (snd r) !! old = fs w1 !! old
  | None =>
  match BodyErr res with
  | Some e =>
      fst r = Some e
      /\ fs (snd r) !! exe = Some orig /\ fs (snd r) !! old = fs w1 !! old
  | None =>
  match fault_Close env tmp with
  | Some e =>
      fst r = Some e
      /\ fs (snd r) !! exe = Some orig /\ fs (snd r) !! old = fs w1 !! old
  | None =>
  match fault_Remove env (clock w1) exe, fault_Rename env exe old,
        fault_Rename env tmp exe with
  | Some _, Some e, _ =>
      fst r = Some (fmt_Errorf "failed to remove or rename own executable" e)
      /\ fs (snd r) !! exe = Some orig /\ fs (snd r) !! old = fs w1 !! old
  | Some _, None, Some e =>
      fst r = Some (fmt_Errorf
                      "failed to replace self with updated executable. Please manually redownload the installer"
                      e)
      /\ fs (snd r) !! exe = None /\ fs (snd r) !! old = Some orig
  | None, _, Some e =>
      fst r = Some (fmt_Errorf
                      "failed to replace self with updated executable. Please manually redownload the installer"
                      e)
      /\ fs (snd r) !! exe = None /\ fs (snd r) !! old = fs w1 !! old
  | Some _, None, None =>
      fst r = None
      /\ fs (snd r) !! exe = Some (mkFile (data f +:+ Body res) 493)
      /\ fs (snd r) !! old = Some orig
  | None, _, None =>
      fst r = None
      /\ fs (snd r) !! exe = Some (mkFile (data f +:+ Body res) 493)
      /\ fs (snd r) !! old = fs w1 !! old
  end end end end.
Proof.
  intros Hexe Htmp Hne1 Hne2.
  assert (exe <> exe +:+ ".old") as Hne3 by apply append_neq.
  cbv zeta.
  cbv [replace_self bind ret file_Chmod io_Copy file_Close
       os_Remove os_Rename log set_fs tick].
  cbn [fs trace clock fst snd]. rewrite Htmp.
  revert Hne2 Hne3. generalize (exe +:+ ".old"). intros old Hne2 Hne3.
  destruct (fault_Chmod env tmp);
    [cbn [fs fst snd]; repeat split; assumption|].
  cbn [fs trace clock fst snd]. rewrite lookup_insert_eq.
  cbn [fs trace clock fst snd data perm].
  destruct (BodyErr res);
    [cbn [fs fst snd]; simplify_map_eq; repeat split; done|].
  destruct (fault_Close env tmp);
    [cbn [fs fst snd]; simplify_map_eq; repeat split; done|].
  cbn [fs trace clock fst snd].
  destruct (fault_Remove env (clock w1) exe);
    cbn [fs trace clock fst snd];
    destruct (fault_Rename env exe old);
    cbn [fs trace clock fst snd]; simplify_map_eq;
    destruct (fault_Rename env tmp exe);
    cbn [fs trace clock fst snd]; simplify_map_eq; repeat split; done.
Qed.

End Replace.

(** C1, as the code has it.  Once the temporary file has been created,
    the outcome of [UpdateSelf] is decided by the first step the system
    refuses, in the order chmod, copy, close, removal of the executable
    together with its fallback rename, final rename.
    - A refused chmod, a read error of the download or a refused close
      is returned (the chmod error as "failed to chmod 755 ..."); the
      original executable is still at its path.
    - When the removal is refused and the fallback rename to the [.old]
      path is refused too, the error is "failed to remove or rename own
      executable"; the original executable is still at its path.
    - When the removal is refused, the fallback rename goes through and
      the final rename is refused, the original is at the [.old] path
      and nothing is at the executable's path.
    - When the removal goes through and the final rename is refused,
      nothing is at the executable's path and the [.old] path holds what
      it held before, so the original is at neither.
    In the last two cases the error is "failed to replace self with
    updated executable. Please manually redownload the installer".
    Whenever no step is refused (the removal apart, if its fallback goes
    through) [UpdateSelf] returns nil. *)
Theorem UpdateSelf_failure_after_staging
        (cfg : Config) (env : Env) (s : SelfState) (w : World)
        (exe : string) (res : Response) (orig : File) :
  let tmp := path_Join cfg (path_Dir cfg exe)
               ("VelocityInstallerUpdate" +:+ temp_suffix env) in
  let old := exe +:+ ".old" in
  CanUpdateSelf cfg s = true ->
  GetInstallerDownloadLink cfg <> "" ->
  os_Executable env = Ok exe ->
  http_Get env (GetInstallerDownloadLink cfg) = Ok res ->
  fault_CreateTemp env (path_Dir cfg exe) = None ->
  fs w !! tmp = None ->
  fs w !! exe = Some orig ->
  tmp <> old ->
  let run := UpdateSelf cfg env s w in
  match fault_Chmod env tmp with
  | Some e =>
      fst run = Some (fmt_Errorf ("failed to chmod 755 " +:+ tmp) e)
      /\ fs (snd run) !! exe = Some orig /\ fs (snd run) !! old = fs w !! old
  | None =>
  match BodyErr res with
  | Some e =>
      fst run = Some e
      /\ fs (snd run) !! exe = Some orig /\ fs (snd run) !! old = fs w !! old
  | None =>
  match fault_Close env tmp with
  | Some e =>
      fst run = Some e
      /\ fs (snd run) !! exe = Some orig /\ fs (snd run) !! old = fs w !! old
  | None =>
  match fault_Remove env (clock w) exe, fault_Rename env exe old,
        fault_Rename env tmp exe with
  | Some _, Some e, _ =>
      fst run = Some (fmt_Errorf "failed to remove or rename own executable" e)
      /\ fs (snd run) !! exe = Some orig /\ fs (snd run) !! old = fs w !! old
  | Some _, None, Some e =>
      fst run
      = Some (fmt_Errorf
                "failed to replace self with updated executable. Please manually redownload the installer"
                e)
      /\ fs (snd run) !! exe = None /\ fs (snd run) !! old = Some orig
  | None, _, Some e =>
      fst run
      = Some (fmt_Errorf
                "failed to replace self with updated executable. Please manually redownload the installer"
                e)
      /\ fs (snd run) !! exe = None /\ fs (snd run) !! old = fs w !! old
  | Some _, None, None => fst run = None
  | None, _, None => fst run = None
  end end end end.
Proof.
  intros tmp old Hcan Hurl Hexe Hget Hct Hfresh Horig Hne. cbv zeta.
  rewrite (UpdateSelf_staged cfg env exe res s w Hcan Hurl Hexe Hget Hct Hfresh).
  fold tmp.
  assert (tmp <> exe) as Hne' by (intros E; rewrite E in Hfresh; congruence).
  assert (exe <> tmp) as Hne1 by congruence.
  assert (old <> tmp) as Hne2 by congruence.
  rewrite defer_eq. cbn [fst snd].
  rewrite (cleanup_tmp_frame env tmp _ exe Hne1),
    (cleanup_tmp_frame env tmp _ old Hne2).
  pose proof (replace_self_cases env exe res orig tmp
                (log (EvCreateTemp tmp)
                   (set_fs (insert tmp (mkFile "" 384))
                      (log (EvHttpGet (GetInstallerDownloadLink cfg)) w)))
                (mkFile "" 384)) as H.
  cbn [fs clock log set_fs] in H.
  rewrite lookup_insert_eq, !lookup_insert_ne in H by assumption.
  specialize (H Horig eq_refl Hne' Hne). cbv zeta in H. fold old in H.
  destruct (fault_Chmod env tmp); [exact H|].
  destruct (BodyErr res); [exact H|].
  destruct (fault_Close env tmp); [exact H|].
  destruct (fault_Remove env (clock w) exe);
    destruct (fault_Rename env exe old);
    destruct (fault_Rename env tmp exe); first [exact H | apply H].
Qed.

Lemma UpdateSelf_failure_after_staging_witness :
  fst (UpdateSelf (Sample.cfg "linux" "v1") Sample.locked_exe_no_replace
         (mkSelfState true []) Sample.world_with_exe)
  = Some (fmt_Errorf
            "failed to replace self with updated executable. Please manually redownload the installer"
            os_ErrPermission)
  /\ fs (snd (UpdateSelf (Sample.cfg "linux" "v1") Sample.locked_exe_no_replace
                (mkSelfState true []) Sample.world_with_exe)) !! Sample.exe
     = None
  /\ fs (snd (UpdateSelf (Sample.cfg "linux" "v1") Sample.locked_exe_no_replace
                (mkSelfState true []) Sample.world_with_exe))
     !! (Sample.exe +:+ ".old")
     = Some Sample.installer_v1.
Proof.
  refine (UpdateSelf_failure_after_staging
            (Sample.cfg "linux" "v1") Sample.locked_exe_no_replace
            (mkSelfState true []) Sample.world_with_exe
            Sample.exe (Sample.ok_response "12" "installer v2")
            Sample.installer_v1 _ _ _ _ _ _ _ _).
  - reflexivity.
  - discriminate.
  - reflexivity.
  - reflexivity.
  - reflexivity.
  - vm_compute. reflexivity.
  - vm_compute. reflexivity.
  - discriminate.
Defined.

(** C1 as stated fails where the removal of the running executable
    succeeds and the final rename is refused: the temporary file had been
    created, [UpdateSelf] returns an error, and no file is left at the
    executable's path nor at the [.old] path. *)
Lemma UpdateSelf_can_lose_the_executable :
  let run := UpdateSelf (Sample.cfg "linux" "v1") Sample.no_rename
               (mkSelfState true []) Sample.world_with_exe in
  fs Sample.world_with_exe !! Sample.exe = Some Sample.installer_v1
  /\ fst run
     = Some (fmt_Errorf
               "failed to replace self with updated executable. Please manually redownload the installer"
               os_ErrPermission)
  /\ trace (snd run)
     = [EvHttpGet "https://github.com/Velocitcy/Installer/releases/latest/download/VelocityInstallerCli-linux";
        EvCreateTemp Sample.tmp; EvChmod Sample.tmp; EvWrite Sample.tmp 12;
        EvRemove Sample.exe; EvRename Sample.tmp Sample.exe;
        EvRemove Sample.tmp]
  /\ fs (snd run) !! Sample.exe = None
  /\ fs (snd run) !! (Sample.exe +:+ ".old") = None.
Proof. repeat split; vm_compute; reflexivity. Qed.

(** The other outcomes, on concrete machines. *)
Example UpdateSelf_succeeds :
  let run := UpdateSelf (Sample.cfg "linux" "v1") Sample.update_server
               (mkSelfState true []) Sample.world_with_exe in
  fst run = None
  /\ fs (snd run) !! Sample.exe = Some (mkFile "installer v2" 493)
  /\ fs (snd run) !! Sample.tmp = None.
Proof. repeat split; vm_compute; reflexivity. Qed.

Example UpdateSelf_locked_executable_is_kept_as_old :
  let run := UpdateSelf (Sample.cfg "linux" "v1") Sample.locked_exe
               (mkSelfState true []) Sample.world_with_exe in
  fst run = None
  /\ fs (snd run) !! Sample.exe = Some (mkFile "installer v2" 493)
  /\ fs (snd run) !! (Sample.exe +:+ ".old") = Some Sample.installer_v1.
Proof. repeat split; vm_compute; reflexivity. Qed.

Example UpdateSelf_locked_and_not_replaced :
  let run := UpdateSelf (Sample.cfg "linux" "v1") Sample.locked_exe_no_replace
               (mkSelfState true []) Sample.world_with_exe in
  fst run <> None
  /\ fs (snd run) !! Sample.exe = None
  /\ fs (snd run) !! (Sample.exe +:+ ".old") = Some Sample.installer_v1.
Proof. repeat split; vm_compute; (reflexivity || discriminate). Qed.

(* ===================================================================== *)
(** * Further properties of the code *)
(* ===================================================================== *)

(** ** Prefixes, suffixes and substrings *)

Section SubstringFacts.

Implicit Types (s t p : string) (c : ascii).

Lemma append_cons c s t : String c s +:+ t = String c (s +:+ t).
Proof. reflexivity. Qed.

Lemma append_nil_r s : s +:+ EmptyString = s.
Proof. induction s as [|a s IH]; [reflexivity|]. now rewrite append_cons, IH. Qed.

Lemma append_assoc s t p : (s +:+ t) +:+ p = s +:+ (t +:+ p).
Proof.
  induction s as [|a s IH]; [reflexivity|]. now rewrite !append_cons, IH.
Qed.

Lemma append_inj_l p s t : p +:+ s = p +:+ t -> s = t.
Proof.
  induction p as [|a p IH]; [trivial|].
  rewrite !append_cons. intros H. injection H as H. exact (IH H).
Qed.

Lemma length_append s t :
  String.length (s +:+ t) = (String.length s + String.length t)%nat.
Proof.
  induction s as [|a s IH]; [reflexivity|].
  rewrite append_cons. cbn [String.length]. now rewrite IH.
Qed.

Lemma HasPrefix_iff p : forall s,
  gostrings.HasPrefix s p = true <-> exists post, s = p +:+ post.
Proof.
  induction p as [|b p IH]; intros s.
  - split; [intros _; exists s; reflexivity | reflexivity].
  - destruct s as [|a s]; cbn [gostrings.HasPrefix].
    + split; [discriminate | intros [post H]; discriminate].
    + rewrite andb_true_iff, Ascii.eqb_eq, IH. split.
      * intros [-> [post ->]]. exists post. reflexivity.
      * intros [post H]. rewrite append_cons in H. injection H as -> ->.
        split; [reflexivity | exists post; reflexivity].
Qed.

Lemma Contains_iff s : forall p,
  gostrings.Contains s p = true <-> exists pre post, s = pre +:+ p +:+ post.
Proof.
  unfold gostrings.Contains.
  induction s as [|a s IH]; intros p.
  - cbn [gostrings.Index].
    destruct (gostrings.HasPrefix EmptyString p) eqn:Hp.
    + split; [intros _|reflexivity].
      apply HasPrefix_iff in Hp as [post Hp]. exists EmptyString, post. exact Hp.
    + split; [discriminate|]. intros (pre & post & H).
      destruct pre; [|discriminate].
      assert (gostrings.HasPrefix EmptyString p = true) as Hp'
        by (apply HasPrefix_iff; exists post; exact H).
      congruence.
  - cbn [gostrings.Index].
    destruct (gostrings.HasPrefix (String a s) p) eqn:Hp.
    + split; [intros _|reflexivity].
      apply HasPrefix_iff in Hp as [post Hp]. exists EmptyString, post. exact Hp.
    + specialize (IH p).
      destruct (gostrings.Index s p <? 0) eqn:E.
      * apply Z.ltb_lt in E. split; [discriminate|].
        intros (pre & post & H). destruct pre as [|b pre].
        -- assert (gostrings.HasPrefix (String a s) p = true) as Hp'
             by (apply HasPrefix_iff; exists post; exact H).
           congruence.
        -- rewrite append_cons in H. injection H as -> H.
           assert ((0 <=? gostrings.Index s p) = true) as H0
             by (apply IH; exists pre, post; exact H).
           apply Z.leb_le in H0. lia.
      * apply Z.ltb_ge in E. split; [intros _ | intros _; apply Z.leb_le; lia].
        destruct IH as [IH _].
        destruct (IH ltac:(apply Z.leb_le; lia)) as (pre & post & H).
        exists (String a pre), post. rewrite append_cons. now rewrite <- H.
Qed.

Lemma substring_skip p : forall t n,
  String.substring (String.length p) n (p +:+ t) = String.substring 0 n t.
Proof.
  induction p as [|a p IH]; intros t n; [reflexivity|].
  rewrite append_cons. cbn [String.length String.substring]. apply IH.
Qed.

Lemma substring_split s : forall n,
  (n <= String.length s)%nat ->
  s = String.substring 0 n s
      +:+ String.substring n (String.length s - n) s.
Proof.
  induction s as [|a s IH]; intros n Hn.
  - cbn in Hn. assert (n = 0%nat) as -> by lia. reflexivity.
  - destruct n as [|n].
    + rewrite Nat.sub_0_r, substring_all. reflexivity.
    + cbn [String.length] in *. cbn [String.substring Nat.sub].
      rewrite append_cons. f_equal. apply IH. lia.
Qed.

Lemma HasSuffix_iff s t :
  gostrings.HasSuffix s t = true <-> exists pre, s = pre +:+ t.
Proof.
  unfold gostrings.HasSuffix, gostrings.slice_from.
  rewrite andb_true_iff, Nat.leb_le, String.eqb_eq, Nat2Z.id. split.
  - intros [Hle Heq].
    exists (String.substring 0 (String.length s - String.length t) s).
    rewrite <- Heq at 2. apply substring_split. lia.
  - intros [pre ->]. rewrite length_append. split; [lia|].
    replace (String.length pre + String.length t - String.length t)%nat
      with (String.length pre) by lia.
    rewrite substring_skip.
    replace (String.length pre + String.length t - String.length pre)%nat
      with (String.length t) by lia.
    apply substring_all.
Qed.

Lemma ToLower_append s t :
  gostrings.ToLower (s +:+ t) = gostrings.ToLower s +:+ gostrings.ToLower t.
Proof.
  induction s as [|a s IH]; [reflexivity|].
  rewrite append_cons. cbn [gostrings.ToLower]. now rewrite IH, append_cons.
Qed.

End SubstringFacts.

(** ** Which assets are selected, in terms of their names *)

(** X1. For an asset with an ASCII name, the loop of [installLatestBuilds]
    acts on it (downloads it, and stops if that fails) exactly when its
    lowercased name does not end with [.legal.txt] and contains
    [preload], [patcher] or [velocitydesktoprenderer], or contains
    [renderer] but not [velocitydesktop]; otherwise the loop goes on to
    the next asset without any effect. *)
Theorem selected_iff_name
        (cfg : Config) (env : Env) (distDir : string)
        (ass : Asset.t) (rest : list Asset.t) (w : World) :
  gostrings.isASCII (Asset.Name ass) = true ->
  let l := gostrings.ToLower (Asset.Name ass) in
  (selected ass = true
   <-> ~ ends_with ".legal.txt" l
       /\ (occurs_in "preload" l
           \/ occurs_in "patcher" l
           \/ occurs_in "velocitydesktoprenderer" l
           \/ (occurs_in "renderer" l /\ ~ occurs_in "velocitydesktop" l)))
  /\ MultiAsset.download_all cfg env distDir (ass :: rest) w
     = if selected ass then
         match MultiAsset.download cfg env distDir ass w with
         | (Some err, w1) => (Some err, w1)
         | (None, w1) => MultiAsset.download_all cfg env distDir rest w1
         end
       else MultiAsset.download_all cfg env distDir rest w.
Proof.
  intros _. cbv zeta. split.
  - unfold selected. cbv zeta. rewrite wanted_ToLower. cbv zeta.
    unfold occurs_in, ends_with.
    rewrite andb_true_iff, negb_true_iff, !orb_true_iff, andb_true_iff,
      negb_true_iff.
    rewrite <- !Contains_iff, <- HasSuffix_iff.
    rewrite <- !not_true_iff_false. tauto.
  - cbn [MultiAsset.download_all]. unfold selected. cbv zeta.
    destruct (gostrings.HasSuffix _ ".legal.txt"); [reflexivity|].
    cbn [negb andb].
    destruct (MultiAsset.wanted _); [|reflexivity].
    unfold bind.
    destruct (MultiAsset.download cfg env distDir ass w) as [[e|] w1];
      reflexivity.
Qed.

Lemma selected_iff_name_witness :
  selected Sample.patcher = true
  /\ MultiAsset.download_all (Sample.cfg "linux" "v1") Sample.offline "/d"
       [Sample.patcher] Sample.empty_world
     = (Some (ext_error "dial tcp: no route to host"),
        log (EvHttpGet "https://dl.example/patcher.js") Sample.empty_world).
Proof.
  pose proof (selected_iff_name (Sample.cfg "linux" "v1") Sample.offline "/d"
                Sample.patcher [] Sample.empty_world eq_refl) as [_ H].
  split; [reflexivity | exact H].
Defined.

(** X2. A name with the legal-notice extension in any letter case is never
    selected, whatever else it contains. *)
Theorem legal_notice_any_case (ass : Asset.t) (base ext : string) :
  Asset.Name ass = base +:+ ext ->
  gostrings.ToLower ext = ".legal.txt" ->
  selected ass = false.
Proof.
  intros Hname Hext. apply legal_notice_never_selected.
  apply HasSuffix_iff. exists (gostrings.ToLower base).
  now rewrite Hname, ToLower_append, Hext.
Qed.

Lemma legal_notice_any_case_witness :
  selected (Asset.Build "velocityDesktopRenderer.js.LEGAL.TXT" "u") = false.
Proof.
  apply (legal_notice_any_case
           (Asset.Build "velocityDesktopRenderer.js.LEGAL.TXT" "u")
           "velocityDesktopRenderer.js" ".LEGAL.TXT"); reflexivity.
Defined.

(** ** The identifier derived from a release name, in general *)

(** X3. For every release name, [LatestHash] as derived by the fetch task
    is a suffix of the name that contains no space; a name without any
    space is taken whole. *)
Theorem latest_of_name_suffix (name : string) :
  (exists pre, name = pre +:+ latest_of_name name)
  /\ gostrings.Contains (latest_of_name name) " " = false
  /\ (gostrings.Contains name " " = false -> latest_of_name name = name).
Proof.
  unfold latest_of_name. cbv zeta. rewrite !Contains_byte.
  destruct (gostrings.has_byte " " name) eqn:H.
  - destruct (LastIndex_byte_split _ _ H) as (_ & (pre & Hpre & _) & Hfree).
    split; [|split; [exact Hfree | discriminate]].
    exists (pre +:+ " "). rewrite append_assoc. exact Hpre.
  - rewrite (LastIndex_byte_absent _ _ H). cbn [Z.add Z.opp Z.pos_sub].
    rewrite slice_from_0.
    split; [exists EmptyString; reflexivity|]. split; [exact H | reflexivity].
Qed.

Example latest_of_name_edges :
  latest_of_name "abc123" = "abc123"
  /\ latest_of_name "Velocity " = ""
  /\ latest_of_name "" = "".
Proof. repeat split. Qed.

(** ** The marker of the installed build *)

Section Marker.

Lemma word_run_spec (s : string) :
  exists post, s = word_run s +:+ post
               /\ all_word (word_run s) = true
               /\ starts_with_word post = false.
Proof.
  induction s as [|a s (post & Hs & Hw & Hp)].
  - exists EmptyString. repeat split.
  - cbn [word_run]. destruct (is_word_byte a) eqn:Ha.
    + exists post. rewrite append_cons, <- Hs. cbn [all_word]. rewrite Ha, Hw.
      repeat split. exact Hp.
    + exists (String a s). cbn [starts_with_word]. repeat split. exact Ha.
Qed.

Lemma slice_from_append (p rest : string) :
  gostrings.slice_from (p +:+ rest) (Z.of_nat (String.length p)) = rest.
Proof.
  unfold gostrings.slice_from. rewrite Nat2Z.id, length_append, substring_skip.
  replace (String.length p + String.length rest - String.length p)%nat
    with (String.length rest) by lia.
  apply substring_all.
Qed.

(** What the search returns is a match of the pattern. *)
Lemma FindSubmatch_marker_sound (b : string) : forall m,
  FindSubmatch_marker b = Some m ->
  m <> ""
  /\ all_word m = true
  /\ exists pre post,
       b = pre +:+ "// Velocity " +:+ m +:+ post
       /\ starts_with_word post = false.
Proof.
  induction b as [|a b IH]; intros m H; cbn [FindSubmatch_marker] in H.
  - discriminate.
  - destruct (gostrings.HasPrefix (String a b) "// Velocity ") eqn:Hp.
    + apply HasPrefix_iff in Hp as [rest Hb].
      rewrite Hb in H at 1.
      change 12 with (Z.of_nat (String.length "// Velocity ")) in H.
      rewrite slice_from_append in H.
      destruct (word_run_spec rest) as (post & Hrest & Hw & Hpost).
      destruct (word_run rest) as [|c r] eqn:Hrun.
      * destruct (IH m H) as (Hne & Hall & pre & post' & Hpre & Hp').
        split; [exact Hne|]. split; [exact Hall|].
        exists (String a pre), post'. rewrite append_cons, <- Hpre.
        split; [reflexivity | exact Hp'].
      * injection H as <-. split; [discriminate|]. split; [exact Hw|].
        exists EmptyString, post. split; [|exact Hpost].
        rewrite Hb, Hrest. reflexivity.
    + destruct (IH m H) as (Hne & Hall & pre & post' & Hpre & Hp').
      split; [exact Hne|]. split; [exact Hall|].
      exists (String a pre), post'. rewrite append_cons, <- Hpre.
      split; [reflexivity | exact Hp'].
Qed.

(** It finds a match whenever there is one. *)
Lemma FindSubmatch_marker_complete (b : string) : forall pre rest,
  b = pre +:+ "// Velocity " +:+ rest ->
  starts_with_word rest = true ->
  FindSubmatch_marker b <> None.
Proof.
  induction b as [|a b IH]; intros pre rest Hb Hw.
  - destruct pre; discriminate.
  - cbn [FindSubmatch_marker].
    destruct (gostrings.HasPrefix (String a b) "// Velocity ") eqn:Hp.
    + apply HasPrefix_iff in Hp as [rest' Hb'].
      rewrite Hb' at 1.
      change 12 with (Z.of_nat (String.length "// Velocity ")).
      rewrite slice_from_append.
      destruct (word_run rest') as [|c r] eqn:Hrun; [|discriminate].
      destruct pre as [|a' pre].
      * rewrite Hb' in Hb. change (EmptyString +:+ ?x) with x in Hb.
        apply append_inj_l in Hb. subst rest'.
        destruct rest as [|c rest]; [discriminate|].
        cbn in Hw. cbn [word_run] in Hrun. rewrite Hw in Hrun. discriminate.
      * rewrite append_cons in Hb. injection Hb as -> Hb.
        eapply IH; eassumption.
    + destruct pre as [|a' pre].
      * assert (gostrings.HasPrefix (String a b) "// Velocity " = true) as Hp'
          by (apply HasPrefix_iff; exists rest; exact Hb).
        congruence.
      * rewrite append_cons in Hb. injection Hb as -> Hb.
        eapply IH; eassumption.
Qed.

Variables (cfg : Config) (env : Env).

Lemma detect_installed_cases (st : State) (w : World) :
  detect_installed cfg env st w = (st, w)
  \/ exists f m,
       fs w !! entry_file cfg env = Some f
       /\ FindSubmatch_marker (data f) = Some m
       /\ detect_installed cfg env st w = (set_InstalledHash m st, w).
Proof.
  unfold detect_installed, entry_file, bind, os_Stat, os_ReadFile, ret. cbv zeta.
  destruct (is_dir env (VelocityDirectory cfg)).
  - destruct (fault_ReadFile env _); [left; reflexivity|].
    destruct (fs w !! path_Join cfg (VelocityDirectory cfg) "main.js")
      as [f|] eqn:E; [|left; reflexivity].
    destruct (FindSubmatch_marker (data f)) as [m|] eqn:Hm; [|left; reflexivity].
    right. exists f, m. repeat split; assumption.
  - destruct (fs w !! VelocityDirectory cfg) as [f|] eqn:E; [|left; reflexivity].
    destruct (fault_ReadFile env _); [left; reflexivity|].
    rewrite E.
    destruct (FindSubmatch_marker (data f)) as [m|] eqn:Hm; [|left; reflexivity].
    right. exists f, m. repeat split; assumption.
Qed.

End Marker.

(** X4. [InitGithubDownloader] performs no effect of its own, and the
    [InstalledHash] it leaves is either the previous one or a marker read
    from the entry file (the path itself, or [main.js] inside it when it
    is a directory): a non-empty run of word bytes that follows the
    literal [// Velocity ] in the file and is not followed by a further
    word byte. *)
Theorem InitGithubDownloader_reads_marker
        (cfg : Config) (env : Env) (st : State) (w : World) :
  let st' := fst (fst (InitGithubDownloader cfg env st w)) in
  snd (InitGithubDownloader cfg env st w) = w
  /\ (InstalledHash st' = InstalledHash st
      \/ exists f pre post,
           fs w !! entry_file cfg env = Some f
           /\ data f = pre +:+ "// Velocity " +:+ InstalledHash st' +:+ post
           /\ InstalledHash st' <> ""
           /\ all_word (InstalledHash st') = true
           /\ starts_with_word post = false).
Proof.
  cbv zeta. unfold InitGithubDownloader. cbv zeta.
  cbn [IsDevInstall set_IsDevInstall].
  destruct (String.eqb (os_Getenv env "VELOCITY_DEV_INSTALL") "1").
  - split; [reflexivity | left; reflexivity].
  - unfold bind, ret.
    destruct (detect_installed_cases cfg env
                (set_IsDevInstall false (set_GithubDoneChan [] st)) w)
      as [H | (f & m & Hf & Hm & H)]; rewrite H; cbn [fst snd].
    + split; [reflexivity | left; reflexivity].
    + split; [reflexivity|]. right.
      destruct (FindSubmatch_marker_sound _ _ Hm)
        as (Hne & Hall & pre & post & Hd & Hpost).
      exists f, pre, post. cbn. repeat split; assumption.
Qed.

(** X5. When the entry file holds a marker, [InitGithubDownloader] does
    find one: with the flag unset, no read failure and a file in which
    [// Velocity ] is followed by a word byte, [InstalledHash] is set to a
    marker of that file. *)
Theorem InitGithubDownloader_finds_marker
        (cfg : Config) (env : Env) (st : State) (w : World)
        (f : File) (pre rest : string) :
  os_Getenv env "VELOCITY_DEV_INSTALL" <> "1" ->
  fs w !! entry_file cfg env = Some f ->
  fault_ReadFile env (entry_file cfg env) = None ->
  data f = pre +:+ "// Velocity " +:+ rest ->
  starts_with_word rest = true ->
  exists m,
    FindSubmatch_marker (data f) = Some m
    /\ InstalledHash (fst (fst (InitGithubDownloader cfg env st w))) = m.
Proof.
  intros Hdev Hf Hread Hd Hw.
  destruct (FindSubmatch_marker (data f)) as [m|] eqn:Hm;
    [|exfalso; exact (FindSubmatch_marker_complete _ _ _ Hd Hw Hm)].
  exists m. split; [reflexivity|].
  apply String.eqb_neq in Hdev.
  unfold InitGithubDownloader. cbv zeta. cbn [IsDevInstall set_IsDevInstall].
  rewrite Hdev. unfold bind at 1. unfold ret at 1.
  unfold detect_installed, os_Stat, os_ReadFile, bind, ret. cbv zeta.
  unfold entry_file in Hf, Hread.
  destruct (is_dir env (VelocityDirectory cfg)); cbv beta iota zeta.
  - rewrite Hread, Hf. cbv beta iota zeta. rewrite Hm. reflexivity.
  - rewrite Hf. cbv beta iota zeta. rewrite Hread, Hf. cbv beta iota zeta.
    rewrite Hm. reflexivity.
Qed.

Lemma InitGithubDownloader_finds_marker_witness :
  exists m,
    FindSubmatch_marker "/* x */ // Velocity abc123 (stable)" = Some m
    /\ InstalledHash
         (fst (fst (InitGithubDownloader (Sample.cfg "linux" "v1") Sample.offline
            initial_State
            (mkWorld {[ "/home/u/.config/Velocity/dist" :=
                          mkFile "/* x */ // Velocity abc123 (stable)" 420 ]} [] 0))))
       = m.
Proof.
  apply (InitGithubDownloader_finds_marker
           (Sample.cfg "linux" "v1") Sample.offline initial_State
           (mkWorld {[ "/home/u/.config/Velocity/dist" :=
                         mkFile "/* x */ // Velocity abc123 (stable)" 420 ]} [] 0)
           (mkFile "/* x */ // Velocity abc123 (stable)" 420)
           "/* x */ " "abc123 (stable)").
  - discriminate.
  - vm_compute. reflexivity.
  - reflexivity.
  - reflexivity.
  - reflexivity.
Defined.

(** ** Fetching a release *)

(** X6. [GetGithubRelease] sends one request, unless the request cannot
    be built, and has no other effect.  It returns a release exactly when
    the request was built and answered, the status code is below 300 and
    the bytes of the body hold a complete value that decodes, however the
    stream ends after that value.  When the request cannot be built the
    error is the one of [http.NewRequest] and nothing is sent; with a
    status of 300 or more the error is the status text, whatever the body
    holds; a value that does not decode gives the decoder's error; and
    when the body ends before a value is complete the error is the read
    error of the stream, or the decoder's end-of-input error after a clean
    end. *)
Theorem GetGithubRelease_result (env : Env) (url : string) (w : World) :
  snd (GetGithubRelease env url w)
  = match fault_NewRequest env url with
    | Some _ => w
    | None => log (EvHttpGet url) w
    end
  /\ (forall data,
        fst (GetGithubRelease env url w) = Ok data
        <-> fault_NewRequest env url = None
            /\ exists res, http_Get env url = Ok res
                           /\ StatusCode res < 300
                           /\ json_Decode env (Body res) = Value data)
  /\ (forall err, fault_NewRequest env url = Some err ->
        GetGithubRelease env url w = (Err err, w))
  /\ (forall err, fault_NewRequest env url = None ->
        http_Get env url = Err err ->
        fst (GetGithubRelease env url w) = Err err)
  /\ (forall res, fault_NewRequest env url = None ->
        http_Get env url = Ok res -> 300 <= StatusCode res ->
        fst (GetGithubRelease env url w) = Err (errors_New (Status res)))
  /\ (forall res, fault_NewRequest env url = None ->
        http_Get env url = Ok res -> StatusCode res < 300 ->
        fst (GetGithubRelease env url w)
        = match json_Decode env (Body res) with
          | Value data => Ok data
          | Invalid err => Err err
          | Incomplete at_eof =>
              Err (match BodyErr res with
                   | Some err => err
                   | None => at_eof
                   end)
          end).
Proof.
  split; [apply GetGithubRelease_world|].
  unfold GetGithubRelease, bind, http_get, ret, decode_body.
  split; [|split; [|split; [|split]]].
  - intros data. destruct (fault_NewRequest env url) as [e0|]; cbn.
    { split; [discriminate|]. intros [H _]. discriminate. }
    destruct (http_Get env url) as [res|e]; cbn.
    + destruct (300 <=? StatusCode res) eqn:Hs; cbn.
      * apply Z.leb_le in Hs. split; [discriminate|].
        intros (_ & res' & H & Hlt & _). injection H as <-. lia.
      * apply Z.leb_gt in Hs.
        destruct (json_Decode env (Body res)) as [d|e|e] eqn:Hd.
        -- split.
           ++ intros H. injection H as <-. split; [reflexivity|].
              exists res. repeat split; assumption.
           ++ intros (_ & res' & H & _ & Hd'). injection H as <-. congruence.
        -- split; [discriminate|].
           intros (_ & res' & H & _ & Hd'). injection H as <-. congruence.
        -- split; [discriminate|].
           intros (_ & res' & H & _ & Hd'). injection H as <-. congruence.
    + split; [discriminate|]. intros (_ & res' & H & _). discriminate.
  - intros err ->. reflexivity.
  - intros err -> ->. reflexivity.
  - intros res -> Hget Hs. rewrite Hget.
    apply Z.leb_le in Hs. rewrite Hs. reflexivity.
  - intros res -> Hget Hs. rewrite Hget.
    apply Z.leb_gt in Hs. rewrite Hs. reflexivity.
Qed.

(** A complete release followed by a broken connection is still a
    release; a broken connection inside the value is an error. *)
Example GetGithubRelease_after_the_value :
  let rel := Sample.release "Velocity abc123" "v9" [] in
  let get (err : option error) : string -> Result Response :=
    fun _ => Ok (mkResponse 200 "200 OK" "" "{}" err) in
  fst (GetGithubRelease
         (Sample.with_http (get (Some io_ErrUnexpectedEOF)) (fun _ => Value rel)
            Sample.offline)
         ReleaseUrl Sample.empty_world) = Ok rel
  /\ fst (GetGithubRelease
            (Sample.with_http (get (Some io_ErrUnexpectedEOF))
               (fun _ => Incomplete io_ErrUnexpectedEOF) Sample.offline)
            ReleaseUrl Sample.empty_world) = Err io_ErrUnexpectedEOF.
Proof. split; reflexivity. Qed.

(** ** Dev-install mode *)

(** X7. With [VELOCITY_DEV_INSTALL=1] the installer stays off the network
    and off the disk: [InitGithubDownloader] starts no fetch, signals
    [true] at once and leaves hashes, release data and error as they
    were; the install counts as up to date; and [installLatestBuilds]
    (either variant) then returns nil without any effect. *)
Theorem dev_install_does_nothing
        (cfg : Config) (env : Env) (st : State) (w : World) :
  os_Getenv env "VELOCITY_DEV_INSTALL" = "1" ->
  let st' := fst (InitGithubDownloader_run cfg env st w) in
  InitGithubDownloader_run cfg env st w
  = (set_IsDevInstall true (set_GithubDoneChan [true] st), w)
  /\ isOutdated st' = false
  /\ MultiAsset.installLatestBuilds cfg env st' w = (None, st', w)
  /\ DesktopAsar.installLatestBuilds cfg env st' w = (None, st', w).
Proof.
  intros Hdev. cbv zeta.
  assert (InitGithubDownloader_run cfg env st w
          = (set_IsDevInstall true (set_GithubDoneChan [true] st), w)) as Hrun.
  { unfold InitGithubDownloader_run, InitGithubDownloader, bind, ret.
    cbn [IsDevInstall set_IsDevInstall]. rewrite Hdev. reflexivity. }
  rewrite Hrun. repeat split.
Qed.

Lemma dev_install_does_nothing_witness :
  InitGithubDownloader_run (Sample.cfg "linux" "v1")
    (mkEnv Sample.no_fault
           (http_Get Sample.update_server) (json_Decode Sample.update_server)
           (fun _ => "1") (Ok Sample.exe) (fun _ => false) "1"
           Sample.no_fault Sample.no_fault Sample.no_fault Sample.no_fault
           Sample.no_fault Sample.no_fault (fun _ _ => None) (fun _ _ => None))
    initial_State Sample.world_with_exe
  = (set_IsDevInstall true (set_GithubDoneChan [true] initial_State),
     Sample.world_with_exe).
Proof.
  exact (proj1 (dev_install_does_nothing (Sample.cfg "linux" "v1")
    (mkEnv Sample.no_fault
           (http_Get Sample.update_server) (json_Decode Sample.update_server)
           (fun _ => "1") (Ok Sample.exe) (fun _ => false) "1"
           Sample.no_fault Sample.no_fault Sample.no_fault Sample.no_fault
           Sample.no_fault Sample.no_fault (fun _ _ => None) (fun _ _ => None))
    initial_State Sample.world_with_exe eq_refl)).
Defined.

(** ** The done-channels *)

(** X8. Every run of [InitGithubDownloader] and its goroutine leaves
    exactly one value in the one-slot channel [GithubDoneChan], whatever
    the channel held before; and process start leaves at most one value
    in [SelfUpdateCheckDoneChan], exactly one when the build has a known
    tag.  No send ever finds its buffer full. *)
Theorem done_channels_hold_one_value
        (cfg : Config) (env : Env) (st : State) (w : World) :
  length (GithubDoneChan (fst (InitGithubDownloader_run cfg env st w))) = 1%nat
  /\ length (SelfUpdateCheckDoneChan (fst (startup cfg env w)))
     = (if String.eqb (InstallerTag cfg) (VersionUnknown cfg) then 0 else 1)%nat.
Proof.
  split.
  - unfold InitGithubDownloader_run, InitGithubDownloader. cbv zeta.
    cbn [IsDevInstall set_IsDevInstall].
    destruct (String.eqb (os_Getenv env "VELOCITY_DEV_INSTALL") "1");
      [reflexivity|].
    unfold bind at 1 2. unfold ret at 1.
    destruct (detect_installed_cases cfg env
                (set_IsDevInstall false (set_GithubDoneChan [] st)) w)
      as [H | (f & m & _ & _ & H)]; rewrite H; cbv beta iota;
      unfold fetch_task, bind;
      destruct (GetGithubRelease env ReleaseUrl w) as [[rel|e] w1]; reflexivity.
  - destruct (String.eqb (InstallerTag cfg) (VersionUnknown cfg)) eqn:Htag.
    + unfold startup, init. rewrite Htag. reflexivity.
    + apply String.eqb_neq in Htag.
      rewrite (startup_unfold cfg env w Htag), self_update_check_outcome.
      destruct (fst (GetGithubRelease env InstallerReleaseUrl _)); reflexivity.
Qed.

(** ** The download loop of [MultiAsset.installLatestBuilds] *)

Section Loop.

Variables (cfg : Config) (env : Env) (distDir : string).

Lemma download_all_app (l1 l2 : list Asset.t) : forall w : World,
  MultiAsset.download_all cfg env distDir (l1 ++ l2) w
  = match MultiAsset.download_all cfg env distDir l1 w with
    | (Some err, w1) => (Some err, w1)
    | (None, w1) => MultiAsset.download_all cfg env distDir l2 w1
    end.
Proof.
  induction l1 as [|a l1 IH]; intros w; [reflexivity|].
  cbn [app MultiAsset.download_all].
  destruct (gostrings.HasSuffix _ ".legal.txt"); [apply IH|].
  destruct (MultiAsset.wanted _); [|apply IH].
  unfold bind.
  destruct (MultiAsset.download cfg env distDir a w) as [[e|] w1];
    [reflexivity | apply IH].
Qed.

(** One asset: only its destination is written; on success the
    destination holds exactly the body of the response. *)
Lemma download_frame (ass : Asset.t) (w : World) (p : string) :
  p <> path_Join cfg distDir (Asset.Name ass) ->
  fs (snd (MultiAsset.download cfg env distDir ass w)) !! p = fs w !! p.
Proof.
  intros Hp. unfold MultiAsset.download, FixOwnership, bind, http_get, ret,
    os_OpenFile, io_Copy, file_Close.
  destruct (http_Get env _) as [res|e]; [|reflexivity].
  destruct (300 <=? StatusCode res); [reflexivity|].
  destruct (fault_OpenFile env _); [reflexivity|].
  destruct (BodyErr res); unfold log, set_fs; cbn [fs snd trace clock];
    rewrite lookup_insert_eq; cbn [fs snd data perm];
    rewrite !lookup_insert_ne by congruence; reflexivity.
Qed.

Lemma download_success (ass : Asset.t) (w w1 : World) :
  MultiAsset.download cfg env distDir ass w = (None, w1) ->
  exists res,
    http_Get env (Asset.DownloadURL ass) = Ok res
    /\ StatusCode res < 300
    /\ BodyErr res = None
    /\ data <$> fs w1 !! path_Join cfg distDir (Asset.Name ass)
       = Some (Body res).
Proof.
  unfold MultiAsset.download, FixOwnership, bind, http_get, ret,
    os_OpenFile, io_Copy, file_Close.
  destruct (http_Get env _) as [res|e]; [|discriminate].
  destruct (300 <=? StatusCode res) eqn:Hs; [discriminate|].
  destruct (fault_OpenFile env _); [discriminate|].
  destruct (BodyErr res) eqn:Hb; [discriminate|].
  unfold log, set_fs; cbn [fs snd trace clock]. rewrite lookup_insert_eq.
  intros H. injection H as <-. exists res.
  split; [reflexivity|]. split; [now apply Z.leb_gt|]. split; [exact Hb|].
  cbn [fs]. rewrite lookup_insert_eq. reflexivity.
Qed.

Lemma download_all_frame (assets : list Asset.t) : forall (w : World) (p : string),
  ~ In p (destinations cfg distDir assets) ->
  fs (snd (MultiAsset.download_all cfg env distDir assets w)) !! p = fs w !! p.
Proof.
  unfold destinations.
  induction assets as [|a rest IH]; intros w p Hp; [reflexivity|].
  cbn [MultiAsset.download_all]. cbn [List.filter] in Hp.
  unfold selected at 1 in Hp. cbv zeta in Hp.
  destruct (gostrings.HasSuffix _ ".legal.txt"); [now apply IH|].
  destruct (MultiAsset.wanted _); [|now apply IH].
  cbn [negb andb List.map In] in Hp.
  unfold bind.
  pose proof (download_frame a w p) as Hf.
  destruct (MultiAsset.download cfg env distDir a w) as [[e|] w1];
    cbn [snd] in *.
  - apply Hf. intros ->. apply Hp. now left.
  - rewrite IH by (intros H; apply Hp; now right).
    apply Hf. intros ->. apply Hp. now left.
Qed.

Lemma download_all_failure (assets : list Asset.t) :
  forall (w w' : World) (err : error),
  MultiAsset.download_all cfg env distDir assets w = (Some err, w') ->
  exists done a rest w1,
    assets = done ++ a :: rest
    /\ selected a = true
    /\ MultiAsset.download_all cfg env distDir done w = (None, w1)
    /\ MultiAsset.download cfg env distDir a w1 = (Some err, w')
    /\ http_gets (trace w')
       = http_gets (trace w)
         ++ List.map Asset.DownloadURL (List.filter selected done)
         ++ [Asset.DownloadURL a].
Proof.
  induction assets as [|a rest IH]; intros w w' err H; [discriminate|].
  cbn [MultiAsset.download_all] in H.
  assert (Hskip : selected a = false ->
            MultiAsset.download_all cfg env distDir rest w = (Some err, w') ->
            exists done a0 rest0 w1,
              a :: rest = done ++ a0 :: rest0
              /\ selected a0 = true
              /\ MultiAsset.download_all cfg env distDir done w = (None, w1)
              /\ MultiAsset.download cfg env distDir a0 w1 = (Some err, w')
              /\ http_gets (trace w')
                 = http_gets (trace w)
                   ++ List.map Asset.DownloadURL (List.filter selected done)
                   ++ [Asset.DownloadURL a0]).
  { intros Hsel Hrest.
    destruct (IH _ _ _ Hrest) as (done & a0 & rest0 & w1 & -> & Ha0 & Hd & Hf & Hg).
    exists (a :: done), a0, rest0, w1.
    split; [reflexivity|]. split; [exact Ha0|]. split.
    - cbn [MultiAsset.download_all]. unfold selected in Hsel. cbv zeta in Hsel.
      destruct (gostrings.HasSuffix _ ".legal.txt"); [exact Hd|].
      cbn [negb andb] in Hsel. rewrite Hsel. exact Hd.
    - split; [exact Hf|]. cbn [List.filter]. rewrite Hsel. exact Hg. }
  destruct (gostrings.HasSuffix (gostrings.ToLower (Asset.Name a)) ".legal.txt")
    eqn:Hlegal.
  { apply Hskip; [|exact H]. unfold selected. cbv zeta. now rewrite Hlegal. }
  destruct (MultiAsset.wanted (gostrings.ToLower (Asset.Name a))) eqn:Hwant.
  2:{ apply Hskip; [|exact H]. unfold selected. cbv zeta.
      now rewrite Hlegal, Hwant. }
  assert (selected a = true) as Hsel
    by (unfold selected; cbv zeta; now rewrite Hlegal, Hwant).
  unfold bind in H.
  pose proof (download_gets cfg env distDir a w) as Hg1.
  destruct (MultiAsset.download cfg env distDir a w) as [[e|] w1] eqn:Hd;
    cbn [snd] in Hg1.
  - injection H as <- <-.
    exists [], a, rest, w. repeat split; try assumption.
  - destruct (IH _ _ _ H) as (done & a0 & rest0 & w2 & -> & Ha0 & Hd' & Hf & Hg).
    exists (a :: done), a0, rest0, w2.
    split; [reflexivity|]. split; [exact Ha0|]. split.
    + cbn [MultiAsset.download_all]. rewrite Hlegal, Hwant. unfold bind.
      rewrite Hd. exact Hd'.
    + split; [exact Hf|]. cbn [List.filter]. rewrite Hsel.
      rewrite Hg, Hg1. cbn [List.map]. rewrite <- !app_assoc. reflexivity.
Qed.

End Loop.

(** X9. When the multi-asset [installLatestBuilds] returns nil outside
    dev-install mode, for a release whose assets have ASCII names, it has
    requested exactly the selected assets of the release, each once, in
    the order of the release's asset list. *)
Theorem installLatestBuilds_requests_selected
        (cfg : Config) (env : Env) (st st' : State) (w w' : World) :
  ascii_names (GithubRelease.Assets (ReleaseData st)) = true ->
  IsDevInstall st = false ->
  MultiAsset.installLatestBuilds cfg env st w = (None, st', w') ->
  http_gets (trace w')
  = http_gets (trace w)
    ++ List.map Asset.DownloadURL
         (List.filter selected (GithubRelease.Assets (ReleaseData st))).
Proof.
  intros _ Hdev H. unfold MultiAsset.installLatestBuilds in H. rewrite Hdev in H.
  unfold bind, os_MkdirAll, ret in H.
  destruct (fault_MkdirAll env _); [discriminate|].
  destruct (MultiAsset.download_all _ _ _ _ _) as [[e|] w1] eqn:Hd;
    [discriminate|].
  injection H as _ <-.
  rewrite (download_all_gets _ _ _ _ _ _ Hd). cbn [trace log].
  rewrite http_gets_app. cbn. now rewrite app_nil_r.
Qed.

Lemma installLatestBuilds_requests_selected_witness :
  http_gets (trace (snd (MultiAsset.installLatestBuilds (Sample.cfg "linux" "v1")
     Sample.serving (Sample.fetched [Sample.patcher]) Sample.empty_world)))
  = http_gets (trace Sample.empty_world)
    ++ List.map Asset.DownloadURL (List.filter selected [Sample.patcher]).
Proof.
  apply (installLatestBuilds_requests_selected (Sample.cfg "linux" "v1")
           Sample.serving (Sample.fetched [Sample.patcher])
           (set_InstalledHash "abc123" (Sample.fetched [Sample.patcher]))
           Sample.empty_world).
  - reflexivity.
  - reflexivity.
  - vm_compute. reflexivity.
Defined.

(** X10. The first failing download ends the batch: when the loop of the
    multi-asset [installLatestBuilds], run on assets with ASCII names,
    returns an error, the asset list
    splits into the assets gone through without error, the selected asset
    whose download returned that error, and the rest; the requests issued
    are those for the selected assets of the first part and the failing
    one, and none for the rest. *)
Theorem first_failure_aborts_the_batch
        (cfg : Config) (env : Env) (distDir : string)
        (assets : list Asset.t) (w w' : World) (err : error) :
  ascii_names assets = true ->
  MultiAsset.download_all cfg env distDir assets w = (Some err, w') ->
  exists done a rest w1,
    assets = done ++ a :: rest
    /\ selected a = true
    /\ MultiAsset.download_all cfg env distDir done w = (None, w1)
    /\ MultiAsset.download cfg env distDir a w1 = (Some err, w')
    /\ http_gets (trace w')
       = http_gets (trace w)
         ++ List.map Asset.DownloadURL (List.filter selected done)
         ++ [Asset.DownloadURL a].
Proof. intros _. apply download_all_failure. Qed.

Lemma first_failure_aborts_the_batch_witness :
  exists done a rest w1,
    [Sample.patcher; Asset.Build "preload.js" "https://dl.example/preload.js"]
    = done ++ a :: rest
    /\ selected a = true
    /\ MultiAsset.download_all (Sample.cfg "linux" "v1") Sample.offline "/d" done
         Sample.empty_world = (None, w1)
    /\ MultiAsset.download (Sample.cfg "linux" "v1") Sample.offline "/d" a w1
       = (Some (ext_error "dial tcp: no route to host"),
          log (EvHttpGet "https://dl.example/patcher.js") Sample.empty_world)
    /\ http_gets (trace (log (EvHttpGet "https://dl.example/patcher.js")
                           Sample.empty_world))
       = http_gets (trace Sample.empty_world)
         ++ List.map Asset.DownloadURL (List.filter selected done)
         ++ [Asset.DownloadURL a].
Proof.
  apply (first_failure_aborts_the_batch (Sample.cfg "linux" "v1") Sample.offline
           "/d"
           [Sample.patcher; Asset.Build "preload.js" "https://dl.example/preload.js"]
           Sample.empty_world).
  - reflexivity.
  - reflexivity.
Defined.

(** X11. Run on assets with ASCII names, the loop writes no file but the
    destinations of selected assets: every other path holds after the
    loop what it held before, whether the loop succeeds or fails. *)
Theorem download_all_writes_only_destinations
        (cfg : Config) (env : Env) (distDir : string)
        (assets : list Asset.t) (w : World) (p : string) :
  ascii_names assets = true ->
  ~ In p (destinations cfg distDir assets) ->
  fs (snd (MultiAsset.download_all cfg env distDir assets w)) !! p = fs w !! p.
Proof. intros _. apply download_all_frame. Qed.

Lemma download_all_writes_only_destinations_witness :
  fs (snd (MultiAsset.download_all (Sample.cfg "linux" "v1") Sample.cut_short
             "/d" [Sample.patcher] Sample.world_with_exe)) !! Sample.exe
  = fs Sample.world_with_exe !! Sample.exe.
Proof.
  apply (download_all_writes_only_destinations (Sample.cfg "linux" "v1")
           Sample.cut_short "/d" [Sample.patcher] Sample.world_with_exe).
  - reflexivity.
  - cbn. intros [H|[]]. discriminate.
Defined.

(** X12. After a loop that ran to its end on assets with ASCII names, the
    destination of a selected asset holds exactly the body of the
    response to its URL, which was read to its end without error,
    provided no later selected asset of the list has the same
    destination. *)
Theorem downloaded_file_holds_the_body
        (cfg : Config) (env : Env) (distDir : string)
        (done : list Asset.t) (a : Asset.t) (rest : list Asset.t)
        (w w' : World) :
  ascii_names (done ++ a :: rest) = true ->
  selected a = true ->
  ~ In (path_Join cfg distDir (Asset.Name a)) (destinations cfg distDir rest) ->
  MultiAsset.download_all cfg env distDir (done ++ a :: rest) w = (None, w') ->
  exists res,
    http_Get env (Asset.DownloadURL a) = Ok res
    /\ BodyErr res = None
    /\ data <$> fs w' !! path_Join cfg distDir (Asset.Name a) = Some (Body res).
Proof.
  intros _ Hsel Hlast H. rewrite download_all_app in H.
  destruct (MultiAsset.download_all cfg env distDir done w) as [[e|] w1];
    [discriminate|].
  cbn [MultiAsset.download_all] in H.
  unfold selected in Hsel. cbv zeta in Hsel.
  apply andb_true_iff in Hsel as [Hl Hw]. apply negb_true_iff in Hl.
  rewrite Hl, Hw in H. unfold bind in H.
  destruct (MultiAsset.download cfg env distDir a w1) as [[e|] w2] eqn:Hd;
    [discriminate|].
  destruct (download_success _ _ _ _ _ _ Hd) as (res & Hget & _ & Hb & Hfile).
  exists res. split; [exact Hget|]. split; [exact Hb|].
  pose proof (download_all_frame cfg env distDir rest w2 _ Hlast) as Hf.
  rewrite H in Hf. cbn [snd] in Hf. rewrite Hf. exact Hfile.
Qed.

Lemma downloaded_file_holds_the_body_witness :
  exists res,
    http_Get Sample.serving (Asset.DownloadURL Sample.patcher) = Ok res
    /\ BodyErr res = None
    /\ data <$> fs (snd (MultiAsset.download_all (Sample.cfg "linux" "v1")
                           Sample.serving "/d" [Sample.patcher]
                           Sample.empty_world)) !! "/d/patcher.js"
       = Some (Body res).
Proof.
  apply (downloaded_file_holds_the_body (Sample.cfg "linux" "v1")
           Sample.serving "/d" [] Sample.patcher [] Sample.empty_world).
  - reflexivity.
  - reflexivity.
  - intros [].
  - vm_compute. reflexivity.
Defined.

(** ** Downloads and the declared length *)

Section DeclaredLength.

Variables (cfg : Config) (env : Env).

(** A loop that ran to its end has read every selected asset to the end
    of its stream without error. *)
Lemma download_all_success_all (distDir : string) (assets : list Asset.t) :
  forall (w w' : World),
  MultiAsset.download_all cfg env distDir assets w = (None, w') ->
  forall ass, In ass assets -> selected ass = true ->
  exists res,
    http_Get env (Asset.DownloadURL ass) = Ok res
    /\ StatusCode res < 300 /\ BodyErr res = None.
Proof.
  induction assets as [|a rest IH]; intros w w' H ass Hin Hsel; [destruct Hin|].
  cbn [MultiAsset.download_all] in H.
  assert (Hrest : forall w0,
            MultiAsset.download_all cfg env distDir rest w0 = (None, w') ->
            In ass rest ->
            exists res, http_Get env (Asset.DownloadURL ass) = Ok res
                        /\ StatusCode res < 300 /\ BodyErr res = None)
    by (intros w0 H0 Hin0; exact (IH w0 w' H0 ass Hin0 Hsel)).
  destruct Hin as [<-|Hin].
  - unfold selected in Hsel. cbv zeta in Hsel.
    apply andb_true_iff in Hsel as [Hl Hw]. apply negb_true_iff in Hl.
    rewrite Hl, Hw in H. unfold bind in H.
    destruct (MultiAsset.download cfg env distDir a w) as [[e|] w1] eqn:Hd;
      [discriminate|].
    destruct (download_success _ _ _ _ _ _ Hd) as (res & Hget & Hs & Hb & _).
    exists res. repeat split; assumption.
  - destruct (gostrings.HasSuffix _ ".legal.txt"); [now apply (Hrest w)|].
    destruct (MultiAsset.wanted _); [|now apply (Hrest w)].
    unfold bind in H.
    destruct (MultiAsset.download cfg env distDir a w) as [[e|] w1];
      [discriminate | now apply (Hrest w1)].
Qed.

(** An error return of the multi-asset function leaves the variables
    alone. *)
Lemma MultiAsset_error_keeps_state (st st' : State) (w w' : World) (err : error) :
  MultiAsset.installLatestBuilds cfg env st w = (Some err, st', w') -> st' = st.
Proof.
  unfold MultiAsset.installLatestBuilds, bind, os_MkdirAll, ret.
  destruct (IsDevInstall st); [discriminate|].
  destruct (fault_MkdirAll env _); [intros H; now injection H|].
  destruct (MultiAsset.download_all _ _ _ _ _) as [[e|] w1];
    [intros H; now injection H | discriminate].
Qed.

(** One download whose stream ends with a read error returns an error;
    it is that read error once the file could be opened. *)
Lemma download_read_error (distDir : string) (ass : Asset.t) (w : World)
      (res : Response) (e : error) :
  http_Get env (Asset.DownloadURL ass) = Ok res ->
  BodyErr res = Some e ->
  fst (MultiAsset.download cfg env distDir ass w) <> None
  /\ (StatusCode res < 300 ->
      fault_OpenFile env (path_Join cfg distDir (Asset.Name ass)) = None ->
      fst (MultiAsset.download cfg env distDir ass w) = Some e).
Proof.
  intros Hget Hb.
  unfold MultiAsset.download, FixOwnership, bind, http_get, ret,
    os_OpenFile, io_Copy, file_Close.
  rewrite Hget.
  destruct (300 <=? StatusCode res) eqn:Hs.
  - split; [discriminate|]. apply Z.leb_le in Hs. lia.
  - destruct (fault_OpenFile env _).
    + split; [discriminate | intros _ H; discriminate].
    + cbn [fst snd]. rewrite Hb. split; [discriminate | reflexivity].
Qed.

Lemma DesktopAsar_read_error (st : State) (w : World) (res : Response) (e : error) :
  IsDevInstall st = false ->
  http_Get env (DesktopAsar.find_downloadUrl (GithubRelease.Assets (ReleaseData st)))
  = Ok res ->
  BodyErr res = Some e ->
  (exists err, fst (DesktopAsar.installLatestBuilds cfg env st w) = (Some err, st))
  /\ (DesktopAsar.find_downloadUrl (GithubRelease.Assets (ReleaseData st)) <> "" ->
      StatusCode res < 300 ->
      fault_OpenFile env (VelocityDirectory cfg) = None ->
      fst (DesktopAsar.installLatestBuilds cfg env st w) = (Some e, st)).
Proof.
  intros Hdev Hget Hb.
  unfold DesktopAsar.installLatestBuilds. rewrite Hdev.
  destruct (String.eqb _ "") eqn:Hurl.
  { split; [eexists; reflexivity|].
    apply String.eqb_eq in Hurl. intros H. contradiction. }
  unfold bind, http_get, ret, os_OpenFile, io_Copy. rewrite Hget.
  destruct (300 <=? StatusCode res) eqn:Hs.
  { split; [eexists; reflexivity|]. apply Z.leb_le in Hs. lia. }
  destruct (fault_OpenFile env _).
  { split; [eexists; reflexivity | intros _ _ H; discriminate]. }
  cbn. rewrite Hb. split; [eexists; reflexivity | reflexivity].
Qed.

End DeclaredLength.

(** The response of [Sample.cut_short] is one [net/http] can deliver. *)
Lemma cut_short_response :
  net_http_body (mkResponse 200 "200 OK" "10" "abcd" (Some io_ErrUnexpectedEOF))
  /\ declares (mkResponse 200 "200 OK" "10" "abcd" (Some io_ErrUnexpectedEOF)) 10.
Proof.
  split.
  - intros N [_ HN]. cbn in HN.
    change "10"%string with (strconv_FormatInt 10) in HN.
    apply strconv_FormatInt_inj in HN. subst N. cbn. split; [lia|discriminate].
  - split; [lia | reflexivity].
Qed.

(** C2, as the code has it.  Take a response as [net/http] delivers it,
    with a declared length of [N] bytes.
    - A download that returns nil has written exactly the body, [N]
      bytes, to its destination, in either variant of
      [installLatestBuilds]; and when the multi-asset function returns nil
      every selected asset (of ASCII name) was read to its end, all [N]
      bytes of it.
    - When the stream yields fewer than [N] bytes it ends with a read
      error, and the download fails: with that read error, returned by
      the copy, as soon as the status is below 300 and the file could be
      opened.  The multi-asset function then returns an error and leaves
      [InstalledHash] as it was; so does the single-archive function,
      whose comparison of the byte count with the header is not reached.
    The read error of a connection closed early, [io.ErrUnexpectedEOF],
    is not an error built by that comparison. *)
Theorem short_download_fails_with_the_read_error
        (cfg : Config) (env : Env) (res : Response) (N : Z) :
  net_http_body res -> declares res N ->
  (forall distDir ass w w1,
      http_Get env (Asset.DownloadURL ass) = Ok res ->
      MultiAsset.download cfg env distDir ass w = (None, w1) ->
      exists f, fs w1 !! path_Join cfg distDir (Asset.Name ass) = Some f
                /\ data f = Body res
                /\ Z.of_nat (String.length (data f)) = N)
  /\ (forall st st' w w',
      IsDevInstall st = false ->
      http_Get env (DesktopAsar.find_downloadUrl
                      (GithubRelease.Assets (ReleaseData st))) = Ok res ->
      DesktopAsar.installLatestBuilds cfg env st w = (None, st', w') ->
      exists f, fs w' !! VelocityDirectory cfg = Some f
                /\ data f = Body res
                /\ Z.of_nat (String.length (data f)) = N)
  /\ (forall st st' w w' ass,
      ascii_names (GithubRelease.Assets (ReleaseData st)) = true ->
      IsDevInstall st = false ->
      MultiAsset.installLatestBuilds cfg env st w = (None, st', w') ->
      In ass (GithubRelease.Assets (ReleaseData st)) -> selected ass = true ->
      http_Get env (Asset.DownloadURL ass) = Ok res ->
      BodyErr res = None /\ Z.of_nat (String.length (Body res)) = N)
  /\ (Z.of_nat (String.length (Body res)) < N ->
      exists e, BodyErr res = Some e
      /\ (forall distDir ass w,
            http_Get env (Asset.DownloadURL ass) = Ok res ->
            fst (MultiAsset.download cfg env distDir ass w) <> None
            /\ (StatusCode res < 300 ->
                fault_OpenFile env (path_Join cfg distDir (Asset.Name ass)) = None ->
                fst (MultiAsset.download cfg env distDir ass w) = Some e))
      /\ (forall st w ass,
            ascii_names (GithubRelease.Assets (ReleaseData st)) = true ->
            IsDevInstall st = false ->
            In ass (GithubRelease.Assets (ReleaseData st)) -> selected ass = true ->
            http_Get env (Asset.DownloadURL ass) = Ok res ->
            exists err,
              fst (MultiAsset.installLatestBuilds cfg env st w) = (Some err, st))
      /\ (forall st w,
            IsDevInstall st = false ->
            http_Get env (DesktopAsar.find_downloadUrl
                            (GithubRelease.Assets (ReleaseData st))) = Ok res ->
            (exists err,
               fst (DesktopAsar.installLatestBuilds cfg env st w) = (Some err, st))
            /\ (DesktopAsar.find_downloadUrl
                  (GithubRelease.Assets (ReleaseData st)) <> "" ->
                StatusCode res < 300 ->
                fault_OpenFile env (VelocityDirectory cfg) = None ->
                fst (DesktopAsar.installLatestBuilds cfg env st w) = (Some e, st))))
  /\ ~ is_length_mismatch io_ErrUnexpectedEOF.
Proof.
  intros Hbody Hdecl.
  destruct (Hbody N Hdecl) as [Hle Hshort].
  assert (Hfull : BodyErr res = None -> Z.of_nat (String.length (Body res)) = N).
  { intros Hb.
    destruct (Z.eq_dec (Z.of_nat (String.length (Body res))) N) as [E|E];
      [exact E|].
    exfalso. apply Hshort; [lia | exact Hb]. }
  assert (Hall : forall st st' w w' ass,
            IsDevInstall st = false ->
            MultiAsset.installLatestBuilds cfg env st w = (None, st', w') ->
            In ass (GithubRelease.Assets (ReleaseData st)) -> selected ass = true ->
            http_Get env (Asset.DownloadURL ass) = Ok res ->
            BodyErr res = None /\ Z.of_nat (String.length (Body res)) = N).
  { intros st st' w w' ass Hdev H Hin Hsel Hget.
    unfold MultiAsset.installLatestBuilds in H. rewrite Hdev in H.
    unfold bind, os_MkdirAll, ret in H.
    destruct (fault_MkdirAll env _); [discriminate|].
    destruct (MultiAsset.download_all _ _ _ _ _) as [[e|] w1] eqn:Hd;
      [discriminate|].
    destruct (download_all_success_all cfg env _ _ _ _ Hd ass Hin Hsel)
      as (res' & Hget' & _ & Hb).
    rewrite Hget in Hget'. injection Hget' as <-. split; [exact Hb | auto]. }
  split; [|split; [|split; [|split]]].
  - intros distDir ass w w1 Hget Hd.
    destruct (download_success _ _ _ _ _ _ Hd) as (res' & Hget' & _ & Hb & Hfile).
    rewrite Hget in Hget'. injection Hget' as <-.
    destruct (fs w1 !! path_Join cfg distDir (Asset.Name ass)) as [f|];
      [|discriminate].
    cbn in Hfile. injection Hfile as Hfile.
    exists f. split; [reflexivity|]. split; [exact Hfile|].
    rewrite Hfile. auto.
  - intros st st' w w' Hdev Hget H.
    destruct (DesktopAsar_success_checks_length cfg env st st' w w' Hdev H)
      as (res' & Hget' & _ & Hb & f & Hf & Hdata).
    rewrite Hget in Hget'. injection Hget' as <-.
    exists f. split; [exact Hf|]. split; [exact Hdata|]. rewrite Hdata. auto.
  - intros st st' w w' ass _. apply Hall.
  - intros Hlt. destruct (BodyErr res) as [e|] eqn:Hb;
      [|exfalso; now apply Hshort].
    exists e. split; [reflexivity|]. split; [|split].
    + intros distDir ass w Hget. now apply download_read_error.
    + intros st w ass _ Hdev Hin Hsel Hget.
      destruct (MultiAsset.installLatestBuilds cfg env st w)
        as [[[err|] st'] w'] eqn:Hrun.
      * exists err. cbn.
        now rewrite (MultiAsset_error_keeps_state cfg env _ _ _ _ _ Hrun).
      * destruct (Hall st st' w w' ass Hdev Hrun Hin Hsel Hget) as [Hb' _].
        congruence.
    + intros st w Hdev Hget. now apply DesktopAsar_read_error.
  - intros (cl & rd & H). discriminate.
Qed.

Lemma short_download_fails_with_the_read_error_witness :
  fst (MultiAsset.download (Sample.cfg "linux" "v1") Sample.cut_short "/d"
         Sample.patcher Sample.empty_world)
  = Some io_ErrUnexpectedEOF
  /\ fst (DesktopAsar.installLatestBuilds (Sample.cfg "linux" "v1")
            Sample.cut_short (Sample.fetched [Sample.desktop_asar])
            Sample.empty_world)
     = (Some io_ErrUnexpectedEOF, Sample.fetched [Sample.desktop_asar]).
Proof.
  destruct (short_download_fails_with_the_read_error
              (Sample.cfg "linux" "v1") Sample.cut_short
              (mkResponse 200 "200 OK" "10" "abcd" (Some io_ErrUnexpectedEOF)) 10
              (proj1 cut_short_response) (proj2 cut_short_response))
    as (_ & _ & _ & Hshort & _).
  destruct Hshort as (e & He & Hmulti & _ & Harchive); [reflexivity|].
  injection He as <-. split.
  - apply (Hmulti "/d" Sample.patcher Sample.empty_world);
      [reflexivity | reflexivity | reflexivity].
  - apply (Harchive (Sample.fetched [Sample.desktop_asar]) Sample.empty_world);
      [reflexivity | reflexivity | discriminate | reflexivity | reflexivity].
Defined.

(** C2 as stated fails on a transfer cut short: the server declares ten
    bytes and closes the connection after four.  Both variants of
    [installLatestBuilds] fail and leave the variables alone, but the
    error they return is the read error of the copy, not an error of a
    length comparison. *)
Lemma short_transfer_error_is_not_a_length_mismatch :
  let cfg := Sample.cfg "linux" "v1" in
  let res := mkResponse 200 "200 OK" "10" "abcd" (Some io_ErrUnexpectedEOF) in
  http_Get Sample.cut_short (Asset.DownloadURL Sample.patcher) = Ok res
  /\ net_http_body res
  /\ declares res 10
  /\ Z.of_nat (String.length (Body res)) = 4
  /\ fst (MultiAsset.installLatestBuilds cfg Sample.cut_short
            (Sample.fetched [Sample.patcher]) Sample.empty_world)
     = (Some io_ErrUnexpectedEOF, Sample.fetched [Sample.patcher])
  /\ fst (DesktopAsar.installLatestBuilds cfg Sample.cut_short
            (Sample.fetched [Sample.desktop_asar]) Sample.empty_world)
     = (Some io_ErrUnexpectedEOF, Sample.fetched [Sample.desktop_asar])
  /\ ~ is_length_mismatch io_ErrUnexpectedEOF.
Proof.
  cbv zeta. split; [reflexivity|].
  split; [apply cut_short_response|]. split; [apply cut_short_response|].
  split; [reflexivity|]. split; [reflexivity|]. split; [reflexivity|].
  intros (cl & rd & H). discriminate.
Qed.

(** A complete transfer, for comparison. *)
Example complete_download_succeeds :
  let run := MultiAsset.installLatestBuilds (Sample.cfg "linux" "v1")
               Sample.serving (Sample.fetched [Sample.patcher])
               Sample.empty_world in
  fst run = (None, set_InstalledHash "abc123" (Sample.fetched [Sample.patcher]))
  /\ fs (snd run) !! "/home/u/.config/Velocity/patcher.js"
     = Some (mkFile "abcd" 420).
Proof. cbv zeta. split; [reflexivity | vm_compute; reflexivity]. Qed.

(** ** The single-archive [installLatestBuilds] *)

Section Archive.

Lemma find_downloadUrl_first (done : list Asset.t) (a : Asset.t) (rest : list Asset.t) :
  (forall b, In b done -> Asset.Name b <> "desktop.asar") ->
  Asset.Name a = "desktop.asar" ->
  DesktopAsar.find_downloadUrl (done ++ a :: rest) = Asset.DownloadURL a.
Proof.
  induction done as [|b done IH]; intros Hdone Ha; cbn [app DesktopAsar.find_downloadUrl].
  - rewrite Ha. reflexivity.
  - assert (Asset.Name b <> "desktop.asar") as Hb by (apply Hdone; now left).
    apply String.eqb_neq in Hb. rewrite Hb.
    apply IH; [|exact Ha]. intros c Hc. apply Hdone. now right.
Qed.

Lemma find_downloadUrl_none (assets : list Asset.t) :
  (forall b, In b assets -> Asset.Name b <> "desktop.asar") ->
  DesktopAsar.find_downloadUrl assets = "".
Proof.
  induction assets as [|b rest IH]; intros H; [reflexivity|].
  cbn [DesktopAsar.find_downloadUrl].
  assert (Asset.Name b <> "desktop.asar") as Hb by (apply H; now left).
  apply String.eqb_neq in Hb. rewrite Hb.
  apply IH. intros c Hc. apply H. now right.
Qed.

End Archive.

(** X13. The single-archive [installLatestBuilds] downloads the first
    asset named exactly [desktop.asar]; when the release has none, it
    fails with its own error before any request or file operation, and
    the variables are as before. *)
Theorem desktop_asar_is_looked_up_by_name
        (cfg : Config) (env : Env) (st : State) (w : World) :
  IsDevInstall st = false ->
  (forall done a rest,
      GithubRelease.Assets (ReleaseData st) = done ++ a :: rest ->
      (forall b, In b done -> Asset.Name b <> "desktop.asar") ->
      Asset.Name a = "desktop.asar" ->
      DesktopAsar.find_downloadUrl (GithubRelease.Assets (ReleaseData st))
      = Asset.DownloadURL a)
  /\ ((forall b, In b (GithubRelease.Assets (ReleaseData st)) ->
                 Asset.Name b <> "desktop.asar") ->
      DesktopAsar.installLatestBuilds cfg env st w
      = (Some (errors_New "did not find desktop.asar download link"), st, w)).
Proof.
  intros Hdev. split.
  - intros done a rest -> Hdone Ha. now apply find_downloadUrl_first.
  - intros Hnone. unfold DesktopAsar.installLatestBuilds.
    rewrite Hdev, (find_downloadUrl_none _ Hnone). reflexivity.
Qed.

Lemma desktop_asar_is_looked_up_by_name_witness :
  DesktopAsar.installLatestBuilds (Sample.cfg "linux" "v1") Sample.serving
    (Sample.fetched [Sample.patcher]) Sample.empty_world
  = (Some (errors_New "did not find desktop.asar download link"),
     Sample.fetched [Sample.patcher], Sample.empty_world).
Proof.
  apply (desktop_asar_is_looked_up_by_name (Sample.cfg "linux" "v1")
           Sample.serving (Sample.fetched [Sample.patcher])
           Sample.empty_world eq_refl).
  intros b [<-|[]]. discriminate.
Defined.

(** X14. Outside dev-install mode the single-archive [installLatestBuilds]
    returns nil exactly when a download link was found, the request went
    through with a status below 300, the destination could be opened,
    the body was read to its end, and the number of bytes read, in
    decimal, is the [Content-Length] header.  The destination then holds
    the body, and no other file has changed. *)
Theorem desktop_asar_success_iff
        (cfg : Config) (env : Env) (st : State) (w : World) :
  IsDevInstall st = false ->
  let url := DesktopAsar.find_downloadUrl (GithubRelease.Assets (ReleaseData st)) in
  let run := DesktopAsar.installLatestBuilds cfg env st w in
  (fst (fst run) = None
   <-> url <> ""
       /\ exists res,
            http_Get env url = Ok res
            /\ StatusCode res < 300
            /\ fault_OpenFile env (VelocityDirectory cfg) = None
            /\ BodyErr res = None
            /\ ContentLength res
               = strconv_FormatInt (Z.of_nat (String.length (Body res))))
  /\ (fst (fst run) = None ->
      exists res, http_Get env url = Ok res
                  /\ data <$> fs (snd run) !! VelocityDirectory cfg
                     = Some (Body res))
  /\ (forall p, p <> VelocityDirectory cfg -> fs (snd run) !! p = fs w !! p).
Proof.
  intros Hdev. cbv zeta. unfold DesktopAsar.installLatestBuilds. rewrite Hdev.
  destruct (String.eqb _ "") eqn:Hurl.
  { apply String.eqb_eq in Hurl. cbn. split; [|split].
    - split; [discriminate | intros [H _]; congruence].
    - discriminate.
    - reflexivity. }
  apply String.eqb_neq in Hurl.
  unfold FixOwnership, bind, http_get, ret.
  destruct (http_Get env _) as [res|e] eqn:Hget; cbn [fst snd].
  2:{ split; [|split].
      - split; [discriminate | intros (_ & res & H & _); discriminate].
      - discriminate.
      - reflexivity. }
  destruct (300 <=? StatusCode res) eqn:Hs; cbn [fst snd].
  { apply Z.leb_le in Hs. split; [|split].
    - split; [discriminate|].
      intros (_ & res' & H & Hlt & _). injection H as <-. lia.
    - discriminate.
    - reflexivity. }
  apply Z.leb_gt in Hs. unfold os_OpenFile.
  destruct (fault_OpenFile env (VelocityDirectory cfg)) eqn:Ho; cbn [fst snd].
  { split; [|split].
    - split; [discriminate|].
      intros (_ & res' & _ & _ & Ho' & _). discriminate.
    - discriminate.
    - reflexivity. }
  unfold io_Copy, log, set_fs. cbn [fs trace clock fst snd].
  rewrite lookup_insert_eq. cbn [data perm].
  destruct (BodyErr res) eqn:Hb; cbn [fst snd fs].
  { split; [|split].
    - split; [discriminate|].
      intros (_ & res' & H & _ & _ & Hb' & _). injection H as <-. congruence.
    - discriminate.
    - intros p Hp. rewrite !lookup_insert_ne by congruence. reflexivity. }
  destruct (String.eqb _ (ContentLength res)) eqn:Hlen; cbn [negb fst snd fs].
  - apply String.eqb_eq in Hlen. split; [|split].
    + split; [intros _|reflexivity]. split; [exact Hurl|].
      exists res. repeat split; try assumption. now symmetry.
    + intros _. exists res. split; [reflexivity|].
      rewrite lookup_insert_eq. reflexivity.
    + intros p Hp. rewrite !lookup_insert_ne by congruence. reflexivity.
  - apply String.eqb_neq in Hlen. split; [|split].
    + split; [discriminate|].
      intros (_ & res' & H & _ & _ & _ & Hcl). injection H as <-.
      exfalso. apply Hlen. now symmetry.
    + discriminate.
    + intros p Hp. rewrite !lookup_insert_ne by congruence. reflexivity.
Qed.

Lemma desktop_asar_success_iff_witness :
  fst (fst (DesktopAsar.installLatestBuilds (Sample.cfg "linux" "v1")
              (Sample.online (Sample.release "Velocity abc123" "v9" []) "4" "abcd")
              (Sample.fetched [Sample.desktop_asar]) Sample.empty_world))
  = None.
Proof.
  apply (proj1 (desktop_asar_success_iff (Sample.cfg "linux" "v1")
           (Sample.online (Sample.release "Velocity abc123" "v9" []) "4" "abcd")
           (Sample.fetched [Sample.desktop_asar]) Sample.empty_world eq_refl)).
  split; [discriminate|].
  exists (Sample.ok_response "4" "abcd"). repeat split.
Defined.

(** ** More on [UpdateSelf] *)

Ltac fault_case :=
  match goal with
  | |- context [match fault_Chmod ?e ?p with _ => _ end] =>
      destruct (fault_Chmod e p) eqn:?
  | |- context [match BodyErr ?r with _ => _ end] => destruct (BodyErr r) eqn:?
  | |- context [match fault_Close ?e ?p with _ => _ end] =>
      destruct (fault_Close e p) eqn:?
  | |- context [match fault_Remove ?e ?t ?p with _ => _ end] =>
      destruct (fault_Remove e t p) eqn:?
  | |- context [match fault_Rename ?e ?p ?q with _ => _ end] =>
      destruct (fault_Rename e p q) eqn:?
  | |- context [match ?m !! ?k with _ => _ end] => destruct (m !! k) eqn:?
  end;
  cbn [fs trace clock fst snd data perm].

Ltac fault_case_in H :=
  match type of H with
  | context [match fault_Chmod ?e ?p with _ => _ end] =>
      destruct (fault_Chmod e p) eqn:?
  | context [match BodyErr ?r with _ => _ end] => destruct (BodyErr r) eqn:?
  | context [match fault_Close ?e ?p with _ => _ end] =>
      destruct (fault_Close e p) eqn:?
  | context [match fault_Remove ?e ?t ?p with _ => _ end] =>
      destruct (fault_Remove e t p) eqn:?
  | context [match fault_Rename ?e ?p ?q with _ => _ end] =>
      destruct (fault_Rename e p q) eqn:?
  end;
  cbn [fs trace clock fst snd] in H;
  rewrite ?lookup_insert_eq in H; cbn [fs trace clock fst snd data perm] in H.

Section Replacement.

Variables (cfg : Config) (env : Env).
Variables (exe tmp : string) (res : Response).

(** The replacement sequence and the clean-up take no time and issue no
    request. *)
Lemma replace_self_quiet (w1 : World) :
  clock (snd (replace_self env exe tmp res w1)) = clock w1
  /\ http_gets (trace (snd (replace_self env exe tmp res w1)))
     = http_gets (trace w1).
Proof.
  cbv [replace_self bind ret file_Chmod io_Copy file_Close
       os_Remove os_Rename log set_fs tick].
  cbn [fs trace clock fst snd].
  repeat fault_case.
  all: split; [reflexivity|].
  all: rewrite ?http_gets_app; cbn [http_gets]; rewrite ?app_nil_r; reflexivity.
Qed.

Lemma cleanup_tmp_quiet (w2 : World) :
  clock (snd (cleanup_tmp env tmp w2)) = clock w2
  /\ http_gets (trace (snd (cleanup_tmp env tmp w2))) = http_gets (trace w2).
Proof.
  cbv [cleanup_tmp bind ret file_Close os_Remove log set_fs].
  cbn [fs trace clock fst snd].
  repeat fault_case.
  all: split; [reflexivity|].
  all: rewrite ?http_gets_app; cbn [http_gets]; rewrite ?app_nil_r; reflexivity.
Qed.

(** Unless the system refuses, the clean-up leaves no temporary file. *)
Lemma cleanup_tmp_removes (w2 : World) :
  fault_Remove env (clock w2) tmp = None ->
  fs (snd (cleanup_tmp env tmp w2)) !! tmp = None.
Proof.
  intros Hf. unfold cleanup_tmp, bind, ret, file_Close, os_Remove.
  rewrite Hf. destruct (fs w2 !! tmp) eqn:E; cbn.
  - apply lookup_delete_eq.
  - exact E.
Qed.

Lemma cleanup_tmp_absent (w2 : World) :
  fs w2 !! tmp = None -> fs (snd (cleanup_tmp env tmp w2)) = fs w2.
Proof.
  intros E. unfold cleanup_tmp, bind, ret, file_Close, os_Remove.
  destruct (fault_Remove env (clock w2) tmp); [reflexivity|].
  rewrite E. reflexivity.
Qed.

(** The replacement sequence touches three paths only. *)
Lemma replace_self_frame (w1 : World) (p : string) :
  p <> exe -> p <> exe +:+ ".old" -> p <> tmp ->
  fs (snd (replace_self env exe tmp res w1)) !! p = fs w1 !! p.
Proof.
  intros H1 H2 H3.
  cbv [replace_self bind ret file_Chmod io_Copy file_Close
       os_Remove os_Rename log set_fs tick].
  cbn [fs trace clock fst snd].
  repeat fault_case.
  all: repeat first [ rewrite lookup_insert_ne by congruence
                    | rewrite lookup_delete_ne by congruence ].
  all: reflexivity.
Qed.

(** What a successful replacement leaves behind. *)
Lemma replace_self_success (w1 w2 : World) (orig : File) :
  fs w1 !! exe = Some orig ->
  fs w1 !! tmp = Some (mkFile "" 384) ->
  tmp <> exe -> tmp <> exe +:+ ".old" ->
  replace_self env exe tmp res w1 = (None, w2) ->
  fs w2 !! exe = Some (mkFile (Body res) 493)
  /\ fs w2 !! tmp = None
  /\ fs w2 !! (exe +:+ ".old")
     = match fault_Remove env (clock w1) exe with
       | None => fs w1 !! (exe +:+ ".old")
       | Some _ => Some orig
       end
  /\ BodyErr res = None.
Proof.
  intros Hexe Htmp Hne1 Hne2 H.
  assert (exe <> exe +:+ ".old") as Hne3 by apply append_neq.
  cbv [replace_self bind ret file_Chmod io_Copy file_Close
       os_Remove os_Rename log set_fs tick] in H.
  cbn [fs trace clock fst snd] in H. rewrite Htmp in H.
  revert Hne2 Hne3 H. generalize (exe +:+ ".old"). intros old Hne2 Hne3 H.
  repeat fault_case_in H.
  all: simplify_map_eq.
  all: repeat split; reflexivity.
Qed.

End Replacement.

(** X15. [GetInstallerDownloadLink] is empty exactly on a platform other
    than windows, darwin and linux.  [UpdateSelf] issues at most one
    request, and only for the Windows CLI or GUI executable or the Linux
    binary: the macOS archive is never fetched, since darwin is refused
    before the link is used. *)
Theorem UpdateSelf_requests
        (cfg : Config) (env : Env) (s : SelfState) (w : World) :
  (GetInstallerDownloadLink cfg = ""
   <-> GOOS cfg <> "windows" /\ GOOS cfg <> "darwin" /\ GOOS cfg <> "linux")
  /\ (http_gets (trace (snd (UpdateSelf cfg env s w))) = http_gets (trace w)
      \/ exists url, In url self_update_links
                     /\ url = GetInstallerDownloadLink cfg
                     /\ http_gets (trace (snd (UpdateSelf cfg env s w)))
                        = http_gets (trace w) ++ [url]).
Proof.
  split.
  - unfold GetInstallerDownloadLink, Ternary. cbv zeta.
    destruct (String.eqb (GOOS cfg) "windows") eqn:Hw.
    { apply String.eqb_eq in Hw. split; [|tauto].
      destruct (String.eqb (UiType cfg) (UiTypeCli cfg)); discriminate. }
    destruct (String.eqb (GOOS cfg) "darwin") eqn:Hd.
    { apply String.eqb_eq in Hd. split; [discriminate | tauto]. }
    destruct (String.eqb (GOOS cfg) "linux") eqn:Hl.
    { apply String.eqb_eq in Hl. split; [discriminate | tauto]. }
    apply String.eqb_neq in Hw, Hd, Hl. tauto.
  - unfold UpdateSelf.
    destruct (CanUpdateSelf cfg s) eqn:Hcan; cbn [negb]; [|left; reflexivity].
    cbv zeta.
    destruct (String.eqb (GetInstallerDownloadLink cfg) "") eqn:Hurl;
      [left; reflexivity|].
    destruct (os_Executable env) as [ownExePath|e]; [|left; reflexivity].
    right. exists (GetInstallerDownloadLink cfg). split; [|split; [reflexivity|]].
    + unfold CanUpdateSelf in Hcan. apply andb_true_iff in Hcan as [_ Hd].
      apply negb_true_iff in Hd.
      revert Hurl. unfold GetInstallerDownloadLink, Ternary, self_update_links.
      cbv zeta. rewrite Hd.
      destruct (String.eqb (GOOS cfg) "windows").
      * destruct (String.eqb (UiType cfg) (UiTypeCli cfg)); intros _;
          [left; reflexivity | right; left; reflexivity].
      * destruct (String.eqb (GOOS cfg) "linux"); [|discriminate].
        intros _. right. right. left. reflexivity.
    + unfold bind at 1. unfold http_get at 1.
      destruct (http_Get env (GetInstallerDownloadLink cfg)) as [res|e];
        [|cbn; rewrite http_gets_app; reflexivity].
      unfold bind at 1. unfold os_CreateTemp at 1.
      destruct (fault_CreateTemp env _);
        [cbn; rewrite http_gets_app; reflexivity|].
      destruct (fs _ !! _);
        [cbn; rewrite http_gets_app; reflexivity|].
      rewrite defer_eq. cbn [snd].
      rewrite (proj2 (cleanup_tmp_quiet _ _ _)), (proj2 (replace_self_quiet _ _ _ _ _)).
      cbn [trace log set_fs]. rewrite !http_gets_app. cbn [http_gets].
      now rewrite app_nil_r.
Qed.

(** X16. [UpdateSelf] does not look at the response's status line or
    declared length: with any other status code, status text and
    [Content-Length] on the responses, it returns the same result and
    leaves the same world.  An error page served with status 404 is
    installed like a binary. *)
Theorem UpdateSelf_ignores_status
        (cfg : Config) (env : Env) (s : SelfState) (w : World)
        (code : Z) (status len : string) :
  UpdateSelf cfg (restatus code status len env) s w = UpdateSelf cfg env s w.
Proof.
  unfold UpdateSelf.
  destruct (negb (CanUpdateSelf cfg s)); [reflexivity|]. cbv zeta.
  destruct (String.eqb (GetInstallerDownloadLink cfg) ""); [reflexivity|].
  change (os_Executable (restatus code status len env)) with (os_Executable env).
  destruct (os_Executable env) as [ownExePath|e]; [|reflexivity].
  unfold bind at 1 3. unfold http_get at 1 2.
  change (http_Get (restatus code status len env) (GetInstallerDownloadLink cfg))
    with (match http_Get env (GetInstallerDownloadLink cfg) with
          | Ok res => Ok (mkResponse code status len (Body res) (BodyErr res))
          | Err e => Err e
          end).
  destruct (http_Get env (GetInstallerDownloadLink cfg)) as [res|e];
    reflexivity.
Qed.

Example UpdateSelf_installs_an_error_page :
  let run := UpdateSelf (Sample.cfg "linux" "v1")
               (restatus 404 "404 Not Found" "12" Sample.update_server)
               (mkSelfState true []) Sample.world_with_exe in
  fst run = None
  /\ fs (snd run) !! Sample.exe = Some (mkFile "installer v2" 493).
Proof. split; vm_compute; reflexivity. Qed.

(** X17. A call of [UpdateSelf] that ends before the temporary file is
    created (no update or darwin, no download link, no path of the
    executable, a failed request, a failed [CreateTemp]) returns an error
    and changes no file. *)
Theorem UpdateSelf_early_failure_changes_nothing
        (cfg : Config) (env : Env) (s : SelfState) (w : World) :
  CanUpdateSelf cfg s = false
  \/ GetInstallerDownloadLink cfg = ""
  \/ (exists e, os_Executable env = Err e)
  \/ (exists e, http_Get env (GetInstallerDownloadLink cfg) = Err e)
  \/ (exists exe, os_Executable env = Ok exe
                  /\ fault_CreateTemp env (path_Dir cfg exe) <> None) ->
  fst (UpdateSelf cfg env s w) <> None
  /\ fs (snd (UpdateSelf cfg env s w)) = fs w.
Proof.
  intros H. unfold UpdateSelf.
  destruct (CanUpdateSelf cfg s) eqn:Hcan; cbn [negb];
    [|split; [discriminate | reflexivity]].
  cbv zeta.
  destruct (String.eqb (GetInstallerDownloadLink cfg) "") eqn:Hurl;
    [split; [discriminate | reflexivity]|].
  apply String.eqb_neq in Hurl.
  destruct (os_Executable env) as [exe|e] eqn:Hexe;
    [|split; [discriminate | reflexivity]].
  unfold bind, http_get, os_CreateTemp.
  destruct (http_Get env (GetInstallerDownloadLink cfg)) as [res|e] eqn:Hget;
    [|split; [discriminate | reflexivity]].
  destruct (fault_CreateTemp env (path_Dir cfg exe)) eqn:Hct;
    [split; [discriminate | reflexivity]|].
  exfalso.
  destruct H as [H|[H|[[e H]|[[e H]|(exe' & H & Hf)]]]]; try congruence.
Qed.

Lemma UpdateSelf_early_failure_changes_nothing_witness :
  fst (UpdateSelf (Sample.cfg "linux" "v1") Sample.offline
         (mkSelfState true []) Sample.world_with_exe) <> None
  /\ fs (snd (UpdateSelf (Sample.cfg "linux" "v1") Sample.offline
                (mkSelfState true []) Sample.world_with_exe))
     = fs Sample.world_with_exe.
Proof.
  apply (UpdateSelf_early_failure_changes_nothing (Sample.cfg "linux" "v1")
           Sample.offline (mkSelfState true []) Sample.world_with_exe).
  right. right. right. left.
  exists (ext_error "dial tcp: no route to host"). reflexivity.
Defined.

(** X18. When [UpdateSelf] returns nil, the executable's path holds
    exactly the body of the response with mode 0755, the temporary file
    is gone, and the [.old] path holds the previous executable if its
    removal had been refused and is untouched otherwise. *)
Theorem UpdateSelf_success
        (cfg : Config) (env : Env) (s : SelfState) (w w' : World)
        (exe : string) (orig : File) :
  let tmp := path_Join cfg (path_Dir cfg exe)
               ("VelocityInstallerUpdate" +:+ temp_suffix env) in
  let old := exe +:+ ".old" in
  os_Executable env = Ok exe ->
  fs w !! exe = Some orig ->
  tmp <> old ->
  UpdateSelf cfg env s w = (None, w') ->
  exists res,
    http_Get env (GetInstallerDownloadLink cfg) = Ok res
    /\ BodyErr res = None
    /\ fs w' !! exe = Some (mkFile (Body res) 493)
    /\ fs w' !! tmp = None
    /\ fs w' !! old = match fault_Remove env (clock w) exe with
                      | None => fs w !! old
                      | Some _ => Some orig
                      end.
Proof.
  intros tmp old Hexe Horig Hne H. unfold UpdateSelf in H.
  destruct (negb (CanUpdateSelf cfg s)); [discriminate|]. cbv zeta in H.
  destruct (String.eqb (GetInstallerDownloadLink cfg) ""); [discriminate|].
  rewrite Hexe in H. unfold bind at 1 in H. unfold http_get at 1 in H.
  destruct (http_Get env (GetInstallerDownloadLink cfg)) as [res|e];
    [|discriminate].
  unfold bind at 1 in H. unfold os_CreateTemp at 1 in H.
  destruct (fault_CreateTemp env (path_Dir cfg exe)); [discriminate|].
  cbn [fs log] in H. fold tmp in H.
  destruct (fs w !! tmp) eqn:Hfresh; [discriminate|].
  assert (tmp <> exe) as Hne' by (intros E; rewrite E in Hfresh; congruence).
  rewrite defer_eq in H.
  destruct (replace_self env exe tmp res _) as [r w2] eqn:Hbody.
  cbn [fst snd] in H. injection H as -> <-.
  pose proof (fun H1 H2 =>
                replace_self_success env exe tmp res _ w2 orig H1 H2 Hne' Hne Hbody)
    as Hs.
  cbn [fs clock log set_fs] in Hs.
  rewrite lookup_insert_eq, !lookup_insert_ne in Hs by assumption.
  destruct (Hs Horig eq_refl) as (Hx & Ht & Ho & Hb).
  - exists res. rewrite (cleanup_tmp_absent env tmp w2 Ht).
    split; [reflexivity|]. split; [exact Hb|]. split; [exact Hx|].
    split; [exact Ht|].
    unfold old. rewrite Ho. reflexivity.
Qed.

Lemma UpdateSelf_success_witness :
  exists res,
    http_Get Sample.locked_exe
      (GetInstallerDownloadLink (Sample.cfg "linux" "v1")) = Ok res
    /\ BodyErr res = None
    /\ fs (snd (UpdateSelf (Sample.cfg "linux" "v1") Sample.locked_exe
                  (mkSelfState true []) Sample.world_with_exe)) !! Sample.exe
       = Some (mkFile (Body res) 493)
    /\ fs (snd (UpdateSelf (Sample.cfg "linux" "v1") Sample.locked_exe
                  (mkSelfState true []) Sample.world_with_exe)) !! Sample.tmp
       = None
    /\ fs (snd (UpdateSelf (Sample.cfg "linux" "v1") Sample.locked_exe
                  (mkSelfState true []) Sample.world_with_exe))
       !! (Sample.exe +:+ ".old")
       = match fault_Remove Sample.locked_exe 0 Sample.exe with
         | None => fs Sample.world_with_exe !! (Sample.exe +:+ ".old")
         | Some _ => Some Sample.installer_v1
         end.
Proof.
  apply (UpdateSelf_success (Sample.cfg "linux" "v1") Sample.locked_exe
           (mkSelfState true []) Sample.world_with_exe
           (snd (UpdateSelf (Sample.cfg "linux" "v1") Sample.locked_exe
                   (mkSelfState true []) Sample.world_with_exe))
           Sample.exe Sample.installer_v1).
  - reflexivity.
  - vm_compute. reflexivity.
  - discriminate.
  - vm_compute. reflexivity.
Defined.

(** X19. Whatever way [UpdateSelf] ends, it leaves no temporary file
    behind, provided the system does not refuse the deferred removal
    (and no file of that name existed before the call). *)
Theorem UpdateSelf_leaves_no_temp_file
        (cfg : Config) (env : Env) (s : SelfState) (w : World) (exe : string) :
  let tmp := path_Join cfg (path_Dir cfg exe)
               ("VelocityInstallerUpdate" +:+ temp_suffix env) in
  os_Executable env = Ok exe ->
  fs w !! tmp = None ->
  fault_Remove env (clock w) tmp = None ->
  fs (snd (UpdateSelf cfg env s w)) !! tmp = None.
Proof.
  intros tmp Hexe Hfresh Hrm. unfold UpdateSelf.
  destruct (negb (CanUpdateSelf cfg s)); [exact Hfresh|]. cbv zeta.
  destruct (String.eqb (GetInstallerDownloadLink cfg) ""); [exact Hfresh|].
  rewrite Hexe. unfold bind, http_get, os_CreateTemp.
  destruct (http_Get env (GetInstallerDownloadLink cfg)) as [res|e];
    [|exact Hfresh].
  destruct (fault_CreateTemp env (path_Dir cfg exe)); [exact Hfresh|].
  cbn [fs log]. fold tmp. rewrite Hfresh.
  rewrite defer_eq. cbn [snd].
  apply cleanup_tmp_removes.
  rewrite (proj1 (replace_self_quiet env exe tmp res _)). exact Hrm.
Qed.

Lemma UpdateSelf_leaves_no_temp_file_witness :
  fs (snd (UpdateSelf (Sample.cfg "linux" "v1") Sample.no_rename
             (mkSelfState true []) Sample.world_with_exe)) !! Sample.tmp = None.
Proof.
  apply (UpdateSelf_leaves_no_temp_file (Sample.cfg "linux" "v1") Sample.no_rename
           (mkSelfState true []) Sample.world_with_exe Sample.exe).
  - reflexivity.
  - vm_compute. reflexivity.
  - reflexivity.
Defined.

(** X20. [UpdateSelf] touches three paths at most: the executable, its
    [.old] sibling and the temporary file.  Every other file is after the
    call what it was before, however the call ends. *)
Theorem UpdateSelf_touches_three_paths
        (cfg : Config) (env : Env) (s : SelfState) (w : World) (p : string) :
  (forall exe, os_Executable env = Ok exe ->
               p <> exe /\ p <> exe +:+ ".old"
               /\ p <> path_Join cfg (path_Dir cfg exe)
                         ("VelocityInstallerUpdate" +:+ temp_suffix env)) ->
  fs (snd (UpdateSelf cfg env s w)) !! p = fs w !! p.
Proof.
  intros Hp. unfold UpdateSelf.
  destruct (negb (CanUpdateSelf cfg s)); [reflexivity|]. cbv zeta.
  destruct (String.eqb (GetInstallerDownloadLink cfg) ""); [reflexivity|].
  destruct (os_Executable env) as [exe|e]; [|reflexivity].
  destruct (Hp exe eq_refl) as (H1 & H2 & H3).
  unfold bind, http_get, os_CreateTemp.
  destruct (http_Get env (GetInstallerDownloadLink cfg)) as [res|e];
    [|reflexivity].
  destruct (fault_CreateTemp env (path_Dir cfg exe)); [reflexivity|].
  cbn [fs log].
  destruct (fs w !! _); [reflexivity|].
  rewrite defer_eq. cbn [snd].
  rewrite cleanup_tmp_frame by assumption.
  rewrite replace_self_frame by assumption.
  cbn [fs log set_fs]. apply lookup_insert_ne. congruence.
Qed.

Lemma UpdateSelf_touches_three_paths_witness :
  fs (snd (UpdateSelf (Sample.cfg "linux" "v1") Sample.update_server
             (mkSelfState true [])
             (mkWorld {[ Sample.exe := Sample.installer_v1;
                         "/etc/hosts" := mkFile "127.0.0.1 localhost" 420 ]} [] 0)))
     !! "/etc/hosts"
  = fs (mkWorld {[ Sample.exe := Sample.installer_v1;
                   "/etc/hosts" := mkFile "127.0.0.1 localhost" 420 ]} [] 0)
       !! "/etc/hosts".
Proof.
  apply (UpdateSelf_touches_three_paths (Sample.cfg "linux" "v1")
           Sample.update_server (mkSelfState true [])).
  intros exe H. injection H as <-. repeat split; discriminate.
Defined.

(** ** More on [DeleteOldExecutable] *)

Lemma remove_old_loop_effect (env : Env) (old : string) (fuel : nat) :
  forall w : World,
    (fs (snd (remove_old_loop env old fuel w)) = fs w
     \/ fs (snd (remove_old_loop env old fuel w)) = delete old (fs w))
    /\ (clock (snd (remove_old_loop env old fuel w)) <= clock w + fuel)%nat.
Proof.
  induction fuel as [|fuel IH]; intros w; cbn [remove_old_loop].
  - cbn. split; [left; reflexivity | lia].
  - unfold bind.
    destruct (os_Remove_attempt env old w) as (_ & _ & Hcl & Hfs).
    destruct (os_Remove env old w) as [err w1]. cbn [fst snd] in *.
    destruct (isNil err || _).
    + cbn. split; [|lia].
      rewrite Hfs. destruct (fault_Remove env (clock w) old);
        [left | right]; reflexivity.
    + unfold time_Sleep at 1 2 3. cbv beta iota.
      destruct (IH (log EvSleep (tick w1))) as [Hf Hc].
      cbn [fs clock log tick] in Hf, Hc. split; [|lia].
      rewrite Hfs in Hf.
      destruct (fault_Remove env (clock w) old); [exact Hf|].
      destruct Hf as [Hf|Hf]; right; rewrite Hf; [reflexivity|].
      apply delete_id. apply lookup_delete_eq.
Qed.

(** X21. [DeleteOldExecutable] can change the file system in one way
    only, by removing the [.old] sibling of the running executable: all
    other files, the running executable included, are never touched; and
    it pauses for ten seconds at most. *)
Theorem DeleteOldExecutable_only_removes_old (env : Env) (w : World) :
  let w' := snd (DeleteOldExecutable env w) in
  (fs w' = fs w
   \/ exists exe, os_Executable env = Ok exe
                  /\ fs w' = delete (exe +:+ ".old") (fs w))
  /\ (forall exe, os_Executable env = Ok exe -> fs w' !! exe = fs w !! exe)
  /\ (clock w' <= clock w + 10)%nat.
Proof.
  cbv zeta. unfold DeleteOldExecutable.
  destruct (os_Executable env) as [exe|e].
  - destruct (remove_old_loop_effect env (exe +:+ ".old") 10 w) as [[Hf|Hf] Hc].
    + split; [left; exact Hf|]. split; [|exact Hc].
      intros exe' _. now rewrite Hf.
    + split; [right; exists exe; split; [reflexivity | exact Hf]|].
      split; [|exact Hc].
      intros exe' H. injection H as <-. rewrite Hf.
      apply lookup_delete_ne. intros E. symmetry in E. revert E. apply append_neq.
  - cbn. split; [left; reflexivity|]. split; [discriminate | lia].
Qed.

(** ** [RelaunchSelf] *)

(** X22. [RelaunchSelf] never returns nil.  It starts the child with
    [os.Args[0]] and exactly the arguments that follow it; the process
    exits, with status 0, exactly when both the start and the release of
    the child went through; when the release fails the child has been
    started all the same and the parent gets the error back. *)
Theorem RelaunchSelf_outcome (penv : ProcEnv) (arg0 : string) (args : list string) :
  os_Args penv = arg0 :: args ->
  let out := fst (RelaunchSelf penv) in
  let evs := snd (RelaunchSelf penv) in
  out <> Returned None
  /\ out <> Panicked
  /\ (out = Exited 0
      <-> fault_StartProcess penv arg0 args = None /\ fault_Release penv = None)
  /\ (forall code, out = Exited code ->
        evs = [EvStartProcess arg0 args; EvRelease; EvExit 0])
  /\ (forall name argv, In (EvStartProcess name argv) evs ->
        name = arg0 /\ argv = args)
  /\ (forall e, fault_StartProcess penv arg0 args = None ->
        fault_Release penv = Some e ->
        out = Returned (Some (fmt_Errorf "failed to release new process" e))
        /\ evs = [EvStartProcess arg0 args]).
Proof.
  intros Hargs. cbv zeta. unfold RelaunchSelf. rewrite Hargs. cbv zeta.
  assert ((if 1 <? Z.of_nat (length (arg0 :: args))
           then List.skipn 1 (arg0 :: args) else []) = args) as ->.
  { destruct args as [|a args]; [reflexivity|].
    cbn [length]. replace (1 <? Z.of_nat (S (S (length args)))) with true
      by (symmetry; apply Z.ltb_lt; lia).
    reflexivity. }
  destruct (fault_StartProcess penv arg0 args) as [e1|];
    [|destruct (fault_Release penv) as [e2|]]; cbn [fst snd].
  - repeat split; try discriminate.
    + intros [H _]; discriminate.
    + destruct H.
    + destruct H.
  - repeat split; try discriminate.
    + intros [_ H]; discriminate.
    + destruct H as [H|[]]. now injection H.
    + destruct H as [H|[]]. now injection H.
    + injection H0 as <-. reflexivity.
  - split; [discriminate|]. split; [discriminate|].
    split; [split; [split; reflexivity | reflexivity]|].
    split; [reflexivity|].
    split; [|discriminate].
    intros name argv [H|[H|[H|[]]]]; try discriminate.
    injection H as <- <-. split; reflexivity.
Qed.

Lemma RelaunchSelf_outcome_witness :
  fst (RelaunchSelf (mkProcEnv ["installer"; "--install"; "--branch"; "stable"]
                       (fun _ _ => None) None))
  = Exited 0.
Proof.
  apply (RelaunchSelf_outcome
           (mkProcEnv ["installer"; "--install"; "--branch"; "stable"]
              (fun _ _ => None) None)
           "installer" ["--install"; "--branch"; "stable"] eq_refl).
  split; reflexivity.
Defined.

Example RelaunchSelf_without_arguments :
  RelaunchSelf (mkProcEnv ["installer"] (fun _ _ => None) None)
  = (Exited 0, [EvStartProcess "installer" []; EvRelease; EvExit 0]).
Proof. reflexivity. Qed.

(** ** Nothing to download; what a dev build can do *)

Lemma download_all_none_selected
      (cfg : Config) (env : Env) (distDir : string) (assets : list Asset.t) :
  List.filter selected assets = [] ->
  forall w, MultiAsset.download_all cfg env distDir assets w = (None, w).
Proof.
  induction assets as [|a rest IH]; intros Hsel w; [reflexivity|].
  cbn [List.filter] in Hsel. cbn [MultiAsset.download_all].
  unfold selected at 1 in Hsel. cbv zeta in Hsel.
  destruct (gostrings.HasSuffix _ ".legal.txt"); [now apply IH|].
  destruct (MultiAsset.wanted _); [discriminate | now apply IH].
Qed.

(** X23. When no asset of [ReleaseData] is selected (an empty asset list,
    as before any release has been fetched, or a release of ASCII names
    none of which matches), the multi-asset [installLatestBuilds] only creates the
    directory, requests and writes nothing, returns nil and records
    [LatestHash] as the installed build. *)
Theorem installing_nothing_counts_as_installed
        (cfg : Config) (env : Env) (st : State) (w : World) :
  ascii_names (GithubRelease.Assets (ReleaseData st)) = true ->
  IsDevInstall st = false ->
  fault_MkdirAll env (path_Dir cfg (VelocityDirectory cfg)) = None ->
  List.filter selected (GithubRelease.Assets (ReleaseData st)) = [] ->
  MultiAsset.installLatestBuilds cfg env st w
  = (None, set_InstalledHash (LatestHash st) st,
     log (EvMkdirAll (path_Dir cfg (VelocityDirectory cfg))) w).
Proof.
  intros _ Hdev Hmk Hsel. unfold MultiAsset.installLatestBuilds.
  rewrite Hdev. unfold bind, os_MkdirAll, ret. rewrite Hmk.
  rewrite (download_all_none_selected _ _ _ _ Hsel). reflexivity.
Qed.

Lemma installing_nothing_counts_as_installed_witness :
  MultiAsset.installLatestBuilds (Sample.cfg "linux" "v1") Sample.offline
    initial_State Sample.empty_world
  = (None, set_InstalledHash "Unknown" initial_State,
     log (EvMkdirAll "/home/u/.config/Velocity") Sample.empty_world).
Proof.
  apply (installing_nothing_counts_as_installed (Sample.cfg "linux" "v1")
           Sample.offline initial_State Sample.empty_world);
    reflexivity.
Defined.

(** X24. After process start, [CanUpdateSelf] holds exactly when the
    build has a known tag, the installer's release feed could be fetched,
    its tag is not the embedded one, and the platform is not darwin.  A
    build with the unknown tag can therefore never update itself. *)
Theorem CanUpdateSelf_after_startup (cfg : Config) (env : Env) (w : World) :
  CanUpdateSelf cfg (fst (startup cfg env w)) = true
  <-> InstallerTag cfg <> VersionUnknown cfg
      /\ GOOS cfg <> "darwin"
      /\ exists res,
           fst (GetGithubRelease env InstallerReleaseUrl w) = Ok res
           /\ GithubRelease.TagName res <> InstallerTag cfg.
Proof.
  unfold CanUpdateSelf. rewrite andb_true_iff, negb_true_iff.
  destruct (String.eqb (InstallerTag cfg) (VersionUnknown cfg)) eqn:Htag.
  - unfold startup, init. rewrite Htag. cbn.
    apply String.eqb_eq in Htag.
    split; [intros [H _]; discriminate | intros [H _]; contradiction].
  - apply String.eqb_neq in Htag.
    rewrite (startup_unfold cfg env w Htag), self_update_check_outcome.
    rewrite (GetGithubRelease_answer env InstallerReleaseUrl
               (snd (DeleteOldExecutable env w)) w).
    destruct (fst (GetGithubRelease env InstallerReleaseUrl w)) as [res|e]; cbn.
    + rewrite negb_true_iff. split.
      * intros [H1 H2]. split; [exact Htag|].
        split; [now apply String.eqb_neq|].
        exists res. split; [reflexivity | now apply String.eqb_neq].
      * intros (_ & Hd & res' & H & Hne). injection H as <-.
        split; now apply String.eqb_neq.
    + split; [intros [H _]; discriminate|].
      intros (_ & _ & res & H & _). discriminate.
Qed.
